(* ===== verification/_CoqProject ===== *)
-Q . S2P
Prelude.v
Diagnostics.v
Fixes.v
MessageQueue.v
CodeActions.v
ClientConfig.v
ClientSync.v
Settings.v
Guards.v
Regex.v
ErrorChain.v
Validate.v
Session.v
SessionProps.v
