(* ===== verification/Prelude.v ===== *)
(** * A verification development of the vscode-standardjs language server

    The repository bundles, under
    [src/.vscode/extensions/chenxsan.vscode-standardjs-1.4.1/], a VS Code
    extension made of a language client ([client/out/extension.js]) and a
    language server ([server/out/server.js]).  The server is the only part
    of the repository with real ordering, caching and conflict-resolution
    logic: it keeps, per open document, the auto-fixes the linter proposed,
    serialises validation work on one buffered message queue, and turns the
    recorded fixes into conflict-free edit batches for code actions and
    fix-on-save.  The rest of the repository (snippet providers of the Django
    extension, an Angular module, the client's activation and status-bar
    wiring) is glue over a host API and is not modelled.

    ** How the server's parts interact

    Host events (open / change / save / close / will-save) resolve the
    document's settings and push a validate notification on the message
    queue ([BufferedMessageQueue]); the queue is drained one item per
    [setImmediate] tick, re-checking the document version captured at
    enqueue time against the live one.  A validation ([validate]) clears the
    document's recorded fixes ([codeActions]), runs the linter and converts
    each problem into a diagnostic ([makeDiagnostic]), recording the fix of
    each fixable problem under a key computed from the diagnostic
    ([computeKey], [recordCodeAction]).  Code-action requests and the
    apply-fix commands later read the recorded fixes back through the
    [Fixes] class, whose [getOverlapFree] method sorts them and keeps a
    greedy, overlap-free subset.

    ** Files, in dependency order

    - [Prelude] (this file): the JavaScript runtime semantics the server
      relies on and that the components share: [Map] as an insertion-ordered
      association list ([JSMap]), [Array.prototype.sort] as a stable
      insertion sort driven by a comparator returning a number
      ([JSSort]), the array helpers; the [lsp] hint database and the tactics
      of the development.
    - [Diagnostics]: [makeDiagnostic], [convertSeverity], [computeKey],
      [recordCodeAction] and the per-document conversion loop of [validate]
      on the [codeActions] store; theorems on 0-based, non-negative ranges,
      the fail-closed severity mapping, which problems get a fix recorded,
      and that the store after a validation run holds exactly the fixable
      problems of that run, all stamped with the run's document version.
    - [Fixes]: the fix reconciler, i.e. the [Fixes] class of server.js
      (lines 784-845): the data of a recorded fix ([FixRecord], [Edit]),
      [overlaps], the sort comparator of [getAllSorted], [getOverlapFree],
      [getScoped], [isEmpty], [getDocumentVersion].  Theorems: the sorted
      order is a permutation ordered by (start, end) offsets for well-formed
      ranges, insertions precede replacements at the same offset, the
      comparator is antisymmetric except on two insertions at offset 0, the
      overlap-free batch is a sub-list with no two overlapping edits (for
      every pair, not only neighbours), it is maximal (every dropped fix
      overlaps an accepted one), and the greedy sweep is characterised by a
      reference specification.
    - [MessageQueue]: [BufferedMessageQueue] (lines 294-386) as explicit
      state passing over a shared document store: [trigger] with its timer
      flag, [processQueue], the request / notification dispatch with
      cancellation and staleness checks; theorems that stale or cancelled
      items never reach their handler and leave the queue stalled, and that
      when every queued item is dispatchable the drain empties the queue
      and answers each request once, in queue order.
    - [CodeActions]: the code-action request handler (lines 847-914),
      [computeAllFixes] (915-932) and [getFixes] (419-433): the same-rule and
      all-fixes batches it builds equal the reconciler's overlap-free batch
      (restricted to the rule for the same-rule batch), and no batch is
      produced against a document whose version moved on.
    - [ClientConfig]: the client side (client/out/extension.js):
      [shouldBeValidated] (122-138), the [provideCodeActions] middleware
      (318-333) and the [workspace.configuration] middleware (335-432) that
      builds the settings the server receives (validate / autoFix flags,
      longest-prefix working directory).  Theorems: the working directory
      is the first longest prefix candidate, auto-fix-on-save implies
      validate and autoFix, and two divergences (the middleware reads the key
      [enabled] where the rest of the client uses [enable]; only diagnostics
      whose source is [standard] reach code actions).
    - [ClientSync]: the client's [syncedDocuments] middleware
      (extension.js 229-317): [didOpen], the forwarding of change and save
      events, [didClose] and the configuration-change resync, over the
      host's open documents and events ([cstep]), with the language
      client's [documentSelector] test.  Theorems: along every run the
      notifications sent are accepted by the server's document manager and
      leave exactly the recorded URIs open ([replay]); a document outside
      the selector opened by the resync stays open on the server after the
      host closes it.
    - [Settings]: [resolveSettings] (server.js 167-277) with its per-URI
      promise cache ([document2Settings]), the [package.json] step and the
      library cache ([path2Library]); promises are allocated identifiers.
      Theorems on the cache and its invalidation, and on three behaviours
      the spec words differently (an unusable library cached for later
      documents, the engine left unchanged by a devDependency, a malformed
      [package.json] rejecting the cached promise for good).
    - [Guards]: [Is.boolean], [Is.string], [ValidateItem.is] and
      [DirectoryItem.is] of extension.js (12-38) and of client/out/utils/,
      and the decoding of the [standard.validate] and
      [standard.workingDirectories] entries (366-402) into [ClientConfig]'s
      entries.  A [JsonInterface] class gives each TypeScript interface its
      JSON encoding and field reading, with the round-trip law; the theorem
      is that each guard accepts exactly the values the reading accepts, and
      that both versions of each guard agree.
    - [Regex]: the ECMAScript semantics of the regular expressions the
      error handlers use (greedy class quantifiers with backtracking,
      capturing groups, leftmost [exec]) and [replace(/\r?\n/g, ' ')].
    - [ErrorChain]: [singleErrorHandlers] (511-516), the [catch] block of
      [validateSingle] (531-541), [getMessage], the three handlers with their
      report maps, [showErrorMessage] and the watched-files handler
      (549-783).  Theorems: reporting once per key, a status always sent
      while the maps are [Map]s, the [TypeError] the watched-files handler
      causes by installing [Object.create(null)], the retry of failed
      configuration files, the config-file regex round trip, and one-line
      messages.

    - [Validate]: [validate] (563-669) and the [then] callback of
      [validateSingle] (523-542) in an exception-and-state monad over a
      Node process record ([Proc]: working directory, fixes, published
      diagnostics, [ErrorChain]'s state, console, [nextTick] and I/O
      queues, and the host's document objects, which a [didChange] updates
      in place while callbacks are pending): option merging, the working-directory choice with [isUNC]
      and [getFilePath], [process.chdir] and the [finally] that undoes it,
      [parseOpts], and the [async.waterfall] whose [deglob] and [lintText]
      callbacks are tasks of an event-loop relation [vstep].  Theorems: the
      working directory is restored on every path; in every reachable
      state the pending lint results were computed in the initial
      directory (the configured [changeProcessCWD] never reaches the
      linter); a missing working directory goes to the handler chain with
      nothing else changed; a lint error reaches only
      [tryHandleMissingModule] and never changes the [ok] status; an
      ignored file keeps its old diagnostics; [isUNC] is exactly its
      documented pattern; with nothing interleaved, the pipeline refines
      [Diagnostics.runValidation], the atomic validation step of
      [Session]; and a change that arrives while [deglob] is pending makes
      the fixes of the old text be recorded for the new version, which the
      will-save handler then applies to the new text.
    - [Session]: the server as an event loop over one world ([World]: the
      message queue of [MessageQueue] and a [Server] record with the
      document manager, a heap of [TextDocument] objects (updated in place
      on change, a new object on open, left reachable from queued items on
      close), the settings promises of [Settings] with their pending
      [then] reactions, the microtask queue, the [codeActions] store, the
      published diagnostics and the will-save replies).  The handlers of
      lines 400-472 ([hostOpen], [hostChange], [hostSave], [hostClose],
      [hostWillSave]), [validateSingle], [environmentChanged] and the
      client's configuration answers are the rules of [step]; a macrotask
      (host event, answer, [setImmediate] tick) runs only when the microtask
      queue is empty.  One [validate] run is one atomic step
      ([runValidation] of [Diagnostics]): exact when no host event arrives
      while its callbacks are pending ([Validate]'s refinement theorem),
      and not otherwise ([Validate]'s change-during-[deglob] theorem).
    - [SessionProps]: a concrete trace of thirteen steps of [Session.step]
      that shows the stale fixes a close and re-open at the same version
      lets through to the will-save reply.

    ** What the development leaves for later

    - The code-action and execute-command requests, and [Validate]'s
      pipeline in place of the atomic validation, as steps of
      [Session.step]; [Validate.validation_refines_runValidation] is the
      bridge for the runs without interleaving, and [Validate] already
      holds the interleavings of host changes with the pipeline's
      callbacks.  Invariants of [Session.step] that depend on validations
      being atomic (one version per URI among the recorded fixes) are not
      stated: they fail for the real server.
    - The client's activation and status-bar logic (extension.js 139-228),
      which only drives the host's UI.

    ** What is not modelled, and why

    The external linter ([lintText], [parseOpts]), [deglob], the file system
    and module resolution ([Files.resolve], [require], [path.join],
    [path.dirname], [URI] parsing) are black boxes: the models take their
    results as inputs or as Section parameters.  The client's activation,
    status bar and commands, the Django extension's snippet providers and
    the Angular module only wire host APIs together and are not modelled.
    The [StatusNotification] modules are the [Status] enum and method name
    of [ErrorChain].  The utils/ guards [require('./Is')], a module the
    package does not ship; [Guards] models them with extension.js's [Is].
    What the host libraries do around the code is modelled from their
    documented behaviour: the language client runs the middleware only for
    documents its selector matches ([ClientSync]), [TextDocuments] updates
    its objects in place ([Session]), [process.chdir] throws on a missing
    directory and callbacks run from the [nextTick] queue before I/O
    completions ([Validate]).
    Text positions ([positionAt]) and the LSP wire format are the
    vscode-languageserver library's and are kept abstract.

    ** Bounds and fuel

    Offsets and versions are JavaScript numbers used as integers and are
    modelled as [Z] (no wrap-around: they stay far below 2^53).  The only
    loop that is not structural is the queue drain, which consumes one item
    per tick; it is modelled with a fuel argument and proved to empty the
    queue with fuel equal to the queue length plus one when every item is
    dispatchable (one tick per item, one for the empty queue).  The regex matcher recurses on
    the pattern and the input ([runs] on the input, [search] on its
    suffixes) and needs no fuel.  The host-name scan of [isUNC] takes the
    path's length as fuel, which is enough since the loop stops at the end
    of the path at the latest.  Strings are Rocq strings of 8-bit code
    units, so the regex classes are exact for ASCII text only.  The event
    loop of [Session] is a relation, not a function: its theorems are about
    every finite run from the initial world ([rtc]), and its concrete trace
    is checked step by step by evaluation.
*)

From Stdlib Require Import ZArith Lia Sorted Permutation.
From stdpp Require Import base list sets strings.

Declare Scope js_scope.
Delimit Scope js_scope with js.
Open Scope Z_scope.

Create HintDb lsp discriminated.
Create Rewrite HintDb lsp_rw.

(** ** Tactics shared by the development *)

Ltac invc H := inversion H; clear H; subst.

(** Case analysis on the boolean integer comparisons the JavaScript code
    performs ([===], [<], [>], [<=] on numbers). *)
Ltac destruct_zcmp :=
  repeat match goal with
  | |- context [Z.eqb ?a ?b] => destruct (Z.eqb_spec a b)
  | |- context [Z.ltb ?a ?b] => destruct (Z.ltb_spec a b)
  | |- context [Z.leb ?a ?b] => destruct (Z.leb_spec a b)
  | |- context [Z.gtb ?a ?b] => rewrite (Z.gtb_ltb a b); destruct (Z.ltb_spec b a)
  | H : context [Z.eqb ?a ?b] |- _ => destruct (Z.eqb_spec a b)
  | H : context [Z.ltb ?a ?b] |- _ => destruct (Z.ltb_spec a b)
  | H : context [Z.gtb ?a ?b] |- _ => rewrite (Z.gtb_ltb a b) in H; destruct (Z.ltb_spec b a)
  end.

(** ** JavaScript [Map]: an insertion-ordered association list

    [Map.prototype.set] on a present key replaces the value in place and
    keeps the key's position; on a fresh key it appends.  Iteration
    ([values], [forEach], [values().next()]) follows insertion order, which
    the server relies on in [Fixes.getDocumentVersion] and in the stable
    sort of [Fixes.getAllSorted]. *)
Module JSMap.
Section JSMap.
Context {K V : Type} `{EqDecision K}.

Fixpoint get (k : K) (m : list (K * V)) : option V :=
  match m with
  | [] => None
  | (k', v) :: m' => if decide (k = k') then Some v else get k m'
  end.

Fixpoint set (k : K) (v : V) (m : list (K * V)) : list (K * V) :=
  match m with
  | [] => [(k, v)]
  | (k', v') :: m' =>
      if decide (k = k') then (k, v) :: m' else (k', v') :: set k v m'
  end.

Fixpoint delete (k : K) (m : list (K * V)) : list (K * V) :=
  match m with
  | [] => []
  | (k', v') :: m' => if decide (k = k') then delete k m' else (k', v') :: delete k m'
  end.

Definition has (k : K) (m : list (K * V)) : bool :=
  match get k m with Some _ => true | None => false end.

Definition values (m : list (K * V)) : list V := map snd m.

Definition keys (m : list (K * V)) : list K := map fst m.

(** The structural invariant of a [Map]: no key twice. *)
Definition wf (m : list (K * V)) : Prop := NoDup (keys m).

Lemma get_set_eq k v m : get k (set k v m) = Some v.
Proof.
  induction m as [|[k' v'] m IH]; simpl.
  - by rewrite decide_True.
  - case_decide; simpl; [by rewrite decide_True|].
    by rewrite decide_False.
Qed.

Lemma get_set_ne k k' v m : k <> k' -> get k' (set k v m) = get k' m.
Proof.
  intros Hne. induction m as [|[k'' v'] m IH]; simpl.
  - by rewrite decide_False.
  - repeat (case_decide; simpl); subst; congruence.
Qed.

Lemma get_notin k m : k ∉ keys m -> get k m = None.
Proof.
  unfold keys. induction m as [|[k' v'] m IH]; simpl; [done|].
  intros Hin. rewrite decide_False by set_solver. apply IH. set_solver.
Qed.

Lemma get_delete_eq k m : get k (delete k m) = None.
Proof.
  induction m as [|[k' v'] m IH]; simpl; [done|].
  case_decide; simpl; [done|]. by rewrite decide_False.
Qed.

Lemma set_Forall (P : V -> Prop) k v m :
  Forall (fun kv => P kv.2) m -> P v -> Forall (fun kv => P kv.2) (set k v m).
Proof.
  induction 1 as [|[k' v'] m Hv Hm IH]; intros Hp; simpl; [by repeat constructor|].
  case_decide; constructor; auto.
Qed.

Lemma get_Forall (P : V -> Prop) k v m :
  Forall (fun kv => P kv.2) m -> get k m = Some v -> P v.
Proof.
  induction 1 as [|[k' v'] m Hv Hm IH]; simpl; [done|].
  case_decide; [by intros [= <-]|auto].
Qed.

Lemma get_delete_ne k k' m : k <> k' -> get k' (delete k m) = get k' m.
Proof.
  intros Hne. induction m as [|[k'' v'] m IH]; simpl; [done|].
  repeat (case_decide; simpl); subst; try congruence.
Qed.

Lemma get_In k v m : get k m = Some v -> In (k, v) m.
Proof.
  induction m as [|[k' v'] m IH]; simpl; [done|].
  case_decide; [intros [= ->]; subst; auto|auto].
Qed.

Lemma delete_wf k m : wf m -> wf (delete k m).
Proof.
  unfold wf, keys. induction m as [|[k' v'] m IH]; simpl; intros Hnd; [done|].
  apply NoDup_cons in Hnd as [Hnin Hnd]. case_decide; simpl; [auto|].
  constructor; [|auto]. intros Hin. apply Hnin.
  clear -Hin. induction m as [|[k'' v''] m IHm]; simpl in *; [done|].
  case_decide; set_solver.
Qed.

Lemma keys_set k v m : k ∈ keys m -> keys (set k v m) = keys m.
Proof.
  unfold keys. induction m as [|[k' v'] m IH]; simpl; [set_solver|].
  intros Hin. case_decide; simpl; subst; [done|].
  f_equal. apply IH. set_solver.
Qed.

Lemma keys_set_fresh k v m : k ∉ keys m -> keys (set k v m) = keys m ++ [k].
Proof.
  unfold keys. induction m as [|[k' v'] m IH]; simpl; [done|].
  intros Hin. rewrite decide_False by set_solver. simpl.
  f_equal. apply IH. set_solver.
Qed.

Lemma set_wf k v m : wf m -> wf (set k v m).
Proof.
  unfold wf. intros Hnd. destruct (decide (k ∈ keys m)).
  - by rewrite keys_set.
  - rewrite keys_set_fresh by done. apply NoDup_app. split_and!; [done| |].
    + set_solver.
    + apply NoDup_singleton.
Qed.

Lemma values_set_fresh k v m : get k m = None -> values (set k v m) = values m ++ [v].
Proof.
  unfold values. induction m as [|[k' v'] m IH]; simpl; [done|].
  case_decide; [done|]. intros Hg. simpl. by rewrite IH.
Qed.

Lemma values_length m : length (values m) = length m.
Proof. apply length_map. Qed.
Lemma set_Forall_key (P : K -> Prop) k v m :
  Forall (fun kv => P kv.1) m -> P k -> Forall (fun kv => P kv.1) (set k v m).
Proof.
  induction 1 as [|[k' v'] m Hv Hm IH]; intros Hp; simpl; [by repeat constructor|].
  case_decide; subst; constructor; auto.
Qed.

Lemma get_Forall_key (P : K -> Prop) k m v :
  Forall (fun kv => P kv.1) m -> get k m = Some v -> P k.
Proof.
  induction 1 as [|[k' v'] m Hv Hm IH]; simpl; [done|].
  case_decide; [subst; done|auto].
Qed.

Lemma set_Forall_kv (P : K * V -> Prop) k v m :
  Forall P m -> P (k, v) -> Forall P (set k v m).
Proof.
  induction 1 as [|[k' v'] m Hv Hm IH]; intros Hp; simpl; [by repeat constructor|].
  case_decide; subst; constructor; auto.
Qed.

Lemma keys_delete k m : keys (delete k m) = List.filter (fun k' => bool_decide (k' <> k)) (keys m).
Proof.
  induction m as [|[k' v'] m IH]; simpl; [done|].
  case_decide; simpl; rewrite IH; case_bool_decide; naive_solver.
Qed.

Lemma has_keys k m : has k m = bool_decide (k ∈ keys m).
Proof.
  unfold has. induction m as [|[k' v'] m IH]; simpl; [done|].
  destruct (decide (k = k')) as [->|Hne].
  - symmetry. apply bool_decide_eq_true. rewrite elem_of_cons. by left.
  - rewrite IH. apply bool_decide_ext. rewrite elem_of_cons. naive_solver.
Qed.

Lemma delete_Forall (P : K * V -> Prop) k m : Forall P m -> Forall P (delete k m).
Proof.
  induction 1 as [|[k' v'] m Hv Hm IH]; simpl; [constructor|].
  case_decide; [done|by constructor].
Qed.

End JSMap.
End JSMap.

#[export] Hint Resolve JSMap.set_wf JSMap.delete_wf JSMap.set_Forall : lsp.
#[export] Hint Rewrite @JSMap.get_set_eq @JSMap.get_delete_eq : lsp_rw.

(** ** JavaScript [Array.prototype.sort] with a comparator

    Since ES2019 the sort is stable.  With a consistent comparator every
    stable sort returns the same array, so the engine's algorithm is
    modelled by a stable insertion sort: an element is placed after every
    element already placed that does not compare greater than it. *)
Module JSSort.
Section JSSort.
Context {A : Type} (cmp : A -> A -> Z).

Fixpoint insertBy (x : A) (l : list A) : list A :=
  match l with
  | [] => [x]
  | y :: ys => if cmp y x <=? 0 then y :: insertBy x ys else x :: y :: ys
  end.

Definition sortBy (l : list A) : list A :=
  fold_left (fun acc x => insertBy x acc) l [].

Lemma insertBy_perm x l : Permutation (insertBy x l) (x :: l).
Proof.
  induction l as [|y ys IH]; simpl; [done|].
  destruct (_ <=? 0); [|done].
  rewrite IH. constructor.
Qed.

Lemma sortBy_acc_perm l acc :
  Permutation (fold_left (fun acc x => insertBy x acc) l acc) (rev l ++ acc).
Proof.
  revert acc. induction l as [|x l IH]; intros acc; simpl; [done|].
  etrans; [apply IH|]. rewrite <- app_assoc. simpl.
  apply Permutation_app_head, insertBy_perm.
Qed.

Lemma sortBy_perm l : Permutation (sortBy l) l.
Proof. unfold sortBy. rewrite sortBy_acc_perm, app_nil_r. symmetry. apply Permutation_rev. Qed.

(** Sortedness, for elements satisfying [ok] on which the comparator's
    sign agrees with a relation [R]. *)
Variable ok : A -> Prop.
Variable R : A -> A -> Prop.
Hypothesis cmp_le : forall x y, ok x -> ok y -> cmp y x <= 0 -> R y x.
Hypothesis cmp_gt : forall x y, ok x -> ok y -> 0 < cmp y x -> R x y.

Lemma insertBy_sorted x l :
  ok x -> Forall ok l -> Sorted R l -> Sorted R (insertBy x l).
Proof.
  intros Hx Hl Hs. induction Hs as [|y ys Hs IH Hhd]; simpl; [by repeat constructor|].
  invc Hl. destruct (Z.leb_spec (cmp y x) 0).
  - constructor; [auto|]. destruct ys as [|z zs]; simpl.
    + constructor. auto.
    + invc Hhd. match goal with H : Forall ok (z :: zs) |- _ => invc H end.
      destruct (Z.leb_spec (cmp z x) 0); constructor; auto.
  - constructor; [constructor; auto|]. constructor. auto.
Qed.

Lemma sortBy_sorted l : Forall ok l -> Sorted R (sortBy l).
Proof.
  unfold sortBy. intros Hl.
  cut (forall acc, Forall ok acc -> Sorted R acc ->
         Sorted R (fold_left (fun acc x => insertBy x acc) l acc)); [by auto|].
  induction Hl as [|x l Hx Hl IH]; intros acc Hacc Hs; simpl; [done|].
  apply IH; [|by apply insertBy_sorted].
  eapply Permutation_Forall; [symmetry; apply insertBy_perm|by constructor].
Qed.
End JSSort.
End JSSort.

(** ** Generic list lemmas *)

Lemma Forall_lt_mono {A} (f : A -> nat) n m (l : list A) :
  (n <= m)%nat -> Forall (fun x => (f x < n)%nat) l -> Forall (fun x => (f x < m)%nat) l.
Proof. intros Hle H. eapply Forall_impl; [exact H|]. intros x. simpl. lia. Qed.

Lemma fold_left_const {A B} (l : list B) (a : A) : fold_left (fun a _ => a) l a = a.
Proof. revert a. induction l; simpl; auto. Qed.
#[export] Hint Rewrite @fold_left_const : lsp_rw.

(** In a strongly sorted list, an element that is strictly below another
    in the order occurs before it. *)
Lemma StronglySorted_before {A} (R : A -> A -> Prop) (l : list A) a b :
  (forall x, R x x) ->
  StronglySorted R l -> In a l -> In b l -> ~ R b a ->
  exists l1 l2 l3, l = l1 ++ a :: l2 ++ b :: l3.
Proof.
  intros Hrefl Hs. induction Hs as [|x xs Hs IH Hall]; intros Ha Hb Hnr; [done|].
  rewrite List.Forall_forall in Hall. destruct Ha as [<-|Ha].
  - destruct Hb as [<-|Hb].
    + exfalso. apply Hnr, Hrefl.
    + apply in_split in Hb as (l2 & l3 & ->). by exists [], l2, l3.
  - destruct Hb as [<-|Hb].
    + exfalso. apply Hnr. apply Hall, Ha.
    + destruct (IH Ha Hb Hnr) as (l1 & l2 & l3 & ->). by exists (x :: l1), l2, l3.
Qed.
