(* ===== verification/Diagnostics.v ===== *)
(** * Diagnostic production and fix recording (server.js lines 58-104, 637-656)

    The linter reports problems with 1-based lines and columns; the server
    turns each into a 0-based LSP diagnostic ([makeDiagnostic],
    [convertSeverity]) and, when the problem carries a fix and a rule id,
    records the fix in the per-document map [codeActions] under a key built
    from the diagnostic's range and code ([computeKey], [recordCodeAction]).
    [convertMessages] is the [forEach] loop of the last step of [validate]
    and [runValidation] is that step preceded by the clearing of the
    document's fixes, the first step of [validate]'s waterfall. *)

From Stdlib Require Import ZArith Lia.
From stdpp Require Import base list sets strings pretty.
From S2P Require Import Prelude.

Module Diagnostics.

(** ** Data *)

(** The fix payload of a problem, [{ range: [start, end], text }]:
    character offsets into the document text. *)
Record Edit := mkEdit {
  edit_start : Z;
  edit_end : Z;
  text : option string
}.

(** A problem as returned by the linter.  [ruleId] is [null] for parse
    errors: [None] models [null], [Some ""] an empty rule name. *)
Record Problem := mkProblem {
  pb_line : Z;
  pb_column : Z;
  pb_endLine : option Z;
  pb_endColumn : option Z;
  pb_severity : Z;
  pb_ruleId : option string;
  pb_message : string;
  pb_fix : option Edit
}.

(** LSP [DiagnosticSeverity]. *)
Inductive DiagnosticSeverity := Error | Warning | Information | Hint.

Record Position := mkPosition { line : Z; character : Z }.
Record Range := mkRange { start : Position; end_ : Position }.

Record Diagnostic := mkDiagnostic {
  message : string;
  severity : DiagnosticSeverity;
  source : string;
  range : Range;
  code : option string
}.

(** The value [recordCodeAction] stores (line 92). *)
Record FixRecord := mkFixRecord {
  label : string;
  documentVersion : Z;
  ruleId : string;
  edit : Edit
}.

(** The read-only view of a document the server uses: its URI and the
    version the host stamped on it. *)
Record TextDocument := mkTextDocument { uri : string; version : Z }.

(** A [TextDocument] object of vscode-languageserver's document manager:
    [uri], [version] and [getText()]; the manager updates it in place. *)
Record DocObj := mkDocObj { d_uri : string; d_version : Z; d_text : string }.

(** The object as [recordCodeAction] reads it, at the moment it runs. *)
Definition docOf (o : DocObj) : TextDocument := mkTextDocument (d_uri o) (d_version o).

(** [codeActions : Map<uri, Map<key, FixRecord>>] (line 81). *)
Abbreviation FixMap := (list (string * FixRecord)).
Abbreviation CodeActionStore := (list (string * FixMap)).

(** ** Operations *)

Definition convertSeverity (sev : Z) : DiagnosticSeverity :=
  if sev =? 1 then Warning
  else if sev =? 2 then Error
  else Error.

Definition makeDiagnostic (problem : Problem) (src : string) : Diagnostic :=
  let msg := match pb_ruleId problem with
             | Some r => pb_message problem +:+ " (" +:+ r +:+ ")"
             | None => pb_message problem
             end in
  let startLine := Z.max 0 (pb_line problem - 1) in
  let startChar := Z.max 0 (pb_column problem - 1) in
  let endLine := match pb_endLine problem with
                 | Some l => Z.max 0 (l - 1)
                 | None => startLine
                 end in
  let endChar := match pb_endColumn problem with
                 | Some c => Z.max 0 (c - 1)
                 | None => startChar
                 end in
  {| message := msg;
     severity := convertSeverity (pb_severity problem);
     source := src;
     range := {| start := {| line := startLine; character := startChar |};
                 end_ := {| line := endLine; character := endChar |} |};
     code := pb_ruleId problem |}.

(** [`${diagnostic.code}`]: [null] prints as ["null"]. *)
Definition codeString (c : option string) : string :=
  match c with Some s => s | None => "null" end.

Definition computeKey (diagnostic : Diagnostic) : string :=
  let r := range diagnostic in
  "[" +:+ pretty (line (start r)) +:+ "," +:+ pretty (character (start r)) +:+ ","
      +:+ pretty (line (end_ r)) +:+ "," +:+ pretty (character (end_ r)) +:+ "]-"
      +:+ codeString (code diagnostic).

(** JavaScript truthiness of [problem.ruleId]: [null] and [""] are falsy. *)
Definition truthyRuleId (r : option string) : option string :=
  match r with
  | Some s => if decide (s = "") then None else Some s
  | None => None
  end.

Definition recordCodeAction (codeActions : CodeActionStore) (document : TextDocument)
    (diagnostic : Diagnostic) (problem : Problem) : CodeActionStore :=
  match pb_fix problem, truthyRuleId (pb_ruleId problem) with
  | Some fx, Some rid =>
      let edits := match JSMap.get (uri document) codeActions with
                   | Some e => e
                   | None => []
                   end in
      JSMap.set (uri document)
        (JSMap.set (computeKey diagnostic)
           {| label := "Fix this " +:+ rid +:+ " problem";
              documentVersion := version document;
              ruleId := rid;
              edit := fx |} edits)
        codeActions
  | _, _ => codeActions
  end.

(** The callback of the [forEach] over [docReport.messages] (lines
    642-650); a [null] entry of the array is skipped by [if (problem)]. *)
Definition convertProblem (autoFix : bool) (engine : string) (document : TextDocument)
    (acc : list Diagnostic * CodeActionStore) (p : option Problem)
    : list Diagnostic * CodeActionStore :=
  let '(diagnostics, ca) := acc in
  match p with
  | Some problem =>
      let diagnostic := makeDiagnostic problem engine in
      (diagnostics ++ [diagnostic],
       if autoFix then recordCodeAction ca document diagnostic problem else ca)
  | None => (diagnostics, ca)
  end.

Definition convertMessages (autoFix : bool) (engine : string) (document : TextDocument)
    (messages : list (option Problem)) (codeActions : CodeActionStore)
    : list Diagnostic * CodeActionStore :=
  fold_left (convertProblem autoFix engine document) messages ([], codeActions).

(** Clearing of the document's fixes (line 604) followed by the
    conversion of the linter's messages (lines 637-652). *)
Definition runValidation (autoFix : bool) (engine : string) (document : TextDocument)
    (messages : list (option Problem)) (codeActions : CodeActionStore)
    : list Diagnostic * CodeActionStore :=
  convertMessages autoFix engine document messages (JSMap.delete (uri document) codeActions).

(** A problem whose fix is recorded: it has a fix and a truthy rule id. *)
Definition fixable (p : Problem) : bool :=
  match pb_fix p, truthyRuleId (pb_ruleId p) with
  | Some _, Some _ => true
  | _, _ => false
  end.

(** The record [recordCodeAction] stores for a problem, if any. *)
Definition fixRecordOf (document : TextDocument) (p : Problem) : option FixRecord :=
  match pb_fix p, truthyRuleId (pb_ruleId p) with
  | Some fx, Some rid =>
      Some {| label := "Fix this " +:+ rid +:+ " problem";
              documentVersion := version document; ruleId := rid; edit := fx |}
  | _, _ => None
  end.

(** The non-null entries of the linter's message array. *)
Definition problemsOf (ms : list (option Problem)) : list Problem :=
  omap (fun o => o) ms.

(** ** Lemmas *)

Lemma fixable_fixRecordOf doc p : fixable p = true <-> is_Some (fixRecordOf doc p).
Proof.
  unfold fixable, fixRecordOf.
  destruct (pb_fix p), (truthyRuleId (pb_ruleId p)); split; intros H; try done; by inversion H.
Qed.

Lemma recordCodeAction_get ca doc d p u :
  JSMap.get u (recordCodeAction ca doc d p) =
  if decide (u = uri doc) then
    match fixRecordOf doc p with
    | Some r => Some (JSMap.set (computeKey d) r (default [] (JSMap.get u ca)))
    | None => JSMap.get u ca
    end
  else JSMap.get u ca.
Proof.
  unfold recordCodeAction, fixRecordOf.
  destruct (pb_fix p), (truthyRuleId (pb_ruleId p)); case_decide; subst; try done.
  - rewrite JSMap.get_set_eq. by destruct (JSMap.get _ ca).
  - by rewrite JSMap.get_set_ne.
Qed.

(** [convertMessages] is a map over the non-null problems for the
    diagnostics and a left fold of [recordCodeAction] for the store. *)
Lemma convertMessages_fold autoFix engine doc ms ca diags0 :
  fold_left (convertProblem autoFix engine doc) ms (diags0, ca)
  = (diags0 ++ map (fun p => makeDiagnostic p engine) (problemsOf ms),
     fold_left (fun ca p => if autoFix then recordCodeAction ca doc (makeDiagnostic p engine) p else ca)
       (problemsOf ms) ca).
Proof.
  revert ca diags0. induction ms as [|[p|] ms IH]; intros ca diags0; simpl.
  - by rewrite app_nil_r.
  - rewrite IH. by rewrite <- app_assoc.
  - apply IH.
Qed.

Definition problemKey (engine : string) (p : Problem) : string :=
  computeKey (makeDiagnostic p engine).

Lemma record_fold_other engine doc ps ca u :
  u <> uri doc ->
  JSMap.get u (fold_left (fun ca p => recordCodeAction ca doc (makeDiagnostic p engine) p) ps ca)
  = JSMap.get u ca.
Proof.
  intros Hne. revert ca. induction ps as [|p ps IH]; intros ca; simpl; [done|].
  rewrite IH, recordCodeAction_get. by rewrite decide_False.
Qed.

Lemma record_fold_lookup engine doc ps ca k :
  (JSMap.get (uri doc)
     (fold_left (fun ca p => recordCodeAction ca doc (makeDiagnostic p engine) p) ps ca)
   ≫= JSMap.get k)
  = match last (filter (fun p => fixable p = true /\ problemKey engine p = k) ps) with
    | Some p => fixRecordOf doc p
    | None => JSMap.get (uri doc) ca ≫= JSMap.get k
    end.
Proof.
  revert ca. induction ps as [|p ps IH]; intros ca; simpl; [done|].
  rewrite IH, filter_cons. clear IH.
  destruct (last (filter _ ps)) as [q|] eqn:Hl.
  - case_decide; [|by rewrite Hl].
    by rewrite last_cons, Hl.
  - rewrite recordCodeAction_get, decide_True by done.
    case_decide as Hp.
    + destruct Hp as [Hfix Hkey]. rewrite last_cons, Hl.
      apply fixable_fixRecordOf with (doc := doc) in Hfix as [r Hr]. rewrite Hr. simpl.
      unfold problemKey in Hkey. subst k. by rewrite JSMap.get_set_eq.
    + rewrite Hl. destruct (fixRecordOf doc p) as [r|] eqn:Hr; [|done]. simpl.
      destruct (decide (computeKey (makeDiagnostic p engine) = k)) as [<-|Hne].
      * exfalso. apply Hp. split; [|done]. apply fixable_fixRecordOf with (doc := doc). by rewrite Hr.
      * rewrite JSMap.get_set_ne by done. by destruct (JSMap.get _ ca).
Qed.

Lemma record_fold_versions engine doc ps ca inner :
  (forall i, JSMap.get (uri doc) ca = Some i ->
     Forall (fun kr => documentVersion kr.2 = version doc) i) ->
  JSMap.get (uri doc)
    (fold_left (fun ca p => recordCodeAction ca doc (makeDiagnostic p engine) p) ps ca) = Some inner ->
  Forall (fun kr => documentVersion kr.2 = version doc) inner.
Proof.
  revert ca. induction ps as [|p ps IH]; intros ca Hca; simpl; [apply Hca|].
  apply IH. intros i. rewrite recordCodeAction_get, decide_True by done.
  destruct (fixRecordOf doc p) as [r|] eqn:Hr; [|apply Hca].
  intros [= <-]. apply (JSMap.set_Forall (fun r => documentVersion r = version doc)).
  - destruct (JSMap.get (uri doc) ca) eqn:E; simpl; [by apply Hca|constructor].
  - unfold fixRecordOf in Hr. destruct (pb_fix p), (truthyRuleId (pb_ruleId p)); by inversion Hr.
Qed.

Lemma runValidation_unfold autoFix engine doc ms ca :
  runValidation autoFix engine doc ms ca =
  (map (fun p => makeDiagnostic p engine) (problemsOf ms),
   fold_left (fun ca p => if autoFix then recordCodeAction ca doc (makeDiagnostic p engine) p else ca)
     (problemsOf ms) (JSMap.delete (uri doc) ca)).
Proof. unfold runValidation, convertMessages. by rewrite convertMessages_fold. Qed.

(** ** Properties *)

(** C3: After a validation run with auto-fix enabled, the fixes recorded
    for the document are exactly those of this run: for every key, the
    recorded fix is the one built from the last fixable problem of the run
    whose diagnostic has that key, and there is none if no fixable problem
    of the run has that key.  No fix of an earlier run survives. *)
Theorem runValidation_records_exactly autoFix engine doc ms ca k :
  autoFix = true ->
  (JSMap.get (uri doc) (runValidation autoFix engine doc ms ca).2 ≫= JSMap.get k)
  = last (filter (fun p => fixable p = true /\ problemKey engine p = k) (problemsOf ms))
      ≫= fixRecordOf doc.
Proof.
  intros ->. rewrite runValidation_unfold. simpl.
  rewrite record_fold_lookup, JSMap.get_delete_eq.
  by destruct (last _).
Qed.

(** C4: Every fix recorded for the document by a validation run is stamped
    with the version of the document that run validated. *)
Theorem runValidation_versions autoFix engine doc ms ca inner :
  JSMap.get (uri doc) (runValidation autoFix engine doc ms ca).2 = Some inner ->
  Forall (fun kr => documentVersion kr.2 = version doc) inner.
Proof.
  rewrite runValidation_unfold. simpl. destruct autoFix.
  - apply record_fold_versions. by rewrite JSMap.get_delete_eq.
  - by rewrite fold_left_const, JSMap.get_delete_eq.
Qed.

(** When auto-fix is off, or no problem of the run is fixable, the
    document has no fix map at all after the run. *)
Theorem runValidation_no_fix_absent autoFix engine doc ms ca :
  (autoFix = false \/ Forall (fun p => fixable p = false) (problemsOf ms)) ->
  JSMap.get (uri doc) (runValidation autoFix engine doc ms ca).2 = None.
Proof.
  rewrite runValidation_unfold. simpl. intros Hcase.
  destruct autoFix; [|by rewrite fold_left_const, JSMap.get_delete_eq].
  destruct Hcase as [Hf|Hnone]; [done|].
    revert Hnone. generalize (JSMap.delete (uri doc) ca) (JSMap.get_delete_eq (uri doc) ca).
    induction (problemsOf ms) as [|p ps IH]; intros c Hc Hnone; simpl; [done|].
    invc Hnone. apply IH; [|done].
    rewrite recordCodeAction_get, decide_True by done.
    destruct (fixRecordOf doc p) eqn:Hr; [|done].
    exfalso. assert (Hf : fixable p = true) by (apply (fixable_fixRecordOf doc); by rewrite Hr).
    congruence.
Qed.

(** A validation run changes the fixes of no other document. *)
Theorem runValidation_other autoFix engine doc ms ca u :
  u <> uri doc ->
  JSMap.get u (runValidation autoFix engine doc ms ca).2 = JSMap.get u ca.
Proof.
  intros Hne. rewrite runValidation_unfold. simpl. destruct autoFix.
  - rewrite record_fold_other by done. by apply JSMap.get_delete_ne.
  - rewrite fold_left_const. by apply JSMap.get_delete_ne.
Qed.

(** C15: Every diagnostic has a non-negative range; for the linter's
    1-based positions it is the 0-based translation, and a missing end
    line or column collapses onto the start. *)
Theorem makeDiagnostic_range p src :
  let r := range (makeDiagnostic p src) in
  0 <= line (start r) /\ 0 <= character (start r) /\
  0 <= line (end_ r) /\ 0 <= character (end_ r) /\
  (1 <= pb_line p -> line (start r) = pb_line p - 1) /\
  (1 <= pb_column p -> character (start r) = pb_column p - 1) /\
  (pb_endLine p = None -> line (end_ r) = line (start r)) /\
  (pb_endColumn p = None -> character (end_ r) = character (start r)).
Proof.
  simpl. destruct (pb_endLine p), (pb_endColumn p); simpl; split_and!; intros; try lia; done.
Qed.

(** The severity mapping is fail-closed: only the linter's severity 1
    becomes a warning, every other value an error. *)
Theorem convertSeverity_fail_closed sev :
  (convertSeverity sev = Warning <-> sev = 1) /\
  (sev <> 1 -> convertSeverity sev = Error).
Proof. unfold convertSeverity. destruct_zcmp; subst; split; try split; congruence. Qed.

(** ** Witnesses *)

Definition exProblem (l c : Z) (rid : option string) (fx : option Edit) : Problem :=
  {| pb_line := l; pb_column := c; pb_endLine := None; pb_endColumn := None;
     pb_severity := 2; pb_ruleId := rid; pb_message := "Missing semicolon."; pb_fix := fx |}.

Definition exDoc : TextDocument := {| uri := "file:///a.js"; version := 7 |}.

(** The second and third problems share a key; the fourth has an empty
    rule id, the fifth no fix; a stale fix of version 6 is in the store. *)
Definition exMessages : list (option Problem) :=
  [Some (exProblem 1 5 (Some "semi") (Some (mkEdit 4 4 (Some ";"))));
   None;
   Some (exProblem 2 1 (Some "quotes") (Some (mkEdit 10 13 (Some "'a'"))));
   Some (exProblem 2 1 (Some "quotes") (Some (mkEdit 10 14 (Some "'b'"))));
   Some (exProblem 3 1 (Some "") (Some (mkEdit 20 21 None)));
   Some (exProblem 4 1 (Some "indent") None)].

Definition exStore : CodeActionStore :=
  [("file:///a.js", [("[9,0,9,0]-semi",
      {| label := "Fix this semi problem"; documentVersion := 6; ruleId := "semi";
         edit := mkEdit 90 90 (Some ";") |})]);
   ("file:///b.js", [])].

Lemma runValidation_records_exactly_witness :
  (JSMap.get (uri exDoc) (runValidation true "standard" exDoc exMessages exStore).2
     ≫= JSMap.get "[1,0,1,0]-quotes")
  = Some {| label := "Fix this quotes problem"; documentVersion := 7; ruleId := "quotes";
            edit := mkEdit 10 14 (Some "'b'") |}.
Proof.
  rewrite (runValidation_records_exactly true "standard" exDoc exMessages exStore
             "[1,0,1,0]-quotes" eq_refl).
  vm_compute. reflexivity.
Defined.

Lemma runValidation_versions_witness :
  exists inner,
    JSMap.get (uri exDoc) (runValidation true "standard" exDoc exMessages exStore).2 = Some inner /\
    length inner = 2%nat /\
    Forall (fun kr => documentVersion kr.2 = version exDoc) inner.
Proof.
  eexists. split; [vm_compute; reflexivity|]. split; [reflexivity|].
  eapply (runValidation_versions true "standard" exDoc exMessages exStore). vm_compute. reflexivity.
Defined.

Lemma runValidation_no_fix_absent_witness :
  JSMap.get (uri exDoc) (runValidation false "standard" exDoc exMessages exStore).2 = None.
Proof. apply runValidation_no_fix_absent. by left. Defined.

Lemma runValidation_other_witness :
  JSMap.get "file:///b.js" (runValidation true "standard" exDoc exMessages exStore).2 = Some [].
Proof. rewrite runValidation_other by done. reflexivity. Defined.

End Diagnostics.
