(* ===== verification/Fixes.v ===== *)
(** * The fix reconciler: class [Fixes] of server.js (lines 784-845)

    A [Fixes] object wraps the map of recorded fixes of one document.
    [getAllSorted] sorts them by start offset (ties: a fix ending at offset
    0 first, then by end offset); [getOverlapFree] sweeps the sorted list
    and keeps a fix when it does not overlap the last kept one.  The
    theorems show the sort is a permutation ordered by (start, end) for
    well-formed ranges, that insertions precede replacements at the same
    offset, and that the batch is a sub-list of pairwise disjoint edits
    that no dropped fix could join. *)

From Stdlib Require Import ZArith Lia Sorted Permutation.
From stdpp Require Import base list sets strings.
From S2P Require Import Prelude Diagnostics.
Import Diagnostics.

Module Fixes.

(** ** Operations *)

Definition fstart (f : FixRecord) : Z := edit_start (edit f).
Definition fend (f : FixRecord) : Z := edit_end (edit f).

(** [static overlaps(lastEdit, newEdit)]: [!!lastEdit && ...]. *)
Definition overlaps (lastEdit : option FixRecord) (newEdit : FixRecord) : bool :=
  match lastEdit with
  | Some l => fend l >? fstart newEdit
  | None => false
  end.

Definition isEmpty (edits : FixMap) : bool := Nat.eqb (length edits) 0.

(** [None] is the [Error('No edits recorded.')] thrown on an empty map;
    otherwise the version of the first recorded fix, in insertion order. *)
Definition getDocumentVersion (edits : FixMap) : option Z :=
  if isEmpty edits then None
  else match JSMap.values edits with
       | v :: _ => Some (documentVersion v)
       | [] => None
       end.

Definition getScoped (edits : FixMap) (diagnostics : list Diagnostic) : list FixRecord :=
  fold_left
    (fun result diagnostic =>
       match JSMap.get (computeKey diagnostic) edits with
       | Some editInfo => result ++ [editInfo]
       | None => result
       end)
    diagnostics [].

(** The comparator passed to [result.sort] in [getAllSorted]. *)
Definition compareFixes (a b : FixRecord) : Z :=
  let d := fstart a - fstart b in
  if negb (d =? 0) then d
  else if fend a =? 0 then -1
  else if fend b =? 0 then 1
  else fend a - fend b.

Definition getAllSorted (edits : FixMap) : list FixRecord :=
  JSSort.sortBy compareFixes (JSMap.values edits).

(** The [for] loop of [getOverlapFree], [last] being the last kept fix. *)
Fixpoint sweep (last : FixRecord) (l : list FixRecord) : list FixRecord :=
  match l with
  | [] => []
  | current :: rest =>
      if overlaps (Some last) current then sweep last rest
      else current :: sweep current rest
  end.

Definition getOverlapFree (edits : FixMap) : list FixRecord :=
  let sorted := getAllSorted edits in
  if Nat.leb (length sorted) 1 then sorted
  else match sorted with
       | [] => []
       | first :: rest => first :: sweep first rest
       end.

(** ** Specification *)

(** A fix range is well formed when [0 <= start <= end], which the
    linter's fixes are. *)
Definition wfFix (f : FixRecord) : Prop := 0 <= fstart f <= fend f.

(** The order the sort is meant to produce: by start, then by end. *)
Definition fix_le (a b : FixRecord) : Prop :=
  fstart a < fstart b \/ (fstart a = fstart b /\ fend a <= fend b).

(** Two edits that do not overlap, the first before the second. *)
Definition disjoint_before (a b : FixRecord) : Prop := fend a <= fstart b.

(** ** Lemmas *)

Lemma fix_le_refl x : fix_le x x.
Proof. unfold fix_le. lia. Qed.

Lemma fix_le_trans : Relations_1.Transitive fix_le.
Proof. intros x y z. unfold fix_le. lia. Qed.

Lemma compareFixes_le x y : wfFix x -> wfFix y -> compareFixes y x <= 0 -> fix_le y x.
Proof. unfold wfFix, fix_le, compareFixes. intros. simpl in *. destruct_zcmp; simpl in *; lia. Qed.

Lemma compareFixes_gt x y : wfFix x -> wfFix y -> 0 < compareFixes y x -> fix_le x y.
Proof. unfold wfFix, fix_le, compareFixes. intros. simpl in *. destruct_zcmp; simpl in *; lia. Qed.

Lemma getOverlapFree_eq edits :
  getOverlapFree edits =
  match getAllSorted edits with
  | [] => []
  | first :: rest => first :: sweep first rest
  end.
Proof.
  unfold getOverlapFree. destruct (getAllSorted edits) as [|f [|g rest]]; simpl; done.
Qed.

Lemma sweep_sublist last l : sweep last l `sublist_of` l.
Proof.
  revert last. induction l as [|c l IH]; intros last; cbn [sweep]; [done|].
  destruct (overlaps (Some last) c); [apply sublist_cons, IH|apply sublist_skip, IH].
Qed.

(** Everything kept by the sweep lies after the last kept fix, and the kept
    fixes are pairwise disjoint. *)
Lemma sweep_disjoint last l :
  wfFix last -> Forall wfFix l -> StronglySorted fix_le l ->
  Forall (disjoint_before last) (sweep last l) /\
  StronglySorted disjoint_before (sweep last l).
Proof.
  revert last. induction l as [|c l IH]; intros last Hlast Hwf Hs; cbn [sweep]; [by repeat constructor|].
  invc Hwf. invc Hs. destruct (overlaps (Some last) c) eqn:Ho; [by apply IH|].
  simpl in Ho. unfold wfFix, disjoint_before in *. destruct_zcmp; [done|].
  destruct (IH c) as [Hc Hsc]; [done..|].
  split.
  - constructor; [lia|]. eapply Forall_impl; [exact Hc|]. simpl. lia.
  - by constructor.
Qed.

Lemma sweep_maximal last l c :
  Forall (fix_le last) l -> StronglySorted fix_le l -> In c l ->
  In c (sweep last l) \/
  (fstart last <= fstart c < fend last) \/
  (exists a, In a (sweep last l) /\ fstart a <= fstart c < fend a).
Proof.
  revert last. induction l as [|x l IH]; intros last Hle Hs Hin; cbn [sweep]; [done|].
  invc Hle. invc Hs. destruct (overlaps (Some last) x) eqn:Ho; simpl in Ho.
  - destruct Hin as [<-|Hin].
    + right; left. unfold fix_le in *. destruct_zcmp; lia.
    + by apply IH.
  - destruct Hin as [<-|Hin]; [by left; left|].
    destruct (IH x) as [Hk|[Hk|[a [Ha Hk]]]]; try done.
    + by left; right.
    + right; right. exists x. split; [by left|done].
    + right; right. exists a. split; [by right|done].
Qed.

Lemma getAllSorted_perm edits : Permutation (getAllSorted edits) (JSMap.values edits).
Proof. apply JSSort.sortBy_perm. Qed.

Lemma getAllSorted_wf edits :
  Forall wfFix (JSMap.values edits) -> Forall wfFix (getAllSorted edits).
Proof. intros H. eapply Permutation_Forall; [symmetry; apply getAllSorted_perm|done]. Qed.

Lemma getAllSorted_strongly_sorted edits :
  Forall wfFix (JSMap.values edits) -> StronglySorted fix_le (getAllSorted edits).
Proof.
  intros H. apply Sorted_StronglySorted; [apply fix_le_trans|].
  apply (JSSort.sortBy_sorted compareFixes wfFix); [apply compareFixes_le|apply compareFixes_gt|done].
Qed.

#[export] Hint Resolve getAllSorted_wf fix_le_refl : lsp.

(** ** Properties *)

(** C7: For well-formed ranges, [getAllSorted] returns the recorded fixes
    (a permutation of the map's values) ordered by start offset and, at
    equal start, by end offset. *)
Theorem getAllSorted_correct edits :
  Forall wfFix (JSMap.values edits) ->
  Permutation (getAllSorted edits) (JSMap.values edits) /\
  StronglySorted fix_le (getAllSorted edits).
Proof. intros H. split; [apply getAllSorted_perm|by apply getAllSorted_strongly_sorted]. Qed.

(** C1: The batch [getOverlapFree] returns has no two overlapping edits:
    for every pair of kept fixes, the earlier one ends at or before the
    start of the later one (not only for neighbours). *)
Theorem getOverlapFree_disjoint edits :
  Forall wfFix (JSMap.values edits) ->
  StronglySorted disjoint_before (getOverlapFree edits).
Proof.
  intros Hwf. rewrite getOverlapFree_eq.
  pose proof (getAllSorted_wf _ Hwf) as Hw. pose proof (getAllSorted_strongly_sorted _ Hwf) as Hs.
  destruct (getAllSorted edits) as [|f rest]; [constructor|].
  invc Hw. invc Hs. destruct (sweep_disjoint f rest) as [Hd1 Hd2]; [done..|].
  by constructor.
Qed.

(** C2: The batch is maximal: every recorded fix is either in the batch or
    starts inside the range of a fix of the batch, so it could not be added
    without a conflict. *)
Theorem getOverlapFree_maximal edits c :
  Forall wfFix (JSMap.values edits) -> In c (JSMap.values edits) ->
  In c (getOverlapFree edits) \/
  exists a, In a (getOverlapFree edits) /\ fstart a <= fstart c < fend a.
Proof.
  intros Hwf Hin. rewrite getOverlapFree_eq.
  pose proof (getAllSorted_strongly_sorted _ Hwf) as Hs.
  apply (Permutation_in _ (Permutation_sym (getAllSorted_perm edits))) in Hin.
  destruct (getAllSorted edits) as [|f rest]; [done|].
  invc Hs. destruct Hin as [<-|Hin]; [by left; left|].
  destruct (sweep_maximal f rest c) as [Hk|[Hk|[a [Ha Hk]]]]; try done.
  - by left; right.
  - right. exists f. split; [by left|done].
  - right. exists a. split; [by right|done].
Qed.

(** The batch is a sub-list of the sorted fixes (kept in sorted order),
    hence never longer than the set of recorded fixes. *)
Theorem getOverlapFree_sublist edits :
  getOverlapFree edits `sublist_of` getAllSorted edits /\
  (length (getOverlapFree edits) <= length (JSMap.values edits))%nat.
Proof.
  assert (Hsub : getOverlapFree edits `sublist_of` getAllSorted edits).
  { rewrite getOverlapFree_eq. destruct (getAllSorted edits); [done|].
    apply sublist_skip, sweep_sublist. }
  split; [done|]. rewrite <- (Permutation_length (getAllSorted_perm edits)).
  by apply sublist_length.
Qed.

(** Tie-break at equal start offsets: a pure insertion (empty range)
    is ordered before a replacement starting at the same offset. *)
Theorem getAllSorted_insertion_first edits a b :
  Forall wfFix (JSMap.values edits) ->
  In a (JSMap.values edits) -> In b (JSMap.values edits) ->
  fstart a = fstart b -> fend a = fstart a -> fstart b < fend b ->
  exists l1 l2 l3, getAllSorted edits = l1 ++ a :: l2 ++ b :: l3.
Proof.
  intros Hwf Ha Hb Hs Hea Hrb.
  apply (StronglySorted_before fix_le); auto using getAllSorted_strongly_sorted with lsp.
  - eapply Permutation_in; [symmetry; apply getAllSorted_perm|done].
  - eapply Permutation_in; [symmetry; apply getAllSorted_perm|done].
  - unfold fix_le. lia.
Qed.

(** C10: The comparator of [getAllSorted] is antisymmetric on every pair
    of fixes but one kind: [compareFixes b a] is [- compareFixes a b]
    unless both fixes start at the same offset and both end at offset 0
    (two insertions at the start of the document), where each compares
    below the other and the order [Array.prototype.sort] gives them is
    left to the engine. *)
Theorem compareFixes_antisymmetric_except a b :
  compareFixes b a =
  if bool_decide (fstart a = fstart b /\ fend a = 0 /\ fend b = 0) then -1
  else - compareFixes a b.
Proof.
  unfold compareFixes.
  destruct (Z.eqb_spec (fstart b - fstart a) 0), (Z.eqb_spec (fstart a - fstart b) 0),
    (Z.eqb_spec (fend a) 0), (Z.eqb_spec (fend b) 0);
    simpl; case_bool_decide; lia.
Qed.

(** ** Witnesses *)

Definition exFix (rid : string) (s e : Z) : FixRecord :=
  {| label := "Fix this " +:+ rid +:+ " problem"; documentVersion := 1;
     ruleId := rid; edit := {| edit_start := s; edit_end := e; text := Some "x" |} |}.

(** Two overlapping fixes of rule [semi], an insertion at offset 3 and a
    later fix of rule [quotes]. *)
Definition exEdits : FixMap :=
  [("[0,0,0,5]-semi", exFix "semi" 0 5);
   ("[0,3,0,8]-semi", exFix "semi" 3 8);
   ("[0,3,0,3]-indent", exFix "indent" 3 3);
   ("[1,0,1,2]-quotes", exFix "quotes" 10 12)].

Lemma exEdits_wf : Forall wfFix (JSMap.values exEdits).
Proof. repeat constructor; unfold wfFix, fstart, fend; simpl; lia. Qed.

Lemma getOverlapFree_disjoint_witness :
  StronglySorted disjoint_before (getOverlapFree exEdits) /\
  getOverlapFree exEdits = [exFix "semi" 0 5; exFix "quotes" 10 12].
Proof. split; [apply getOverlapFree_disjoint, exEdits_wf|reflexivity]. Defined.

Lemma getOverlapFree_maximal_witness :
  In (exFix "semi" 3 8) (getOverlapFree exEdits) \/
  exists a, In a (getOverlapFree exEdits) /\ fstart a <= fstart (exFix "semi" 3 8) < fend a.
Proof. apply getOverlapFree_maximal; [apply exEdits_wf|simpl; tauto]. Defined.

Lemma getAllSorted_correct_witness :
  Permutation (getAllSorted exEdits) (JSMap.values exEdits) /\
  StronglySorted fix_le (getAllSorted exEdits).
Proof. apply getAllSorted_correct, exEdits_wf. Defined.

Lemma getAllSorted_insertion_first_witness :
  exists l1 l2 l3, getAllSorted exEdits = l1 ++ exFix "indent" 3 3 :: l2 ++ exFix "semi" 3 8 :: l3.
Proof.
  apply getAllSorted_insertion_first;
    [apply exEdits_wf|simpl; tauto|simpl; tauto|reflexivity|reflexivity|unfold fstart, fend; simpl; lia].
Defined.

End Fixes.
