(* ===== verification/MessageQueue.v ===== *)
(** * The buffered message queue: class [BufferedMessageQueue] of server.js
      (lines 278-386)

    Requests and notifications from the host, and validation notifications
    the server posts itself, are pushed on one FIFO array; [trigger] arms a
    [setImmediate] timer when none is pending, and the timer callback runs
    [processQueue], which handles the head item and re-arms the timer.  A
    request whose cancellation token is set, or an item whose captured
    document version differs from the live one, is rejected or dropped.

    The handler tables are the interface between the queue and the server:
    the class [Handlers] below, which the server instantiates.  Handlers run
    on the whole world, the queue state and the server state [St], because a
    handler may post new items (the configuration handlers do).  The version
    providers read the live server state: the server passes document
    objects that the host mutates in place, so the captured version and the
    version read at dispatch can differ. *)

From Stdlib Require Import ZArith Lia.
From stdpp Require Import base list sets strings.
From S2P Require Import Prelude.

Module MessageQueue.

(** [ResponseError(ErrorCodes.RequestCancelled, 'Request got cancelled')]. *)
Inductive ResponseError := RequestCancelled.

Section Queue.
Context {St P R : Type}.

(** A request is identified by [id]; its promise's [resolve] / [reject]
    are replies tagged with that id. *)
Inductive Message :=
| Request (method : string) (params : P) (documentVersion : option Z) (id : nat)
| Notification (method : string) (params : P) (documentVersion : option Z).

Inductive Reply :=
| Resolve (id : nat) (result : R)
| Reject (id : nat) (error : ResponseError)
| Deferred (id : nat).   (** the handler returned a thenable, settled later *)

(** [timer] is [this.timer !== undefined]; [cancelled] the ids whose
    cancellation token the host has signalled. *)
Record QState := mkQState {
  queue : list Message;
  timer : bool;
  cancelled : list nat;
  replies : list Reply
}.

Definition World : Type := QState * St.

(** What a request handler returns: a plain value, or a thenable. *)
Inductive HandlerResult := Returned (r : R) | Thenable.

Record RequestElem := {
  rq_handler : P -> World -> HandlerResult * World;
  rq_versionProvider : option (P -> St -> option Z)
}.

Record NotificationElem := {
  nt_handler : P -> World -> World;
  nt_versionProvider : option (P -> St -> option Z)
}.

(** [this.requestHandlers] and [this.notificationHandlers]. *)
Class Handlers := {
  requestHandlers : string -> option RequestElem;
  notificationHandlers : string -> option NotificationElem
}.

Context `{Handlers}.

Definition setQueue (l : list Message) (q : QState) : QState :=
  mkQState l (timer q) (cancelled q) (replies q).
Definition setTimer (b : bool) (q : QState) : QState :=
  mkQState (queue q) b (cancelled q) (replies q).
Definition addReply (r : Reply) (q : QState) : QState :=
  mkQState (queue q) (timer q) (cancelled q) (replies q ++ [r]).

Definition trigger (q : QState) : QState :=
  if timer q || Nat.eqb (length (queue q)) 0 then q else setTimer true q.

Definition push (m : Message) (q : QState) : QState :=
  trigger (setQueue (queue q ++ [m]) q).

(** The staleness test of lines 360 and 379. *)
Definition stale (vp : option (P -> St -> option Z)) (documentVersion : option Z)
    (params : P) (s : St) : bool :=
  match vp, documentVersion with
  | Some f, Some v => negb (bool_decide (f params s = Some v))
  | _, _ => false
  end.

(** [registerRequest]'s host callback: the item captures the version the
    provider gives at enqueue time. *)
Definition onRequest (method : string) (params : P) (id : nat) (w : World) : World :=
  let '(q, s) := w in
  let dv := match requestHandlers method with
            | Some elem => match rq_versionProvider elem with
                           | Some f => f params s
                           | None => None
                           end
            | None => None
            end in
  (push (Request method params dv id) q, s).

Definition onNotification (method : string) (params : P) (w : World) : World :=
  let '(q, s) := w in
  let dv := match notificationHandlers method with
            | Some elem => match nt_versionProvider elem with
                           | Some f => f params s
                           | None => None
                           end
            | None => None
            end in
  (push (Notification method params dv) q, s).

Definition addNotificationMessage (method : string) (params : P) (version : option Z)
    (w : World) : World :=
  let '(q, s) := w in (push (Notification method params version) q, s).

(** [processQueue]; [None] is the [TypeError] raised when no handler is
    registered for the item's method ([elem] is [undefined]).  The early
    [return]s of the cancelled and stale paths skip [this.trigger()]. *)
Definition processQueue (w : World) : option World :=
  let '(q0, s) := w in
  match queue q0 with
  | [] => Some w
  | message :: rest =>
      let q := setQueue rest q0 in
      match message with
      | Request method params dv id =>
          if bool_decide (id ∈ cancelled q) then Some (addReply (Reject id RequestCancelled) q, s)
          else match requestHandlers method with
               | None => None
               | Some elem =>
                   if stale (rq_versionProvider elem) dv params s
                   then Some (addReply (Reject id RequestCancelled) q, s)
                   else let '(result, (q', s')) := rq_handler elem params (q, s) in
                        let reply := match result with
                                     | Returned r => Resolve id r
                                     | Thenable => Deferred id
                                     end in
                        Some (trigger (addReply reply q'), s')
               end
      | Notification method params dv =>
          match notificationHandlers method with
          | None => None
          | Some elem =>
              if stale (nt_versionProvider elem) dv params s then Some (q, s)
              else let '(q', s') := nt_handler elem params (q, s) in
                   Some (trigger q', s')
          end
      end
  end.

(** The [setImmediate] callback armed by [trigger]. *)
Definition tick (w : World) : option World :=
  let '(q, s) := w in processQueue (setTimer false q, s).

(** The event loop running pending ticks, with fuel: it stops when no
    tick is pending or on a [TypeError]. *)
Fixpoint drain (fuel : nat) (w : World) : option World :=
  match fuel with
  | O => Some w
  | S n => if timer w.1 then (tick w ≫= drain n) else Some w
  end.

(** The item [m] reaches its handler when it is at the head of the queue
    in a state with the cancelled ids [c] and the server state [s]. *)
Definition dispatchable (c : list nat) (s : St) (m : Message) : Prop :=
  match m with
  | Request method params dv id =>
      (id ∉ c) /\
      exists elem, requestHandlers method = Some elem /\
                   stale (rq_versionProvider elem) dv params s = false
  | Notification method params dv =>
      exists elem, notificationHandlers method = Some elem /\
                   stale (nt_versionProvider elem) dv params s = false
  end.

(** The item at the head of the queue reaches its handler. *)
Definition dispatched (w : World) : Prop :=
  match queue w.1 with
  | m :: _ => dispatchable (cancelled w.1) w.2 m
  | [] => False
  end.

(** [f] is the version provider of a registered handler. *)
Definition provider (f : P -> St -> option Z) : Prop :=
  (exists m elem, requestHandlers m = Some elem /\ rq_versionProvider elem = Some f) \/
  (exists m elem, notificationHandlers m = Some elem /\ nt_versionProvider elem = Some f).

(** No version a provider reads differs between [s] and [s']. *)
Definition versions_kept (s s' : St) : Prop :=
  forall f, provider f -> forall p, f p s' = f p s.

(** The handlers leave the queue state alone and change no document
    version a provider reads: true of [validateSingle], the code-action
    and the command handlers (not of the configuration handlers, which
    post items). *)
Definition handlers_frame : Prop :=
  (forall m elem p w, requestHandlers m = Some elem ->
     (rq_handler elem p w).2.1 = w.1 /\ versions_kept w.2 (rq_handler elem p w).2.2) /\
  (forall m elem p w, notificationHandlers m = Some elem ->
     (nt_handler elem p w).1 = w.1 /\ versions_kept w.2 (nt_handler elem p w).2).

(** The request a reply settles, and the requests of a list of items. *)
Definition replyId (r : Reply) : nat :=
  match r with Resolve id _ | Reject id _ | Deferred id => id end.

Fixpoint requestIds (l : list Message) : list nat :=
  match l with
  | [] => []
  | Request _ _ _ id :: l' => id :: requestIds l'
  | Notification _ _ _ :: l' => requestIds l'
  end.

(** ** Lemmas *)

Lemma trigger_queue q : queue (trigger q) = queue q.
Proof. unfold trigger. by destruct (_ || _). Qed.

Lemma trigger_cancelled q : cancelled (trigger q) = cancelled q.
Proof. unfold trigger. by destruct (_ || _). Qed.

Lemma trigger_replies q : replies (trigger q) = replies q.
Proof. unfold trigger. by destruct (_ || _). Qed.

Lemma trigger_armed q : queue q <> [] -> timer (trigger q) = true.
Proof.
  unfold trigger. destruct (timer q) eqn:Ht; simpl; [done|].
  destruct (queue q); simpl; [done|auto].
Qed.

Lemma drain_S n w : drain (S n) w = if timer w.1 then tick w ≫= drain n else Some w.
Proof. reflexivity. Qed.

Lemma push_queue m q : queue (push m q) = queue q ++ [m].
Proof. unfold push. by rewrite trigger_queue. Qed.

Lemma requestIds_cons m l : requestIds (m :: l) = requestIds [m] ++ requestIds l.
Proof. by destruct m. Qed.

Lemma stale_kept vp dv p s s' :
  versions_kept s s' -> (forall f, vp = Some f -> provider f) ->
  stale vp dv p s' = stale vp dv p s.
Proof.
  intros Hk Hp. unfold stale. destruct vp as [f|]; [|done].
  by rewrite (Hk f (Hp f eq_refl)).
Qed.

(** Being dispatchable survives a handler run that keeps the versions. *)
Lemma dispatchable_kept c s s' m : versions_kept s s' -> dispatchable c s m -> dispatchable c s' m.
Proof.
  intros Hk. destruct m as [method params dv id|method params dv]; simpl.
  - intros [Hc (elem & He & Hs)]. split; [done|]. exists elem. split; [done|].
    rewrite (stale_kept _ _ _ s); [done|done|]. intros f Hf. left. eauto.
  - intros (elem & He & Hs). exists elem. split; [done|].
    rewrite (stale_kept _ _ _ s); [done|done|]. intros f Hf. right. eauto.
Qed.

(** A dispatchable head item is handled: it leaves the queue, its request (if it
    is one) is answered, and [trigger] runs on the handler's queue state. *)
Lemma processQueue_fresh q s m rest :
  handlers_frame -> queue q = m :: rest -> dispatchable (cancelled q) s m ->
  exists q' s', processQueue (q, s) = Some (trigger q', s') /\
    queue q' = rest /\ timer q' = timer q /\ cancelled q' = cancelled q /\
    map replyId (replies q') = map replyId (replies q) ++ requestIds [m] /\
    versions_kept s s'.
Proof.
  intros [Hrq Hnt] Hq Hf. unfold processQueue. rewrite Hq.
  destruct m as [method params dv id|method params dv]; simpl in Hf.
  - destruct Hf as [Hc (elem & He & Hs)]. rewrite bool_decide_false by done. rewrite He, Hs.
    destruct (Hrq method elem params (setQueue rest q, s) He) as [H1 H2].
    destruct (rq_handler elem params _) as [res [q' s']]. simpl in H1, H2. subst q'.
    eexists _, s'. split; [reflexivity|]. simpl. rewrite map_app. by destruct res.
  - destruct Hf as (elem & He & Hs). rewrite He, Hs.
    destruct (Hnt method elem params (setQueue rest q, s) He) as [H1 H2].
    destruct (nt_handler elem params _) as [q' s']. simpl in H1, H2. subst q'.
    eexists _, s'. split; [reflexivity|]. simpl. by rewrite app_nil_r.
Qed.

(** ** Properties *)

(** C11: [processQueue] removes the head item and nothing else happens
    to the server state unless the item reaches its handler: an item
    whose request was cancelled, or whose captured document version is
    not the live one, is answered or dropped with the server state
    unchanged, and the drop does not re-arm the timer. *)
Theorem processQueue_not_dispatched q s m rest w' :
  queue q = m :: rest -> ~ dispatched (q, s) ->
  processQueue (q, s) = Some w' ->
  w'.2 = s /\ queue w'.1 = rest /\ timer w'.1 = timer q.
Proof.
  intros Hq Hnd. unfold processQueue, dispatched in *. simpl in Hnd. rewrite Hq in Hnd |- *.
  destruct m as [method params dv id|method params dv].
  - case_bool_decide; [by intros [= <-]|].
    destruct (requestHandlers method) as [elem|] eqn:He; [|done].
    destruct (stale _ _ _ _) eqn:Hs; [by intros [= <-]|].
    exfalso. apply Hnd. split; [done|]. by exists elem.
  - destruct (notificationHandlers method) as [elem|] eqn:He; [|done].
    destruct (stale _ _ _ _) eqn:Hs; [by intros [= <-]|].
    exfalso. apply Hnd. by exists elem.
Qed.

(** C13: After a stale notification or a cancelled request is dropped,
    no tick is pending even though items remain: the items queued behind
    it are not processed until something else is pushed. *)
Theorem tick_drop_stalls q s m rest :
  queue q = m :: rest -> rest <> [] -> ~ dispatched (q, s) ->
  forall w', tick (q, s) = Some w' ->
  queue w'.1 = rest /\ timer w'.1 = false /\ forall n, drain n w' = Some w'.
Proof.
  intros Hq Hne Hnd w' Ht. unfold tick in Ht.
  destruct (processQueue_not_dispatched (setTimer false q) s m rest w') as (Hs & Hq' & Htm);
    [done|done|done|].
  simpl in Htm. split; [done|]. split; [done|].
  intros [|n]; simpl; [done|]. by rewrite Htm.
Qed.

(** C14: Draining delivers every queued item: when the handlers leave the
    queue state and the document versions alone, the timer is armed
    whenever items are queued, and every queued item has a handler and is
    neither cancelled nor stale, [queue length + 1] ticks empty the queue,
    leave no tick pending, and answer each queued request exactly once,
    in queue order. *)
Theorem drain_dispatches_all q s :
  handlers_frame -> (queue q <> [] -> timer q = true) ->
  Forall (dispatchable (cancelled q) s) (queue q) ->
  exists w', drain (S (length (queue q))) (q, s) = Some w' /\
    queue w'.1 = [] /\ timer w'.1 = false /\
    map replyId (replies w'.1) = map replyId (replies q) ++ requestIds (queue q).
Proof.
  intros Hfr. remember (queue q) as l eqn:Hl. revert q s Hl.
  induction l as [|m rest IH]; intros q s Hl Ht Hf; rewrite drain_S; cbn [fst].
  - rewrite app_nil_r. destruct (timer q) eqn:Htq; [|by eexists].
    unfold tick, processQueue. simpl. rewrite <- Hl. by eexists.
  - rewrite Ht by done. apply Forall_cons in Hf as [Hm Hf].
    destruct (processQueue_fresh (setTimer false q) s m rest)
      as (q' & s' & Hp & Hq' & _ & Hc & Hr & Hk); [done|by simpl; rewrite <- Hl|done|].
    unfold tick. rewrite Hp. cbn [mbind option_bind length].
    destruct (IH (trigger q') s') as (w' & Hd & Hw & Htw & Hrw).
    + by rewrite trigger_queue.
    + intros Hne. apply trigger_armed. by rewrite Hq'.
    + rewrite trigger_cancelled, Hc. eapply Forall_impl; [done|]. intros x. by apply dispatchable_kept.
    + exists w'. split_and!; [done|done|done|].
      rewrite Hrw, trigger_replies, Hr, (requestIds_cons m rest). simpl. by rewrite app_assoc.
Qed.
End Queue.

Arguments Message : clear implicits.
Arguments Reply : clear implicits.
Arguments QState : clear implicits.
Arguments Handlers : clear implicits.

(** ** Witnesses

    A handler table shaped like the server's: the live state maps each
    open document's URI to its current version and logs the validations
    that ran; the [standard/validate] notification's version provider reads
    the live version, as [document => document.version] does. *)
Definition ExState : Type := list (string * Z) * list string.

Definition exValidate : @NotificationElem ExState string unit :=
  {| nt_handler := fun uri w => (w.1, (w.2.1, w.2.2 ++ [uri]));
     nt_versionProvider := Some (fun uri s => JSMap.get uri s.1) |}.

#[export] Instance exHandlers : Handlers ExState string unit :=
  {| requestHandlers := fun _ => None;
     notificationHandlers := fun m => if decide (m = "standard/validate") then Some exValidate else None |}.

Definition exQueue (v : Z) : QState string unit :=
  {| queue := [Notification "standard/validate" "a.js" (Some v);
               Notification "standard/validate" "b.js" (Some 1)];
     timer := true; cancelled := []; replies := [] |}.

Definition exDocs : ExState := ([("a.js", 2); ("b.js", 1)], []).

Lemma exHandlers_frame : @handlers_frame ExState string unit exHandlers.
Proof.
  split; intros m elem p w; simpl; [done|]. case_decide; [|done]. intros [= <-]. simpl.
  split; [done|]. intros f [(m' & e' & He' & _)|(m' & e' & He' & Hf)] p'; [done|].
  simpl in He'. case_decide; [|done]. injection He' as <-. simpl in Hf. by injection Hf as <-.
Qed.

Lemma exQueue_all_fresh : Forall (@dispatchable ExState string unit exHandlers [] exDocs) (queue (exQueue 2)).
Proof.
  constructor; [|constructor; [|constructor]]; unfold dispatchable; simpl;
    (eexists; split; [reflexivity|vm_compute; reflexivity]).
Qed.

Lemma exQueue_stale : ~ @dispatched ExState string unit exHandlers (exQueue 1, exDocs).
Proof. unfold dispatched. simpl. intros (elem & [= <-] & Hs). vm_compute in Hs. discriminate. Qed.

Lemma processQueue_not_dispatched_witness :
  exists w', processQueue (exQueue 1, exDocs) = Some w' /\
    w'.2 = exDocs /\ queue w'.1 = [Notification "standard/validate" "b.js" (Some 1)] /\
    timer w'.1 = true.
Proof.
  eexists. split; [reflexivity|].
  eapply (processQueue_not_dispatched (exQueue 1) exDocs); [reflexivity|apply exQueue_stale|reflexivity].
Defined.

Lemma tick_drop_stalls_witness :
  exists w', tick (exQueue 1, exDocs) = Some w' /\
    queue w'.1 = [Notification "standard/validate" "b.js" (Some 1)] /\
    timer w'.1 = false /\ forall n, drain n w' = Some w'.
Proof.
  eexists. split; [reflexivity|].
  eapply (tick_drop_stalls (exQueue 1) exDocs); [reflexivity|done|apply exQueue_stale|reflexivity].
Defined.

Lemma drain_dispatches_all_witness :
  exists w', drain 3 (exQueue 2, exDocs) = Some w' /\
    queue w'.1 = [] /\ timer w'.1 = false /\ map replyId (replies w'.1) = [].
Proof. apply (drain_dispatches_all (exQueue 2) exDocs exHandlers_frame); [done|apply exQueue_all_fresh]. Defined.

End MessageQueue.
