(* ===== verification/CodeActions.v ===== *)
(** * Code actions and fix commands (server.js lines 419-433, 846-967)

    The code-action request handler offers one "Fix this ... problem"
    command per diagnostic of the request that has a recorded fix, and,
    when there are several, a "Fix all <rule> problems" and a "Fix all
    auto-fixable problems" command; the workspace edits these commands
    apply are kept in the global map [commands], replaced at every
    code-action request.  The execute-command handler applies one of them,
    or, for [standard.applyAutoFix], the overlap-free batch computed by
    [computeAllFixes].  [getFixes] gives the batch applied on will-save.

    Text positions ([textDocument.positionAt]) belong to the
    vscode-languageserver library: a [TextEdit] keeps the character
    offsets the position is computed from; [codeActionRequest] keeps the
    one observable effect of the call, the [TypeError] it raises when the
    document is no longer open. *)

From Stdlib Require Import ZArith Lia Sorted Permutation.
From stdpp Require Import base list sets strings.
From S2P Require Import Prelude Diagnostics Fixes MessageQueue.
Import Diagnostics Fixes.

Module CodeActions.

(** ** Data *)

Definition applySingleFix : string := "standard.applySingleFix".
Definition applySameFixes : string := "standard.applySameFixes".
Definition applyAllFixes : string := "standard.applyAllFixes".
Definition applyAutoFix : string := "standard.applyAutoFix".

(** [TextEdit.replace(Range.create(positionAt(s), positionAt(e)), text)]. *)
Record TextEdit := mkTextEdit { te_start : Z; te_end : Z; newText : string }.

(** A [WorkspaceChange] holding the edits of one versioned document. *)
Record WorkspaceChange := mkWorkspaceChange {
  wc_uri : string;
  wc_version : Z;
  wc_edits : list TextEdit
}.

Record Command := mkCommand { title : string; command : string }.

(** The part of the server state the handlers read and write:
    [codeActions], the open documents, and [commands] ([None] while it is
    still [undefined], before the first code-action request). *)
Record CAState := mkCAState {
  codeActions : CodeActionStore;
  documents : list (string * TextDocument);
  commands : option (list (string * WorkspaceChange))
}.

Record CodeActionParams := mkCodeActionParams {
  textDocument_uri : string;
  context_diagnostics : list Diagnostic
}.

(** ** Operations *)

Definition createTextEdit (editInfo : FixRecord) : TextEdit :=
  {| te_start := edit_start (edit editInfo);
     te_end := edit_end (edit editInfo);
     newText := default "" (text (edit editInfo)) |}.

(** [function getLastEdit(array)]. *)
Definition getLastEdit (array : list FixRecord) : option FixRecord := last array.

(** The loop over [fixes.getScoped(params.context.diagnostics)]: the state
    is [(documentVersion, ruleId, result, commands)]. *)
Definition scopedStep (uri : string)
    (acc : Z * option string * list Command * list (string * WorkspaceChange))
    (editInfo : FixRecord) : Z * option string * list Command * list (string * WorkspaceChange) :=
  let '(_, _, result, cmds) := acc in
  let dv := documentVersion editInfo in
  (dv, Some (ruleId editInfo),
   result ++ [mkCommand (label editInfo) applySingleFix],
   JSMap.set applySingleFix (mkWorkspaceChange uri dv [createTextEdit editInfo]) cmds).

(** The loop over [fixes.getAllSorted()]: the state is
    [(documentVersion, same, all)]. *)
Definition batchStep (ruleId0 : option string) (acc : Z * list FixRecord * list FixRecord)
    (editInfo : FixRecord) : Z * list FixRecord * list FixRecord :=
  let '(dv, same, all) := acc in
  let dv := if dv =? -1 then documentVersion editInfo else dv in
  let same := if bool_decide (Some (ruleId editInfo) = ruleId0) &&
                 negb (overlaps (getLastEdit same) editInfo)
              then same ++ [editInfo] else same in
  let all := if negb (overlaps (getLastEdit all) editInfo) then all ++ [editInfo] else all in
  (dv, same, all).

(** The [CodeActionRequest] handler (lines 847-910). *)
Definition codeActionHandler (params : CodeActionParams) (st : CAState)
    : list Command * CAState :=
  let uri := textDocument_uri params in
  let st0 := mkCAState (codeActions st) (documents st) (Some []) in
  match JSMap.get uri (codeActions st) with
  | None => ([], st0)
  | Some edits =>
      if isEmpty edits then ([], st0) else
      let '(dv, rid, result, cmds) :=
        fold_left (scopedStep uri) (getScoped edits (context_diagnostics params)) (-1, None, [], []) in
      if Nat.ltb 0 (length result) then
        let '(dv, same, all) := fold_left (batchStep rid) (getAllSorted edits) (dv, [], []) in
        let '(result, cmds) :=
          if Nat.ltb 1 (length same)
          then (result ++ [mkCommand ("Fix all " +:+ default "undefined" rid +:+ " problems") applySameFixes],
                JSMap.set applySameFixes (mkWorkspaceChange uri dv (map createTextEdit same)) cmds)
          else (result, cmds) in
        let '(result, cmds) :=
          if Nat.ltb 1 (length all)
          then (result ++ [mkCommand "Fix all auto-fixable problems" applyAllFixes],
                JSMap.set applyAllFixes (mkWorkspaceChange uri dv (map createTextEdit all)) cmds)
          else (result, cmds) in
        (result, mkCAState (codeActions st) (documents st) (Some cmds))
      else (result, mkCAState (codeActions st) (documents st) (Some cmds))
  end.

(** The request as the queue runs it.  [createTextEdit] calls
    [textDocument.positionAt] with [textDocument = documents.get(uri)]
    (line 859), [undefined] once the document is closed: the first scoped
    fix of a closed document raises a [TypeError] ([None]), and
    [codeActionHandler] is the handler's result in every other case. *)
Definition codeActionRequest (params : CodeActionParams) (st : CAState)
    : option (list Command * CAState) :=
  let uri := textDocument_uri params in
  match JSMap.get uri (codeActions st), JSMap.get uri (documents st) with
  | Some edits, None =>
      if negb (isEmpty edits) && negb (Nat.eqb (length (getScoped edits (context_diagnostics params))) 0)
      then None
      else Some (codeActionHandler params st)
  | _, _ => Some (codeActionHandler params st)
  end.

(** The version provider of the code-action request (lines 911-914). *)
Definition codeActionVersion (params : CodeActionParams) (st : CAState) : option Z :=
  version <$> JSMap.get (textDocument_uri params) (documents st).

(** [computeAllFixes(identifier)] (lines 915-932); [None] is [undefined]. *)
Definition computeAllFixes (identifier : TextDocument) (st : CAState) : option (list TextEdit) :=
  match JSMap.get (uri identifier) (documents st) with
  | None => None
  | Some textDocument =>
      if negb (version identifier =? version textDocument) then None
      else match JSMap.get (uri identifier) (codeActions st) with
           | Some edits =>
               if negb (isEmpty edits) then Some (map createTextEdit (getOverlapFree edits))
               else None
           | None => None
           end
  end.

(** [getFixes(textDocument)] (lines 419-433), used on will-save. *)
Definition getFixes (textDocument : TextDocument) (st : CAState) : list TextEdit :=
  match JSMap.get (uri textDocument) (codeActions st) with
  | Some edits =>
      if isEmpty edits || negb (bool_decide (Some (version textDocument) = getDocumentVersion edits))
      then []
      else map createTextEdit (getOverlapFree edits)
  | None => []
  end.

(** The outcome of the [ExecuteCommandRequest] handler (lines 934-958):
    the workspace edit sent to the host, [None] when it answers [{}]
    without an edit, or a [TypeError] when [commands] is still
    [undefined]. *)
Inductive ExecOutcome :=
| ApplyEdit (wc : WorkspaceChange)
| NoEdit
| TypeError.

Definition executeCommandHandler (cmd : string) (identifier : TextDocument) (st : CAState)
    : ExecOutcome :=
  if bool_decide (cmd = applyAutoFix) then
    match computeAllFixes identifier st with
    | Some edits => ApplyEdit (mkWorkspaceChange (uri identifier) (version identifier) edits)
    | None => NoEdit
    end
  else match commands st with
       | None => TypeError
       | Some cmds =>
           match JSMap.get cmd cmds with
           | Some wc => ApplyEdit wc
           | None => NoEdit
           end
       end.

(** The version provider of the [ExecuteCommandRequest] (lines 959-967):
    the version named by an [applyAutoFix] command's argument. *)
Definition executeCommandVersion (cmd : string) (identifier : TextDocument) : option Z :=
  if bool_decide (cmd = applyAutoFix) then Some (version identifier) else None.

(** The reference batch: the greedy sweep over a sorted list. *)
Definition greedy (l : list FixRecord) : list FixRecord :=
  match l with
  | [] => []
  | first :: rest => first :: sweep first rest
  end.

(** The sweep continued from an optional last kept fix. *)
Definition keepFrom (lastKept : option FixRecord) (l : list FixRecord) : list FixRecord :=
  match lastKept with
  | None => greedy l
  | Some a => sweep a l
  end.

(** ** Lemmas *)

Lemma getOverlapFree_greedy edits : getOverlapFree edits = greedy (getAllSorted edits).
Proof. apply getOverlapFree_eq. Qed.

Lemma keepFrom_nil o : keepFrom o [] = [].
Proof. by destruct o. Qed.

Lemma keep_step (a : list FixRecord) x l :
  (if negb (overlaps (getLastEdit a) x) then a ++ [x] else a) ++
    keepFrom (getLastEdit (if negb (overlaps (getLastEdit a) x) then a ++ [x] else a)) l
  = a ++ keepFrom (getLastEdit a) (x :: l).
Proof.
  unfold getLastEdit. destruct (last a) as [y|] eqn:Hl; simpl.
  - destruct (fend y >? fstart x) eqn:Ho; simpl; [by rewrite Hl|].
    rewrite last_snoc, <- app_assoc. done.
  - apply last_None in Hl as ->. done.
Qed.

Lemma batch_fold rid l dv same all :
  fold_left (batchStep rid) l (dv, same, all) =
  (fold_left (fun dv x => if dv =? -1 then documentVersion x else dv) l dv,
   same ++ keepFrom (getLastEdit same) (filter (fun x => Some (ruleId x) = rid) l),
   all ++ keepFrom (getLastEdit all) l).
Proof.
  revert dv same all. induction l as [|x l IH]; intros dv same all; simpl.
  - by rewrite !keepFrom_nil, !app_nil_r.
  - destruct (batchStep rid (dv, same, all) x) as [[dv' same'] all'] eqn:Hb.
    rewrite IH, filter_cons. unfold batchStep in Hb. simpl in Hb. injection Hb as <- <- <-.
    f_equal; [f_equal|].
    + case_bool_decide as Hr; simpl.
      * rewrite decide_True by done. apply keep_step.
      * by rewrite decide_False.
    + apply keep_step.
Qed.

Lemma fold_dv_fixed l dv :
  0 <= dv -> fold_left (fun dv x => if dv =? -1 then documentVersion x else dv) l dv = dv.
Proof.
  intros Hdv. revert dv Hdv. induction l as [|x l IH]; intros dv Hdv; simpl; [done|].
  destruct_zcmp; [lia|]. by apply IH.
Qed.

Lemma scoped_fold uri l dv0 rid0 res0 cmds0 :
  fold_left (scopedStep uri) l (dv0, rid0, res0, cmds0) =
  (match last l with Some e => documentVersion e | None => dv0 end,
   match last l with Some e => Some (ruleId e) | None => rid0 end,
   res0 ++ map (fun e => mkCommand (label e) applySingleFix) l,
   fold_left (fun cmds e => JSMap.set applySingleFix
                (mkWorkspaceChange uri (documentVersion e) [createTextEdit e]) cmds) l cmds0).
Proof.
  revert dv0 rid0 res0 cmds0. induction l as [|x l IH]; intros dv0 rid0 res0 cmds0; simpl.
  - by rewrite app_nil_r.
  - rewrite IH, last_cons, <- app_assoc. by destruct (last l).
Qed.

Lemma single_fold_last uri l f cmds0 :
  JSMap.get applySingleFix
    (fold_left (fun cmds e => JSMap.set applySingleFix
                  (mkWorkspaceChange uri (documentVersion e) [createTextEdit e]) cmds) (l ++ [f]) cmds0)
  = Some (mkWorkspaceChange uri (documentVersion f) [createTextEdit f]).
Proof. rewrite fold_left_app. simpl. apply JSMap.get_set_eq. Qed.

Lemma getScoped_nonempty edits ds : getScoped edits ds <> [] -> isEmpty edits = false.
Proof.
  destruct edits as [|e edits]; [|done]. unfold getScoped. intros Hne. exfalso. apply Hne.
  clear Hne. induction ds as [|d ds IH]; [done|exact IH].
Qed.

Lemma single_fold_other uri l k cmds0 :
  k <> applySingleFix ->
  JSMap.get k (fold_left (fun cmds e => JSMap.set applySingleFix
                 (mkWorkspaceChange uri (documentVersion e) [createTextEdit e]) cmds) l cmds0)
  = JSMap.get k cmds0.
Proof.
  intros Hk. revert cmds0. induction l as [|e l IH]; intros cmds0; simpl; [done|].
  rewrite IH. by apply JSMap.get_set_ne.
Qed.

Definition singleFixes (uri : string) (l : list FixRecord) : list (string * WorkspaceChange) :=
  fold_left (fun cmds e => JSMap.set applySingleFix
               (mkWorkspaceChange uri (documentVersion e) [createTextEdit e]) cmds) l [].
Arguments singleFixes : simpl never.

(** On an open document the request is the handler: the theorems on
    [codeActionHandler] are theorems on the request. *)
Lemma codeActionRequest_open params st td :
  JSMap.get (textDocument_uri params) (documents st) = Some td ->
  codeActionRequest params st = Some (codeActionHandler params st).
Proof. intros Hd. unfold codeActionRequest. rewrite Hd. by case_match. Qed.

(** The handler in closed form, once some diagnostic of the request has a
    recorded fix ([f] is the last such fix). *)
Lemma codeActionHandler_eq params st edits l f :
  JSMap.get (textDocument_uri params) (codeActions st) = Some edits ->
  getScoped edits (context_diagnostics params) = l ++ [f] -> 0 <= documentVersion f ->
  codeActionHandler params st =
  let uri := textDocument_uri params in
  let same := greedy (filter (fun x => Some (ruleId x) = Some (ruleId f)) (getAllSorted edits)) in
  let all := getOverlapFree edits in
  let r1 := map (fun e => mkCommand (label e) applySingleFix) (l ++ [f]) in
  let '(r2, c2) :=
    if Nat.ltb 1 (length same)
    then (r1 ++ [mkCommand ("Fix all " +:+ ruleId f +:+ " problems") applySameFixes],
          JSMap.set applySameFixes (mkWorkspaceChange uri (documentVersion f) (map createTextEdit same))
            (singleFixes uri (l ++ [f])))
    else (r1, singleFixes uri (l ++ [f])) in
  let '(r3, c3) :=
    if Nat.ltb 1 (length all)
    then (r2 ++ [mkCommand "Fix all auto-fixable problems" applyAllFixes],
          JSMap.set applyAllFixes (mkWorkspaceChange uri (documentVersion f) (map createTextEdit all)) c2)
    else (r2, c2) in
  (r3, mkCAState (codeActions st) (documents st) (Some c3)).
Proof.
  intros He Hs Hv. unfold codeActionHandler. rewrite He.
  rewrite (getScoped_nonempty edits (context_diagnostics params)) by (rewrite Hs; by destruct l).
  rewrite Hs, scoped_fold, last_snoc. simpl.
  rewrite length_map, length_app. simpl.
  replace (Nat.ltb 0 (length l + 1)) with true by (symmetry; apply Nat.ltb_lt; lia).
  rewrite batch_fold, fold_dv_fixed by done. simpl.
  rewrite <- getOverlapFree_greedy. unfold singleFixes.
  destruct (Nat.ltb 1 (length (getOverlapFree edits))), (Nat.ltb 1 (length (greedy _))); reflexivity.
Qed.

(** The queue's staleness test of [processQueue] never rejects an
    execute-command request: its version provider reads the version from
    the request's own arguments, so the value captured at enqueue time is
    the one recomputed at dispatch, whatever the documents became. *)
Lemma executeCommand_never_stale cmd identifier (st : CAState) :
  MessageQueue.stale (Some (fun (p : string * TextDocument) (_ : CAState) => executeCommandVersion p.1 p.2))
    (executeCommandVersion cmd identifier) (cmd, identifier) st = false.
Proof. unfold MessageQueue.stale. simpl. by destruct (executeCommandVersion cmd identifier); [rewrite bool_decide_true|]. Qed.

(** ** Properties *)

(** C17: The "Fix all auto-fixable problems" command applies exactly the
    reconciler's overlap-free batch, the "Fix all <rule> problems" command
    the greedy overlap-free batch of the fixes of that rule, both stamped
    with the version of the fix; each is offered only when its batch has
    more than one edit. *)
Theorem codeActionHandler_batches params st edits l f :
  JSMap.get (textDocument_uri params) (codeActions st) = Some edits ->
  getScoped edits (context_diagnostics params) = l ++ [f] -> 0 <= documentVersion f ->
  let uri := textDocument_uri params in
  let same := greedy (filter (fun x => ruleId x = ruleId f) (getAllSorted edits)) in
  exists cmds, commands (codeActionHandler params st).2 = Some cmds /\
    JSMap.get applySameFixes cmds =
      (if Nat.ltb 1 (length same)
       then Some (mkWorkspaceChange uri (documentVersion f) (map createTextEdit same)) else None) /\
    JSMap.get applyAllFixes cmds =
      (if Nat.ltb 1 (length (getOverlapFree edits))
       then Some (mkWorkspaceChange uri (documentVersion f) (map createTextEdit (getOverlapFree edits)))
       else None).
Proof.
  intros He Hs Hv. simpl. rewrite (codeActionHandler_eq params st edits l f He Hs Hv). simpl.
  assert (Hf : filter (fun x => Some (ruleId x) = Some (ruleId f)) (getAllSorted edits)
             = filter (fun x => ruleId x = ruleId f) (getAllSorted edits)).
  { apply list_filter_iff. intros x. split; [by intros [=]|by intros ->]. }
  rewrite Hf.
  assert (Hns : JSMap.get applySameFixes (singleFixes (textDocument_uri params) (l ++ [f])) = None)
    by (unfold singleFixes; rewrite single_fold_other; done).
  assert (Hna : JSMap.get applyAllFixes (singleFixes (textDocument_uri params) (l ++ [f])) = None)
    by (unfold singleFixes; rewrite single_fold_other; done).
  destruct (Nat.ltb 1 (length (greedy _))), (Nat.ltb 1 (length (getOverlapFree edits)));
    simpl; eexists; split_and!; try reflexivity;
    repeat (rewrite JSMap.get_set_eq || rewrite JSMap.get_set_ne by done); done.
Qed.

(** C18: When several diagnostics of one request have recorded fixes, all
    the "Fix this ... problem" commands offered share the command id
    [standard.applySingleFix], and [commands] keeps only the last one's
    edit: executing the first offered command applies the last fix. *)
Theorem codeActionHandler_single_fix_last params st edits f1 f2 identifier :
  JSMap.get (textDocument_uri params) (codeActions st) = Some edits ->
  getScoped edits (context_diagnostics params) = [f1; f2] -> 0 <= documentVersion f2 ->
  let '(result, st') := codeActionHandler params st in
  take 2 result = [mkCommand (label f1) applySingleFix; mkCommand (label f2) applySingleFix] /\
  executeCommandHandler applySingleFix identifier st' =
    ApplyEdit (mkWorkspaceChange (textDocument_uri params) (documentVersion f2) [createTextEdit f2]).
Proof.
  intros He Hs Hv.
  rewrite (codeActionHandler_eq params st edits [f1] f2 He Hs Hv). simpl.
  assert (Hsingle : JSMap.get applySingleFix (singleFixes (textDocument_uri params) [f1; f2]) =
                    Some (mkWorkspaceChange (textDocument_uri params) (documentVersion f2) [createTextEdit f2]))
    by apply (single_fold_last _ [f1]).
  unfold executeCommandHandler. rewrite bool_decide_false by done.
  destruct (Nat.ltb 1 (length (greedy _))), (Nat.ltb 1 (length (getOverlapFree edits)));
    simpl; (split; [reflexivity|]);
    repeat (rewrite JSMap.get_set_ne by done); rewrite ?Hsingle; done.
Qed.

(** C19: The will-save batch is never computed from fixes recorded against
    another version: [getFixes] returns edits only when the first recorded
    fix carries the document's live version, and then they are the
    reconciler's overlap-free batch. *)
Theorem getFixes_live_version td st :
  getFixes td st <> [] ->
  exists edits, JSMap.get (uri td) (codeActions st) = Some edits /\
    getDocumentVersion edits = Some (version td) /\
    getFixes td st = map createTextEdit (getOverlapFree edits).
Proof.
  unfold getFixes. destruct (JSMap.get (uri td) (codeActions st)) as [edits|]; [|done].
  destruct (isEmpty edits); simpl; [done|].
  case_bool_decide as Hv; simpl; [|done]. intros _. by exists edits.
Qed.

(** C20: [computeAllFixes] (the [standard.applyAutoFix] command) checks the
    requested version against the live document but not against the
    version the fixes were recorded for: whenever the document is open at
    the requested version and has recorded fixes, it returns their
    overlap-free batch, whatever version they were computed on. *)
Theorem computeAllFixes_unchecked identifier st td edits :
  JSMap.get (uri identifier) (documents st) = Some td -> version td = version identifier ->
  JSMap.get (uri identifier) (codeActions st) = Some edits -> isEmpty edits = false ->
  computeAllFixes identifier st = Some (map createTextEdit (getOverlapFree edits)).
Proof.
  intros Hd Hv He Hne. unfold computeAllFixes. rewrite Hd, Hv, Z.eqb_refl, He, Hne. done.
Qed.

(** ** Witnesses *)

Definition exDiag (l0 c0 l1 c1 : Z) (rid : string) : Diagnostic :=
  {| message := "Missing semicolon. (" +:+ rid +:+ ")"; severity := Error; source := "standard";
     range := {| start := {| line := l0; character := c0 |}; end_ := {| line := l1; character := c1 |} |};
     code := Some rid |}.

Definition exState (liveVersion : Z) : CAState :=
  {| codeActions := [("file:///a.js", exEdits)];
     documents := [("file:///a.js", {| uri := "file:///a.js"; version := liveVersion |})];
     commands := None |}.

Definition exParams : CodeActionParams :=
  {| textDocument_uri := "file:///a.js";
     context_diagnostics := [exDiag 0 0 0 5 "semi"; exDiag 0 3 0 8 "semi"] |}.

Lemma codeActionHandler_batches_witness :
  exists cmds, commands (codeActionHandler exParams (exState 1)).2 = Some cmds /\
    JSMap.get applySameFixes cmds =
      (if Nat.ltb 1 (length (greedy (filter (fun x => ruleId x = "semi") (getAllSorted exEdits))))
       then Some (mkWorkspaceChange "file:///a.js" 1
                    (map createTextEdit (greedy (filter (fun x => ruleId x = "semi") (getAllSorted exEdits)))))
       else None) /\
    JSMap.get applyAllFixes cmds =
      (if Nat.ltb 1 (length (getOverlapFree exEdits))
       then Some (mkWorkspaceChange "file:///a.js" 1 (map createTextEdit (getOverlapFree exEdits)))
       else None).
Proof.
  apply (codeActionHandler_batches exParams (exState 1) exEdits [exFix "semi" 0 5] (exFix "semi" 3 8));
    [reflexivity|vm_compute; reflexivity|simpl; lia].
Defined.

Lemma codeActionHandler_single_fix_last_witness :
  let '(result, st') := codeActionHandler exParams (exState 1) in
  take 2 result = [mkCommand "Fix this semi problem" applySingleFix;
                   mkCommand "Fix this semi problem" applySingleFix] /\
  executeCommandHandler applySingleFix {| uri := "file:///a.js"; version := 1 |} st' =
    ApplyEdit (mkWorkspaceChange "file:///a.js" 1 [createTextEdit (exFix "semi" 3 8)]).
Proof.
  apply (codeActionHandler_single_fix_last exParams (exState 1) exEdits (exFix "semi" 0 5) (exFix "semi" 3 8));
    [reflexivity|vm_compute; reflexivity|simpl; lia].
Defined.

Lemma getFixes_live_version_witness :
  exists edits, JSMap.get "file:///a.js" (codeActions (exState 1)) = Some edits /\
    getDocumentVersion edits = Some 1 /\
    getFixes {| uri := "file:///a.js"; version := 1 |} (exState 1) = map createTextEdit (getOverlapFree edits).
Proof.
  apply (getFixes_live_version {| uri := "file:///a.js"; version := 1 |} (exState 1)).
  vm_compute. discriminate.
Defined.

(** The document moved on to version 2, the fixes are those of version 1. *)
Lemma computeAllFixes_unchecked_witness :
  computeAllFixes {| uri := "file:///a.js"; version := 2 |}
    {| codeActions := [("file:///a.js", exEdits)];
       documents := [("file:///a.js", {| uri := "file:///a.js"; version := 2 |})];
       commands := None |}
  = Some (map createTextEdit (getOverlapFree exEdits)) /\
  Forall (fun kr => documentVersion kr.2 = 1) exEdits.
Proof.
  split; [|repeat constructor].
  apply (computeAllFixes_unchecked _ _ {| uri := "file:///a.js"; version := 2 |} exEdits);
    reflexivity.
Defined.

End CodeActions.
