(* ===== verification/ClientConfig.v ===== *)
(** * The client's configuration middleware and document filter
      (client/out/extension.js lines 122-138, 280-433)

    The server asks the client for each document's settings
    ([workspace/configuration]); the client's middleware builds them from
    the [standard.*] configuration: which languages are validated and
    auto-fixed, the run mode, the engine and options, and the working
    directory chosen as the longest configured directory that is a prefix
    of the document's path.  The same file holds the client's
    [shouldBeValidated] test, the [syncedDocuments] filter of the
    document-sync middleware and the source filter of [provideCodeActions].

    Node's [path.isAbsolute] and [path.join] are library functions: the
    middleware is stated in a Section over them. *)

From Stdlib Require Import ZArith Lia.
From stdpp Require Import base list sets strings.
From S2P Require Import Prelude Diagnostics.
Import Diagnostics.

Module ClientConfig.

(** ** Data *)

(** A JSON value, for the free-form [standard.options] object. *)
Inductive JValue :=
| JNull
| JBool (b : bool)
| JNum (n : Z)
| JStr (s : string)
| JArr (l : list JValue)
| JObj (fields : list (string * JValue)).

(** A parsed [vscode.Uri]: its scheme, its file-system path and its string
    form. *)
Record Uri := mkUri { scheme : string; fsPath : string; uriString : string }.

(** An entry of [standard.validate]: a language id, a [ValidateItem]
    [{language, autoFix?}], or any other JSON value. *)
Inductive ValidateEntry :=
| VLanguage (language : string)
| VItem (language : string) (autoFix : option bool)
| VOther.

(** An entry of [standard.workingDirectories]: a directory string, a
    [DirectoryItem] [{directory, changeProcessCWD?}], or anything else. *)
Inductive WDEntry :=
| WDString (directory : string)
| WDItem (directory : string) (changeProcessCWD : option bool)
| WDOther.

Record DirectoryItem := mkDirectoryItem { directory : string; changeProcessCWD : bool }.

Record WorkspaceFolder := mkWorkspaceFolder { wf_name : string; wf_uri : string }.

(** The host workspace folder of a resource ([vscode.WorkspaceFolder]). *)
Record HostFolder := mkHostFolder { hf_name : string; hf_uri : Uri }.

(** The [standard] configuration section; [None] is an unset key, for
    which [config.get(key, default)] returns the default.
    [workingDirectories] is [None] when the value is not an array. *)
Record StandardConfig := mkStandardConfig {
  cfg_enable : option bool;
  cfg_enabled : option bool;
  cfg_validate : option (list ValidateEntry);
  cfg_autoFixOnSave : option bool;
  cfg_engine : option string;
  cfg_usePackageJson : option bool;
  cfg_options : option (list (string * JValue));
  cfg_run : option string;
  cfg_nodePath : option string;
  cfg_workingDirectories : option (list WDEntry)
}.

(** A linter library as [require] returned it: the path it was loaded
    from, and whether it exports [lintText]. *)
Record Library := mkLibrary { lib_path : string; hasLintText : bool }.

(** The settings object the middleware builds and the server consumes. *)
Record Settings := mkSettings {
  validate : bool;
  autoFix : bool;
  autoFixOnSave : bool;
  engine : string;
  usePackageJson : bool;
  options : list (string * JValue);
  run : string;
  nodePath : option string;
  workingDirectory : option DirectoryItem;
  workspaceFolder : option WorkspaceFolder;
  library : option Library
}.

(** A document as the client sees it. *)
Record ClientDocument := mkClientDocument { cd_uri : Uri; languageId : string }.

(** ** Operations *)

Definition defaultLanguages : list string :=
  ["javascript"; "javascriptreact"; "typescript"; "typescriptreact"].

(** JavaScript truthiness of a string. *)
Definition truthy (s : string) : bool := negb (bool_decide (s = "")).

Definition shouldBeValidated (config : StandardConfig) (textDocument : ClientDocument) : bool :=
  if negb (default true (cfg_enable config)) then false
  else existsb (fun item =>
         match item with
         | VLanguage l => bool_decide (l = languageId textDocument)
         | VItem l _ => bool_decide (l = languageId textDocument)
         | VOther => false
         end)
       (default (map VLanguage defaultLanguages) (cfg_validate config)).

(** The [for (let item of validateItems)] loop with its [break]s: the
    first matching entry sets [validate] and [autoFix]. *)
Fixpoint validateLoop (items : list ValidateEntry) (languageId0 : string) : option bool :=
  match items with
  | [] => None
  | VLanguage l :: rest =>
      if bool_decide (l = languageId0) then Some (bool_decide (l ∈ defaultLanguages))
      else validateLoop rest languageId0
  | VItem l af :: rest =>
      if bool_decide (l = languageId0) then Some (default false af)
      else validateLoop rest languageId0
  | VOther :: rest => validateLoop rest languageId0
  end.

Section Paths.
Context (isAbsolute : string -> bool) (pathJoin : string -> string -> string).

(** One iteration of the [workingDirectories] loop: [acc] is the
    [workingDirectory] chosen so far. *)
Definition wdStep (workspaceFolderPath : option string) (filePath : option string)
    (acc : option DirectoryItem) (entry : WDEntry) : option DirectoryItem :=
  let '(dir, cpc) := match entry with
                     | WDString d => (Some d, false)
                     | WDItem d c => (Some d, default false c)
                     | WDOther => (None, false)
                     end in
  match dir with
  | Some d =>
      if truthy d then
        let resolved :=
          if isAbsolute d then Some d
          else match workspaceFolderPath with
               | Some wp => if truthy wp then Some (pathJoin wp d) else None
               | None => None
               end in
        match filePath, resolved with
        | Some fp, Some dr =>
            if truthy fp && truthy dr && String.prefix dr fp then
              match acc with
              | Some wd =>
                  if Nat.ltb (String.length (directory wd)) (String.length dr)
                  then Some (mkDirectoryItem dr cpc) else acc
              | None => Some (mkDirectoryItem dr cpc)
              end
            else acc
        | _, _ => acc
        end
      else acc
  | None => acc
  end.

Definition selectWorkingDirectory (workspaceFolder : option HostFolder) (document : ClientDocument)
    (entries : list WDEntry) : option DirectoryItem :=
  let workspaceFolderPath :=
    match workspaceFolder with
    | Some wf => if bool_decide (scheme (hf_uri wf) = "file") then Some (fsPath (hf_uri wf)) else None
    | None => None
    end in
  let filePath :=
    if bool_decide (scheme (cd_uri document) = "file") then Some (fsPath (cd_uri document)) else None in
  fold_left (wdStep workspaceFolderPath filePath) entries None.

(** The middleware's answer for one [ConfigurationItem] with a [scopeUri]
    (lines 345-432); [synced] is [syncedDocuments.get(item.scopeUri)]. *)
Definition configurationItem (config : StandardConfig) (synced : option ClientDocument)
    (workspaceFolder : option HostFolder) : Settings :=
  let base := mkSettings false false false
                (default "standard" (cfg_engine config))
                (default false (cfg_usePackageJson config))
                (default [] (cfg_options config))
                (default "onType" (cfg_run config))
                (cfg_nodePath config) None None None in
  match synced with
  | None => base
  | Some document =>
      let '(validate0, autoFix0) :=
        if default true (cfg_enabled config) then
          match validateLoop (default (map VLanguage defaultLanguages) (cfg_validate config))
                  (languageId document) with
          | Some af => (true, af)
          | None => (false, false)
          end
        else (false, false) in
      let autoFixOnSave0 := validate0 && autoFix0 && default false (cfg_autoFixOnSave config) in
      let wf := (fun f => mkWorkspaceFolder (hf_name f) (uriString (hf_uri f))) <$> workspaceFolder in
      let wd := match cfg_workingDirectories config with
                | Some entries => selectWorkingDirectory workspaceFolder document entries
                | None => None
                end in
      mkSettings validate0 autoFix0 autoFixOnSave0 (engine base) (usePackageJson base)
        (options base) (run base) (nodePath base) wd wf None
  end.
(** The directory an entry contributes when it is a candidate: a
    truthy, resolved directory that is a string prefix of the file path. *)
Definition wdCandidate (workspaceFolderPath : option string) (filePath : option string)
    (entry : WDEntry) : option DirectoryItem :=
  wdStep workspaceFolderPath filePath None entry.

Definition chooseLongest (acc : option DirectoryItem) (c : DirectoryItem) : option DirectoryItem :=
  match acc with
  | Some wd => if Nat.ltb (String.length (directory wd)) (String.length (directory c)) then Some c else acc
  | None => Some c
  end.

Lemma wdStep_eq wp fp acc e :
  wdStep wp fp acc e =
  match wdCandidate wp fp e with
  | Some c => chooseLongest acc c
  | None => acc
  end.
Proof.
  unfold wdCandidate, wdStep, chooseLongest.
  destruct e as [d|d c|]; [| |done]; destruct (truthy d); try done;
    destruct (isAbsolute d), wp as [wp|], fp as [fp|]; try done;
    repeat (case_match; simpl in *; try done).
Qed.

Lemma wdCandidate_prefix wp fp e c :
  wdCandidate wp fp e = Some c ->
  exists p, fp = Some p /\ String.prefix (directory c) p = true.
Proof.
  unfold wdCandidate, wdStep. intros H.
  repeat (case_match; simplify_eq; try done);
  eexists; (split; [reflexivity|]); simpl;
  repeat match goal with Hb : (_ && _) = true |- _ => apply andb_prop in Hb as [? ?] end; done.
Qed.

Lemma fold_chooseLongest cs a :
  let r := fold_left chooseLongest cs (Some a) in
  (r = Some a /\ Forall (fun c => (String.length (directory c) <= String.length (directory a))%nat) cs) \/
  (exists w l1 l2, r = Some w /\ cs = l1 ++ w :: l2 /\
     (String.length (directory a) < String.length (directory w))%nat /\
     Forall (fun c => (String.length (directory c) < String.length (directory w))%nat) l1 /\
     Forall (fun c => (String.length (directory c) <= String.length (directory w))%nat) l2).
Proof.
  revert a. induction cs as [|c cs IH]; intros a; simpl; [by left|].
  destruct (Nat.ltb_spec (String.length (directory a)) (String.length (directory c))).
  - destruct (IH c) as [[-> Hall]|(w & l1 & l2 & -> & -> & Hlt & H1 & H2)].
    + right. exists c, [], cs. split_and!; done.
    + right. exists w, (c :: l1), l2. split_and!; try done; [lia|constructor; [lia|done]].
  - destruct (IH a) as [[-> Hall]|(w & l1 & l2 & -> & -> & Hlt & H1 & H2)].
    + left. split; [done|constructor; [lia|done]].
    + right. exists w, (c :: l1), l2. split_and!; try done. constructor; [lia|done].
Qed.

Lemma fold_wdStep wp fp entries acc :
  fold_left (wdStep wp fp) entries acc = fold_left chooseLongest (omap (wdCandidate wp fp) entries) acc.
Proof.
  revert acc. induction entries as [|e es IH]; intros acc; simpl; [done|].
  rewrite wdStep_eq. destruct (wdCandidate wp fp e); simpl; apply IH.
Qed.

(** C21: The working directory chosen for a document is the first of the
    longest configured directories that are a prefix of the document's
    path: every candidate before it is strictly shorter, every one after
    it is not longer, and there is none only if no entry is a candidate. *)
Theorem selectWorkingDirectory_longest wf doc entries :
  let wp := match wf with
            | Some f => if bool_decide (scheme (hf_uri f) = "file") then Some (fsPath (hf_uri f)) else None
            | None => None
            end in
  let fp := if bool_decide (scheme (cd_uri doc) = "file") then Some (fsPath (cd_uri doc)) else None in
  let cs := omap (wdCandidate wp fp) entries in
  match selectWorkingDirectory wf doc entries with
  | None => cs = []
  | Some wd =>
      String.prefix (directory wd) (fsPath (cd_uri doc)) = true /\
      exists l1 l2, cs = l1 ++ wd :: l2 /\
        Forall (fun c => (String.length (directory c) < String.length (directory wd))%nat) l1 /\
        Forall (fun c => (String.length (directory c) <= String.length (directory wd))%nat) l2
  end.
Proof.
  simpl. unfold selectWorkingDirectory. rewrite fold_wdStep.
  set (wp := match wf with | Some f => _ | None => None end).
  set (fp := if bool_decide _ then _ else _).
  assert (Hpre : forall c, c ∈ omap (wdCandidate wp fp) entries ->
            String.prefix (directory c) (fsPath (cd_uri doc)) = true).
  { intros c Hc. apply list_elem_of_omap in Hc as (e & _ & He).
    destruct (wdCandidate_prefix _ _ _ _ He) as (p & Hp & Hpr).
    unfold fp in Hp. case_bool_decide; simplify_eq. done. }
  destruct (omap (wdCandidate wp fp) entries) as [|c cs] eqn:Hcs; simpl; [done|].
  destruct (fold_chooseLongest cs c) as [[-> Hall]|(w & l1 & l2 & -> & -> & Hlt & H1 & H2)].
  - split; [apply Hpre; left|]. exists [], cs. split_and!; done.
  - split; [apply Hpre; right; set_solver|]. exists (c :: l1), l2. split_and!; try done.
    constructor; [lia|done].
Qed.

(** Auto-fix on save is only ever on for a document that is validated
    and auto-fixed. *)
Theorem configurationItem_autoFixOnSave config synced wf :
  autoFixOnSave (configurationItem config synced wf) = true ->
  validate (configurationItem config synced wf) = true /\
  autoFix (configurationItem config synced wf) = true.
Proof.
  unfold configurationItem. destruct synced as [doc|]; simpl; [|done].
  destruct (if default true (cfg_enabled config) then _ else _) as [v a] eqn:E. simpl.
  destruct v, a; simpl; done.
Qed.

(** C23: The middleware gates validation on the key [standard.enabled],
    while [shouldBeValidated] and the enable / disable commands use
    [standard.enable]: with [enable] set to [false] and [enabled] unset, a
    document of a listed language is still validated once it is synced. *)
Theorem configurationItem_reads_enabled config doc wf af :
  cfg_enable config = Some false -> cfg_enabled config = None ->
  validateLoop (default (map VLanguage defaultLanguages) (cfg_validate config)) (languageId doc) = Some af ->
  shouldBeValidated config doc = false /\
  validate (configurationItem config (Some doc) wf) = true.
Proof.
  intros Hen Hed Hl. unfold shouldBeValidated, configurationItem. rewrite Hen, Hed, Hl. done.
Qed.

End Paths.

(** [provideCodeActions] (lines 318-333): the diagnostics forwarded to the
    server, [None] when the middleware answers [[]] itself. *)
Definition provideCodeActionsFilter (synced : bool) (diagnostics : list Diagnostic)
    : option (list Diagnostic) :=
  if negb synced || Nat.eqb (length diagnostics) 0 then None
  else let standardDiagnostics := filter (fun d => source d = "standard") diagnostics in
       if Nat.eqb (length standardDiagnostics) 0 then None else Some standardDiagnostics.

(** C24: The client forwards to the server only diagnostics whose source
    is ["standard"], but the server stamps each diagnostic with the
    configured engine: for any other engine no code action is ever
    requested for the server's diagnostics. *)
Theorem provideCodeActions_engine_filtered engine problems :
  engine <> "standard" ->
  provideCodeActionsFilter true (map (fun p => makeDiagnostic p engine) problems) = None.
Proof.
  intros Hne. unfold provideCodeActionsFilter. simpl.
  destruct (Nat.eqb (length _) 0); [done|].
  assert (Hf : filter (fun d => source d = "standard") (map (fun p => makeDiagnostic p engine) problems) = []).
  { induction problems as [|p ps IH]; [done|]. simpl. rewrite filter_cons, decide_False; done. }
  by rewrite Hf.
Qed.

(** ** Witnesses *)

Definition posixIsAbsolute (s : string) : bool := String.prefix "/" s.
Definition posixJoin (a b : string) : string := a +:+ "/" +:+ b.

Definition exDoc : ClientDocument :=
  {| cd_uri := {| scheme := "file"; fsPath := "/w/pkg/src/a.js"; uriString := "file:///w/pkg/src/a.js" |};
     languageId := "javascript" |}.

Definition exFolder : HostFolder :=
  {| hf_name := "w"; hf_uri := {| scheme := "file"; fsPath := "/w"; uriString := "file:///w" |} |}.

Definition exEntries : list WDEntry :=
  [WDString "pkg"; WDItem "/w/pkg/src" (Some true); WDString "/w/pkg/srcx"; WDItem "/w/pkg/sr" None; WDOther].

Lemma selectWorkingDirectory_longest_witness :
  selectWorkingDirectory posixIsAbsolute posixJoin (Some exFolder) exDoc exEntries =
    Some {| directory := "/w/pkg/src"; changeProcessCWD := true |} /\
  match selectWorkingDirectory posixIsAbsolute posixJoin (Some exFolder) exDoc exEntries with
  | None => True
  | Some wd => String.prefix (directory wd) (fsPath (cd_uri exDoc)) = true
  end.
Proof.
  split; [reflexivity|].
  pose proof (selectWorkingDirectory_longest posixIsAbsolute posixJoin (Some exFolder) exDoc exEntries) as H.
  simpl in H. revert H. vm_compute. tauto.
Defined.

Definition exConfig : StandardConfig :=
  {| cfg_enable := Some false; cfg_enabled := None; cfg_validate := None;
     cfg_autoFixOnSave := Some true; cfg_engine := Some "semistandard"; cfg_usePackageJson := None;
     cfg_options := None; cfg_run := None; cfg_nodePath := None;
     cfg_workingDirectories := Some exEntries |}.

Lemma configurationItem_autoFixOnSave_witness :
  validate (configurationItem posixIsAbsolute posixJoin exConfig (Some exDoc) (Some exFolder)) = true /\
  autoFix (configurationItem posixIsAbsolute posixJoin exConfig (Some exDoc) (Some exFolder)) = true.
Proof. apply configurationItem_autoFixOnSave. reflexivity. Defined.

Lemma configurationItem_reads_enabled_witness :
  shouldBeValidated exConfig exDoc = false /\
  validate (configurationItem posixIsAbsolute posixJoin exConfig (Some exDoc) (Some exFolder)) = true.
Proof. apply (configurationItem_reads_enabled _ _ exConfig exDoc (Some exFolder) true); reflexivity. Defined.

Lemma provideCodeActions_engine_filtered_witness :
  provideCodeActionsFilter true
    (map (fun p => makeDiagnostic p "semistandard")
       [{| pb_line := 1; pb_column := 5; pb_endLine := None; pb_endColumn := None; pb_severity := 2;
           pb_ruleId := Some "semi"; pb_message := "Missing semicolon.";
           pb_fix := Some (mkEdit 4 4 (Some ";")) |}]) = None.
Proof. apply provideCodeActions_engine_filtered. discriminate. Defined.

End ClientConfig.
