(* ===== verification/ClientSync.v ===== *)
(** * The client's document synchronisation (client/out/extension.js 229-316)

    The language client forwards the host's document events to the server
    through the [middleware] of [clientOptions]: a document is opened on
    the server when it is a [package.json] or [shouldBeValidated] holds of
    it, and is then recorded in [syncedDocuments]; change, will-save, save
    and close events are forwarded only for recorded documents, and a close
    removes the record.  A configuration change closes the recorded
    documents that are no longer validated and opens the host's documents
    that now are (lines 230-243).

    The language client calls the middleware only for documents its
    [documentSelector] matches ([file] and [untitled] schemes); the
    configuration-change handler sends its notifications itself, for every
    document of [workspace.textDocuments].

    [Client] holds the configuration, the host's open documents, the
    [syncedDocuments] map (an insertion-ordered association list, as a
    JavaScript [Map]) and the notifications sent so far; [cstep] is the
    host's event relation.  [replay] is the server's view: the set of open
    URIs a sequence of notifications leaves, or [None] at the first
    notification the protocol forbids (a second open, or an event for a
    document that is not open). *)

From stdpp Require Import base list strings relations.
From S2P Require Import Prelude ClientConfig.
Import ClientConfig.

Module ClientSync.

(** ** Data *)

(** [document.uri.toString()] *)
Definition docUri (d : ClientDocument) : string := uriString (cd_uri d).

(** The notifications the client sends for a document. *)
Inductive Notification :=
| DidOpen (d : ClientDocument)
| DidChange (u : string)
| WillSave (u : string)
| WillSaveWaitUntil (u : string)
| DidSave (u : string)
| DidClose (u : string).

Record Client := mkClient {
  config : StandardConfig;
  textDocuments : list ClientDocument;
  syncedDocuments : list (string * ClientDocument);
  sent : list Notification
}.

Definition send (n : Notification) (c : Client) : Client :=
  mkClient (config c) (textDocuments c) (syncedDocuments c) (sent c ++ [n]).
Definition setSynced (m : list (string * ClientDocument)) (c : Client) : Client :=
  mkClient (config c) (textDocuments c) m (sent c).
Definition setTextDocuments (l : list ClientDocument) (c : Client) : Client :=
  mkClient (config c) l (syncedDocuments c) (sent c).
Definition setConfig (cfg : StandardConfig) (c : Client) : Client :=
  mkClient cfg (textDocuments c) (syncedDocuments c) (sent c).

(** ** The middleware *)

Definition endsWith (suffix s : string) : bool :=
  let n := String.length s in
  let m := String.length suffix in
  Nat.leb m n && bool_decide (String.substring (n - m) m s = suffix).

(** [languages.match(packageJsonFilter, document)] with [packageJsonFilter
    = { scheme: 'file', pattern: '**/package.json' }] (line 228). *)
Definition isPackageJson (d : ClientDocument) : bool :=
  bool_decide (scheme (cd_uri d) = "file") && endsWith "/package.json" (fsPath (cd_uri d)).

(** [next(document); syncedDocuments.set(uri, document)] *)
Definition openOnServer (d : ClientDocument) (c : Client) : Client :=
  let c1 := send (DidOpen d) c in
  setSynced (JSMap.set (docUri d) d (syncedDocuments c1)) c1.

(** [middleware.didOpen] (lines 281-287). *)
Definition didOpen (d : ClientDocument) (c : Client) : Client :=
  if isPackageJson d || shouldBeValidated (config c) d then openOnServer d c else c.

(** [middleware.didChange], [willSave], [willSaveWaitUntil] and [didSave]
    (lines 288-310): forwarded for a recorded document only; an unrecorded
    [willSaveWaitUntil] resolves to no edits without a request. *)
Definition forwardIfSynced (n : string -> Notification) (d : ClientDocument) (c : Client) : Client :=
  if JSMap.has (docUri d) (syncedDocuments c) then send (n (docUri d)) c else c.

(** [syncedDocuments.delete(uri); next(document)] *)
Definition closeOnServer (u : string) (c : Client) : Client :=
  send (DidClose u) (setSynced (JSMap.delete u (syncedDocuments c)) c).

(** [middleware.didClose] (lines 311-317). *)
Definition didClose (d : ClientDocument) (c : Client) : Client :=
  if JSMap.has (docUri d) (syncedDocuments c) then closeOnServer (docUri d) c else c.

(** The first loop of the configuration-change handler (lines 231-236). *)
Definition closeUnvalidated (c : Client) (d : ClientDocument) : Client :=
  if negb (shouldBeValidated (config c) d) then closeOnServer (docUri d) c else c.

(** The second loop (lines 237-242). *)
Definition openValidated (c : Client) (d : ClientDocument) : Client :=
  if negb (JSMap.has (docUri d) (syncedDocuments c)) && shouldBeValidated (config c) d
  then openOnServer d c else c.

(** [workspace.onDidChangeConfiguration] handler (lines 230-243); the map
    entries deleted during the first loop are the ones it visits, so it
    runs over the values present when it starts. *)
Definition onDidChangeConfiguration (c : Client) : Client :=
  let c1 := fold_left closeUnvalidated (JSMap.values (syncedDocuments c)) c in
  fold_left openValidated (textDocuments c1) c1.

(** ** The host *)

(** [documentSelector: [{ scheme: 'file' }, { scheme: 'untitled' }]]
    (line 245): the language client runs the middleware only for these.
    The scheme of a URI is the part of its string before the colon. *)
Definition inSelectorUri (u : string) : bool :=
  String.prefix "file:" u || String.prefix "untitled:" u.
Definition inSelector (d : ClientDocument) : bool := inSelectorUri (docUri d).

Definition hostOpen (d : ClientDocument) (c : Client) : Client :=
  let c1 := setTextDocuments (textDocuments c ++ [d]) c in
  if inSelector d then didOpen d c1 else c1.

Definition hostForward (n : string -> Notification) (d : ClientDocument) (c : Client) : Client :=
  if inSelector d then forwardIfSynced n d c else c.

Definition hostClose (d : ClientDocument) (c : Client) : Client :=
  let c1 := setTextDocuments (List.filter (fun d' => bool_decide (docUri d' <> docUri d)) (textDocuments c)) c in
  if inSelector d then didClose d c1 else c1.

Definition hostConfig (cfg : StandardConfig) (c : Client) : Client :=
  onDidChangeConfiguration (setConfig cfg c).

Definition isOpenInHost (u : string) (c : Client) : bool :=
  existsb (fun d => bool_decide (docUri d = u)) (textDocuments c).

(** The host's events: a document opens (one not open yet), an open
    document changes, is about to be saved, is saved or closes, or the
    configuration changes. *)
Inductive cstep : Client -> Client -> Prop :=
| COpen d c : isOpenInHost (docUri d) c = false -> cstep c (hostOpen d c)
| CChange d c : d ∈ textDocuments c -> cstep c (hostForward DidChange d c)
| CWillSave d c : d ∈ textDocuments c -> cstep c (hostForward WillSave d c)
| CWillSaveWaitUntil d c : d ∈ textDocuments c -> cstep c (hostForward WillSaveWaitUntil d c)
| CSave d c : d ∈ textDocuments c -> cstep c (hostForward DidSave d c)
| CClose d c : d ∈ textDocuments c -> cstep c (hostClose d c)
| CConfig cfg c : cstep c (hostConfig cfg c).

Definition init (cfg : StandardConfig) : Client := mkClient cfg [] [] [].

(** ** The server's view *)

Definition replayOne (open : option (list string)) (n : Notification) : option (list string) :=
  match open with
  | None => None
  | Some o =>
      match n with
      | DidOpen d => if bool_decide (docUri d ∈ o) then None else Some (o ++ [docUri d])
      | DidClose u => if bool_decide (u ∈ o) then Some (List.filter (fun u' => bool_decide (u' <> u)) o) else None
      | DidChange u | WillSave u | WillSaveWaitUntil u | DidSave u =>
          if bool_decide (u ∈ o) then Some o else None
      end
  end.

Definition replay (ns : list Notification) : option (list string) :=
  fold_left replayOne ns (Some []).

(** The invariant: [syncedDocuments] holds each URI once, under the URI
    of its document; a recorded document the selector matches is open in
    the host; and the notifications sent so far leave the server with
    exactly the recorded URIs open, in the same order. *)
Definition inv (c : Client) : Prop :=
  JSMap.wf (syncedDocuments c) /\
  Forall (fun kv => kv.1 = docUri kv.2) (syncedDocuments c) /\
  Forall (fun kv => inSelectorUri kv.1 = true -> isOpenInHost kv.1 c = true) (syncedDocuments c) /\
  replay (sent c) = Some (JSMap.keys (syncedDocuments c)).

(** ** The invariant *)

Ltac client_simpl :=
  unfold inv, openOnServer, closeOnServer, setSynced, send, setTextDocuments, setConfig in *;
  cbn [sent syncedDocuments textDocuments config] in *.

Lemma replay_snoc ns n : replay (ns ++ [n]) = replayOne (replay ns) n.
Proof. unfold replay. by rewrite fold_left_app. Qed.

Lemma isOpenInHost_elem d c : d ∈ textDocuments c -> isOpenInHost (docUri d) c = true.
Proof.
  intros Hd. apply existsb_exists. exists d. split; [by apply list_elem_of_In|].
  by apply bool_decide_eq_true.
Qed.

Lemma openOnServer_inv d c :
  inv c -> JSMap.has (docUri d) (syncedDocuments c) = false -> isOpenInHost (docUri d) c = true ->
  inv (openOnServer d c).
Proof.
  intros (Hwf & Hk & Hh & Hr) Hn Ho. rewrite JSMap.has_keys in Hn.
  apply bool_decide_eq_false in Hn. client_simpl.
  split_and!; [by apply JSMap.set_wf|by apply JSMap.set_Forall_kv|by apply JSMap.set_Forall_kv|].
  rewrite replay_snoc, Hr. cbn [replayOne]. rewrite bool_decide_false by done.
  by rewrite JSMap.keys_set_fresh.
Qed.

Lemma closeOnServer_inv u c : inv c -> u ∈ JSMap.keys (syncedDocuments c) -> inv (closeOnServer u c).
Proof.
  intros (Hwf & Hk & Hh & Hr) Hu. client_simpl.
  split_and!; [by apply JSMap.delete_wf|by apply JSMap.delete_Forall|by apply JSMap.delete_Forall|].
  rewrite replay_snoc, Hr. cbn [replayOne]. rewrite bool_decide_true by done. by rewrite JSMap.keys_delete.
Qed.

Lemma forwardIfSynced_inv (n : string -> Notification) d c :
  (forall u o, replayOne (Some o) (n u) = if bool_decide (u ∈ o) then Some o else None) ->
  inv c -> inv (forwardIfSynced n d c).
Proof.
  intros Hn (Hwf & Hk & Hh & Hr). unfold forwardIfSynced. rewrite JSMap.has_keys.
  case_bool_decide as Hu; [|done]. client_simpl. split_and!; [done..|].
  by rewrite replay_snoc, Hr, Hn, bool_decide_true.
Qed.

Lemma keys_elem_of (m : list (string * ClientDocument)) k :
  k ∈ JSMap.keys m <-> exists v, (k, v) ∈ m.
Proof.
  unfold JSMap.keys. rewrite list_elem_of_fmap. split.
  - intros [[k' v] [-> Hin]]. by exists v.
  - intros [v Hin]. by exists (k, v).
Qed.

(** A recorded URI the selector matches is open in the host. *)
Lemma inv_synced_open c k :
  inv c -> k ∈ JSMap.keys (syncedDocuments c) -> inSelectorUri k = true -> isOpenInHost k c = true.
Proof.
  intros (_ & _ & Hh & _) Hk Hs. apply keys_elem_of in Hk as [v Hin].
  rewrite Forall_forall in Hh. by apply (Hh (k, v)).
Qed.

Lemma isOpenInHost_app k l c :
  isOpenInHost k (setTextDocuments (textDocuments c ++ l) c) =
  isOpenInHost k c || existsb (fun d => bool_decide (docUri d = k)) l.
Proof. unfold isOpenInHost. simpl. by rewrite existsb_app. Qed.

Lemma isOpenInHost_filter k u c :
  isOpenInHost k (setTextDocuments (List.filter (fun d' => bool_decide (docUri d' <> u)) (textDocuments c)) c) =
  isOpenInHost k c && bool_decide (k <> u).
Proof.
  unfold isOpenInHost. simpl. induction (textDocuments c) as [|d l IH]; simpl; [done|].
  destruct (decide (docUri d = u)) as [Hdu|Hdu].
  - rewrite bool_decide_false by naive_solver. rewrite IH.
    destruct (decide (docUri d = k)) as [Hdk|Hdk].
    + rewrite (bool_decide_false (k <> u)) by naive_solver. by rewrite !andb_false_r.
    + by rewrite (bool_decide_false (docUri d = k)).
  - rewrite bool_decide_true by done. simpl. rewrite IH.
    destruct (decide (docUri d = k)) as [<-|Hdk].
    + by rewrite !bool_decide_true.
    + by rewrite bool_decide_false.
Qed.

Lemma setTextDocuments_app_inv d c : inv c -> inv (setTextDocuments (textDocuments c ++ [d]) c).
Proof.
  intros (Hwf & Hk & Hh & Hr). split_and!; [done|done| |done].
  eapply Forall_impl; [apply Hh|]. intros [k v] H Hs. simpl in *. rewrite isOpenInHost_app.
  by rewrite H.
Qed.

Lemma setTextDocuments_filter_inv u c :
  inv c -> (forall k, k ∈ JSMap.keys (syncedDocuments c) -> inSelectorUri k = true -> k <> u) ->
  inv (setTextDocuments (List.filter (fun d' => bool_decide (docUri d' <> u)) (textDocuments c)) c).
Proof.
  intros Hinv Hu. destruct Hinv as (Hwf & Hk & Hh & Hr). split_and!; [done|done| |done].
  rewrite Forall_forall. intros [k v] Hin Hs. simpl in *. rewrite isOpenInHost_filter.
  rewrite Forall_forall in Hh. specialize (Hh (k, v) Hin Hs). simpl in Hh. rewrite Hh. simpl.
  apply bool_decide_eq_true, Hu; [apply keys_elem_of; by exists v|done].
Qed.

Lemma keys_delete_elem k u (m : list (string * ClientDocument)) :
  k <> u -> k ∈ JSMap.keys m -> k ∈ JSMap.keys (JSMap.delete u m).
Proof.
  intros Hne Hk. rewrite JSMap.keys_delete, list_elem_of_In, filter_In, <- list_elem_of_In.
  split; [done|]. by apply bool_decide_eq_true.
Qed.

Lemma keys_delete_ne k u (m : list (string * ClientDocument)) :
  k ∈ JSMap.keys (JSMap.delete u m) -> k <> u.
Proof.
  rewrite JSMap.keys_delete, list_elem_of_In, filter_In. intros [_ H].
  by apply bool_decide_eq_true in H.
Qed.

Lemma keys_set_mono k k' v (m : list (string * ClientDocument)) :
  k ∈ JSMap.keys m -> k ∈ JSMap.keys (JSMap.set k' v m).
Proof.
  induction m as [|[k0 v0] m IH]; simpl; [by intros ?%elem_of_nil|].
  rewrite !elem_of_cons. case_decide; subst; simpl; rewrite ?elem_of_cons; naive_solver.
Qed.

Lemma hostOpen_sync_inv d c : inv c -> isOpenInHost (docUri d) c = false -> inv (hostOpen d c).
Proof.
  intros Hinv Ho. pose proof (setTextDocuments_app_inv d c Hinv) as Hc1.
  unfold hostOpen. destruct (inSelector d) eqn:Hs; [|done].
  unfold didOpen. case_match; [|done]. apply openOnServer_inv; [done| |].
  - rewrite JSMap.has_keys. apply bool_decide_eq_false. intros Hk.
    simpl in Hk. by rewrite (inv_synced_open c) in Ho.
  - rewrite isOpenInHost_app. simpl. rewrite bool_decide_true by done. by rewrite !orb_true_r.
Qed.

Lemma hostForward_inv n d c :
  (forall u o, replayOne (Some o) (n u) = if bool_decide (u ∈ o) then Some o else None) ->
  inv c -> inv (hostForward n d c).
Proof. intros Hn Hinv. unfold hostForward. case_match; [by apply forwardIfSynced_inv|done]. Qed.

Lemma didClose_inv d c :
  inv c -> inv (didClose d c) /\ docUri d ∉ JSMap.keys (syncedDocuments (didClose d c)).
Proof.
  intros Hinv. unfold didClose. rewrite JSMap.has_keys. case_bool_decide as Hk.
  - split; [by apply closeOnServer_inv|]. intros Hk'. by apply keys_delete_ne in Hk'.
  - by split.
Qed.

Lemma hostClose_sync_inv d c : inv c -> inv (hostClose d c).
Proof.
  intros Hinv. unfold hostClose. destruct (inSelector d) eqn:Hs.
  - destruct (didClose_inv d c Hinv) as [Hc Hn].
    assert (Heq : didClose d (setTextDocuments (List.filter (fun d' => bool_decide (docUri d' <> docUri d))
                                                 (textDocuments c)) c) =
                  setTextDocuments (List.filter (fun d' => bool_decide (docUri d' <> docUri d))
                                      (textDocuments (didClose d c))) (didClose d c)).
    { unfold didClose, setTextDocuments. simpl. by destruct (JSMap.has _ _). }
    rewrite Heq. apply setTextDocuments_filter_inv; [done|]. intros k Hk _ ->. done.
  - apply setTextDocuments_filter_inv; [done|]. intros k Hk Hsk ->. unfold inSelector in Hs. congruence.
Qed.

Lemma closeUnvalidated_frame c d :
  textDocuments (closeUnvalidated c d) = textDocuments c /\ config (closeUnvalidated c d) = config c.
Proof. unfold closeUnvalidated. by case_match. Qed.

Lemma openValidated_frame c d :
  textDocuments (openValidated c d) = textDocuments c /\ config (openValidated c d) = config c.
Proof. unfold openValidated. by case_match. Qed.

Lemma fold_close_inv l c :
  inv c -> NoDup (map docUri l) -> Forall (fun d => docUri d ∈ JSMap.keys (syncedDocuments c)) l ->
  inv (fold_left closeUnvalidated l c) /\ textDocuments (fold_left closeUnvalidated l c) = textDocuments c.
Proof.
  revert c. induction l as [|d l IH]; intros c Hinv Hnd Hl; simpl; [done|].
  apply NoDup_cons in Hnd as [Hnin Hnd]. apply Forall_cons in Hl as [Hd Hl].
  destruct (closeUnvalidated_frame c d) as [Ht _].
  assert (Hc : inv (closeUnvalidated c d)).
  { unfold closeUnvalidated. case_match; [by apply closeOnServer_inv|done]. }
  destruct (IH (closeUnvalidated c d)) as [? Ht']; [done|done| |by rewrite Ht', Ht].
  eapply Forall_impl; [apply Forall_and; split; [apply Hl|apply Forall_forall; intros d' Hd'; exact Hd']|].
  intros d' [Hk Hin]. unfold closeUnvalidated. case_match; [|done]. simpl.
  apply keys_delete_elem; [|done]. intros Heq. apply Hnin. rewrite <- Heq.
  apply list_elem_of_fmap. by exists d'.
Qed.

Lemma openValidated_inv c d : inv c -> d ∈ textDocuments c -> inv (openValidated c d).
Proof.
  intros Hinv Hd. unfold openValidated. case_match; [|done].
  apply andb_prop in H as [Hn _]. apply negb_true_iff in Hn.
  apply openOnServer_inv; [done|done|by apply isOpenInHost_elem].
Qed.

Lemma fold_open_inv l c :
  inv c -> Forall (fun d => d ∈ textDocuments c) l -> inv (fold_left openValidated l c).
Proof.
  revert c. induction l as [|d l IH]; intros c Hinv Hl; simpl; [done|].
  apply Forall_cons in Hl as [Hd Hl]. destruct (openValidated_frame c d) as [Ht _].
  apply IH; [by apply openValidated_inv|by rewrite Ht].
Qed.

Lemma map_docUri_values (m : list (string * ClientDocument)) :
  Forall (fun kv => kv.1 = docUri kv.2) m -> map docUri (JSMap.values m) = JSMap.keys m.
Proof. induction 1 as [|[k v] m Hk Hm IH]; simpl in *; [done|]. by rewrite IH, Hk. Qed.

Lemma hostConfig_inv cfg c : inv c -> inv (hostConfig cfg c).
Proof.
  intros Hinv. assert (Hc : inv (setConfig cfg c)) by done.
  destruct Hinv as (Hwf & Hk & Hh & Hr).
  unfold hostConfig, onDidChangeConfiguration.
  destruct (fold_close_inv (JSMap.values (syncedDocuments (setConfig cfg c))) (setConfig cfg c))
    as [Hc1 Ht1]; [done| | |].
  - simpl. rewrite map_docUri_values; done.
  - simpl. rewrite Forall_forall. intros d Hd. rewrite <- (map_docUri_values _ Hk).
    by apply list_elem_of_fmap_2.
  - apply fold_open_inv; [done|]. by apply Forall_forall.
Qed.

Lemma cstep_inv c c' : cstep c c' -> inv c -> inv c'.
Proof.
  destruct 1; intros Hinv;
    first [by apply hostOpen_sync_inv | by apply hostForward_inv | by apply hostClose_sync_inv
          | by apply hostConfig_inv].
Qed.

Lemma rtc_cstep_inv c c' : rtc cstep c c' -> inv c -> inv c'.
Proof. induction 1; eauto using cstep_inv. Qed.

Lemma init_sync_inv cfg : inv (init cfg).
Proof. split_and!; [apply NoDup_nil_2|constructor|constructor|done]. Qed.

Lemma keys_set_in k v (m : list (string * ClientDocument)) : k ∈ JSMap.keys (JSMap.set k v m).
Proof.
  induction m as [|[k0 v0] m IH]; simpl; [by left|].
  case_decide; simpl; rewrite elem_of_cons; [by left|by right].
Qed.

Lemma fold_close_frame l c :
  textDocuments (fold_left closeUnvalidated l c) = textDocuments c /\
  config (fold_left closeUnvalidated l c) = config c.
Proof.
  revert c. induction l as [|d l IH]; intros c; simpl; [done|].
  destruct (IH (closeUnvalidated c d)) as [-> ->]. apply closeUnvalidated_frame.
Qed.

Lemma fold_open_frame l c :
  textDocuments (fold_left openValidated l c) = textDocuments c /\
  config (fold_left openValidated l c) = config c.
Proof.
  revert c. induction l as [|d l IH]; intros c; simpl; [done|].
  destruct (IH (openValidated c d)) as [-> ->]. apply openValidated_frame.
Qed.

Lemma fold_open_mono k l c :
  k ∈ JSMap.keys (syncedDocuments c) -> k ∈ JSMap.keys (syncedDocuments (fold_left openValidated l c)).
Proof.
  revert c. induction l as [|d l IH]; intros c Hk; simpl; [done|]. apply IH.
  unfold openValidated. case_match; [|done]. by apply keys_set_mono.
Qed.

Lemma fold_open_member d l c :
  d ∈ l -> shouldBeValidated (config c) d = true ->
  docUri d ∈ JSMap.keys (syncedDocuments (fold_left openValidated l c)).
Proof.
  revert c. induction l as [|d0 l IH]; intros c Hd Hv; [by apply elem_of_nil in Hd|]. simpl.
  apply elem_of_cons in Hd as [->|Hd].
  - apply fold_open_mono. unfold openValidated. rewrite Hv, andb_true_r.
    rewrite JSMap.has_keys. case_bool_decide as Hk; [done|]. apply keys_set_in.
  - apply IH; [done|]. by rewrite (proj2 (openValidated_frame c d0)).
Qed.


(** ** Properties *)

(** C36: In every state the host's events lead the client to, the
    notifications it has sent are accepted by the server's document
    manager (no second open, no event for a closed document) and leave
    exactly the URIs of [syncedDocuments] open on the server, in the same
    order, each once. *)
Theorem reachable_sync_consistent cfg c :
  rtc cstep (init cfg) c ->
  replay (sent c) = Some (JSMap.keys (syncedDocuments c)) /\ JSMap.wf (syncedDocuments c).
Proof.
  intros Hr. destruct (rtc_cstep_inv _ _ Hr (init_sync_inv cfg)) as (Hwf & _ & _ & Hrp). done.
Qed.

(** C35: A document outside the client's [documentSelector] (a [git:]
    diff view, say) that [shouldBeValidated] is opened on the server by
    the next configuration change, but the language client never runs the
    [didClose] middleware for it: once the host closes it, the server
    still has it open and [syncedDocuments] still records it. *)
Theorem nonselector_document_stays_open cfg0 c d cfg :
  rtc cstep (init cfg0) c -> isOpenInHost (docUri d) c = false ->
  inSelector d = false -> shouldBeValidated cfg d = true ->
  let c' := hostClose d (hostConfig cfg (hostOpen d c)) in
  rtc cstep c c' /\ isOpenInHost (docUri d) c' = false /\
  docUri d ∈ JSMap.keys (syncedDocuments c') /\ replay (sent c') = Some (JSMap.keys (syncedDocuments c')).
Proof.
  intros Hr Ho Hs Hv c'.
  assert (Hd : d ∈ textDocuments (hostConfig cfg (hostOpen d c))).
  { unfold hostConfig, onDidChangeConfiguration. rewrite (proj1 (fold_open_frame _ _)).
    rewrite (proj1 (fold_close_frame _ _)). unfold hostOpen. rewrite Hs. simpl.
    apply elem_of_app. right. by left. }
  assert (Hsteps : rtc cstep c c').
  { eapply rtc_l; [by apply COpen|]. eapply rtc_l; [apply CConfig|].
    eapply rtc_l; [by apply CClose|]. apply rtc_refl. }
  split_and!; [done| | |].
  - unfold c', hostClose. rewrite Hs. rewrite isOpenInHost_filter.
    case_bool_decide; [congruence|apply andb_false_r].
  - unfold c', hostClose. rewrite Hs. simpl. unfold hostConfig, onDidChangeConfiguration.
    apply fold_open_member; [|by rewrite (proj2 (fold_close_frame _ _))].
    rewrite (proj1 (fold_close_frame _ _)). unfold hostOpen. rewrite Hs. simpl.
    apply elem_of_app. right. by left.
  - destruct (rtc_cstep_inv _ _ (rtc_trans _ _ _ Hr Hsteps) (init_sync_inv cfg0)) as (_ & _ & _ & Hrp).
    done.
Qed.

(** ** Witnesses

    The default configuration validates JavaScript.  [exPkg] is opened on
    the server by [middleware.didOpen] (a [package.json]), and the next
    configuration change closes it there while it stays open in the host:
    the two tests of lines 282 and 232 disagree on it.  [exGit] is a
    [git:] view of a JavaScript file. *)

Definition exCfg : StandardConfig := mkStandardConfig None None None None None None None None None None.
Definition exJs : ClientDocument := mkClientDocument (mkUri "file" "/w/a.js" "file:///w/a.js") "javascript".
Definition exPkg : ClientDocument :=
  mkClientDocument (mkUri "file" "/w/package.json" "file:///w/package.json") "json".
Definition exGit : ClientDocument :=
  mkClientDocument (mkUri "git" "/w/a.js" "git:/w/a.js?ref=HEAD") "javascript".

Definition exTrace : Client :=
  hostClose exJs (hostForward DidChange exJs
    (hostConfig exCfg (hostOpen exPkg (hostOpen exJs (init exCfg))))).

Lemma exTrace_reachable : rtc cstep (init exCfg) exTrace.
Proof.
  apply (rtc_l _ _ (hostOpen exJs (init exCfg))); [by apply COpen|].
  apply (rtc_l _ _ (hostOpen exPkg (hostOpen exJs (init exCfg)))); [by apply COpen|].
  apply (rtc_l _ _ (hostConfig exCfg (hostOpen exPkg (hostOpen exJs (init exCfg))))); [apply CConfig|].
  apply (rtc_l _ _ (hostForward DidChange exJs
                      (hostConfig exCfg (hostOpen exPkg (hostOpen exJs (init exCfg))))));
    [apply CChange; apply list_elem_of_In; simpl; auto|].
  apply (rtc_l _ _ exTrace); [apply CClose; apply list_elem_of_In; simpl; auto|].
  apply rtc_refl.
Qed.

Lemma reachable_sync_consistent_witness :
  rtc cstep (init exCfg) exTrace /\
  (replay (sent exTrace) = Some (JSMap.keys (syncedDocuments exTrace)) /\ JSMap.wf (syncedDocuments exTrace)) /\
  sent exTrace = [DidOpen exJs; DidOpen exPkg; DidClose "file:///w/package.json";
                  DidChange "file:///w/a.js"; DidClose "file:///w/a.js"] /\
  isOpenInHost "file:///w/package.json" exTrace = true.
Proof.
  split; [apply exTrace_reachable|]. split; [|split; reflexivity].
  apply (reachable_sync_consistent exCfg). apply exTrace_reachable.
Defined.

Lemma nonselector_document_stays_open_witness :
  rtc cstep (init exCfg) (init exCfg) /\ isOpenInHost (docUri exGit) (init exCfg) = false /\
  inSelector exGit = false /\ shouldBeValidated exCfg exGit = true /\
  let c' := hostClose exGit (hostConfig exCfg (hostOpen exGit (init exCfg))) in
  rtc cstep (init exCfg) c' /\ isOpenInHost (docUri exGit) c' = false /\
  docUri exGit ∈ JSMap.keys (syncedDocuments c') /\
  replay (sent c') = Some (JSMap.keys (syncedDocuments c')).
Proof.
  split; [apply rtc_refl|]. split; [reflexivity|]. split; [reflexivity|]. split; [reflexivity|].
  apply (nonselector_document_stays_open exCfg); [apply rtc_refl|reflexivity|reflexivity|reflexivity].
Defined.

End ClientSync.
