(* ===== verification/Settings.v ===== *)
(** * The settings resolver: [resolveSettings] of server.js (lines 167-277)

    [resolveSettings(document)] returns the promise cached for the
    document's URI in [document2Settings], or creates one: it asks the
    client for the document's configuration, applies the project's
    [package.json] (engine override, option overlay, or validation off),
    resolves the linter module and loads it once per resolved path
    ([path2Library]).  The promise is modelled by an identifier allocated
    at creation and its eventual value; the asynchronous steps are the
    function [settle], applied when the client's answer, the file read and
    the module resolution are known.

    Module resolution ([Files.resolve]) and [require] are Node's and the
    vscode-languageserver library's: the resolver is stated in a Section
    over them. *)

From Stdlib Require Import ZArith Lia.
From stdpp Require Import base list sets strings pretty.
From S2P Require Import Prelude ClientConfig.
Import ClientConfig.

Module Settings.

(** ** Data *)

(** The project manifest as read from the workspace folder: absent, not
    valid JSON ([JSON.parse] throws), or a JSON value. *)
Inductive PackageRead := NoPackage | MalformedPackage | Package (pkg : JValue).

(** A settings promise: pending, resolved, or rejected by an exception
    thrown in its [then] callback. *)
Inductive PromiseState := Pending | Resolved (s : Settings) | Rejected.

(** What the resolver sends out: console lines and the
    [standard/noLibrary] request. *)
Inductive Outbound :=
| ConsoleInfo (msg : string)
| ConsoleError (msg : string)
| NoStandardLibraryRequest (uri : string).

Record ResolverState := mkResolverState {
  document2Settings : list (string * nat);
  promises : list (nat * PromiseState);
  path2Library : list (string * Library);
  globalNodePath : option string;
  nextPromise : nat;
  outbound : list Outbound
}.

(** ** Operations *)

(** JavaScript property access [v[k]] on a JSON value. *)
Definition getField (v : JValue) (k : string) : option JValue :=
  match v with
  | JObj fs => JSMap.get k fs
  | _ => None
  end.

(** JavaScript truthiness of a possibly absent JSON value. *)
Definition truthyJ (v : option JValue) : bool :=
  match v with
  | None | Some JNull => false
  | Some (JBool b) => b
  | Some (JNum n) => negb (n =? 0)
  | Some (JStr s) => truthy s
  | Some (JArr _) | Some (JObj _) => true
  end.

(** [pkg.devDependencies[name]] guarded as in [pkg && pkg.devDependencies
    && pkg.devDependencies[name]]. *)
Definition hasDevDependency (pkg : JValue) (name : string) : bool :=
  truthyJ (Some pkg) && truthyJ (getField pkg "devDependencies") &&
  truthyJ (getField pkg "devDependencies" ≫= fun d => getField d name).

(** [Object.assign({}, target, source)] on JSON objects: the source's own
    enumerable properties overwrite the target's, in order. *)
Fixpoint indexed (n : nat) (l : list JValue) : list (string * JValue) :=
  match l with
  | [] => []
  | v :: rest => (pretty (Z.of_nat n), v) :: indexed (S n) rest
  end.

Definition ownProperties (v : JValue) : list (string * JValue) :=
  match v with
  | JObj fs => fs
  | JArr l => indexed 0 l
  | JStr s => indexed 0 (map (fun c => JStr (String.String c String.EmptyString)) (String.list_ascii_of_string s))
  | _ => []
  end.

Definition objectAssign (target : list (string * JValue)) (source : JValue) : list (string * JValue) :=
  fold_left (fun acc kv => JSMap.set kv.1 kv.2 acc) (ownProperties source) target.

(** [linterNames[engine]]; [`${undefined}`] for an unknown engine. *)
Definition linterNames (e : string) : string :=
  if bool_decide (e = "standard") then "JavaScript Standard Style"
  else if bool_decide (e = "semistandard") then "JavaScript Semi-Standard Style"
  else if bool_decide (e = "standardx") then "JavaScript Standard Style with custom tweaks"
  else if bool_decide (e = "ts-standard") then "TypeScript Standard Style"
  else "undefined".

(** The [package.json] step of the [then] callback (lines 184-234): the
    settings after it and the module name [linter] to resolve (the
    [linterName] follows it); [None] when [JSON.parse] throws. *)
Definition applyPackageJson (settings : Settings) (read : PackageRead)
    : option (Settings * string * list Outbound) :=
  let linter0 := engine settings in
  match read with
  | NoPackage => Some (settings, linter0, [])
  | MalformedPackage => None
  | Package pkg =>
      let linter :=
        if hasDevDependency pkg "standard" then "standard"
        else if hasDevDependency pkg "semistandard" then "semistandard"
        else if hasDevDependency pkg "standardx" then "standardx"
        else if hasDevDependency pkg "ts-standard" then "ts-standard"
        else linter0 in
      if hasDevDependency pkg "standard" || hasDevDependency pkg "semistandard"
         || hasDevDependency pkg "standardx" || hasDevDependency pkg "ts-standard" then
        match getField pkg linter with
        | Some block =>
            if truthyJ (Some block) then
              Some (mkSettings (validate settings) (autoFix settings) (autoFixOnSave settings) linter
                      (usePackageJson settings) (objectAssign (options settings) block)
                      (run settings) (nodePath settings) (workingDirectory settings)
                      (workspaceFolder settings) (library settings), linter, [])
            else Some (settings, linter, [])
        | None => Some (settings, linter, [])
        end
      else Some (mkSettings false (autoFix settings) (autoFixOnSave settings) (engine settings)
                   (usePackageJson settings) (options settings) (run settings) (nodePath settings)
                   (workingDirectory settings) (workspaceFolder settings) (library settings),
                 linter, [ConsoleInfo ("no " +:+ linter +:+ " in package.json")])
  end.

Definition setLibrary (settings : Settings) (validate0 : bool) (lib : option Library) : Settings :=
  mkSettings validate0 (autoFix settings) (autoFixOnSave settings) (engine settings)
    (usePackageJson settings) (options settings) (run settings) (nodePath settings)
    (workingDirectory settings) (workspaceFolder settings) lib.

Section Resolve.
(** [Files.resolve(moduleName, nodePath, cwd, trace)]: the resolved path
    of the module, or [None] when the promise rejects; and [require]. *)
Context (filesResolve : string -> option string -> option string -> option string).
Context (requireLibrary : string -> Library).

(** The module resolution of lines 235-250: by [settings.nodePath] first
    (falling back to the global path from the document's directory) for
    [file] documents, from the workspace folder otherwise. *)
Definition resolveLibraryPath (settings : Settings) (linter : string) (docUri : Uri)
    (dirname : string -> string) (globalPath : option string) : option string :=
  if bool_decide (scheme docUri = "file") then
    let directory := dirname (fsPath docUri) in
    match nodePath settings with
    | Some np =>
        if truthy np then
          match filesResolve linter (Some np) (Some np) with
          | Some p => Some p
          | None => filesResolve linter globalPath (Some directory)
          end
        else filesResolve linter globalPath (Some directory)
    | None => filesResolve linter globalPath (Some directory)
    end
  else filesResolve linter globalPath (wf_uri <$> workspaceFolder settings).

(** The library step (lines 251-273): the settings the promise resolves
    to, the updated [path2Library] and what is sent out. *)
Definition loadLibrary (settings : Settings) (linterName : string) (docUriString : string)
    (resolved : option string)
    (p2l : list (string * Library)) : Settings * list (string * Library) * list Outbound :=
  match resolved with
  | Some path =>
      match JSMap.get path p2l with
      | None =>
          let lib := requireLibrary path in
          if negb (hasLintText lib) then
            (setLibrary settings false (library settings), JSMap.set path lib p2l,
             [ConsoleError ("The " +:+ linterName +:+ " library loaded from " +:+ path
                            +:+ " doesn't export a lintText.")])
          else
            (setLibrary settings (validate settings) (Some lib), JSMap.set path lib p2l,
             [ConsoleInfo (linterName +:+ " library loaded from: " +:+ path)])
      | Some lib => (setLibrary settings (validate settings) (Some lib), p2l, [])
      end
  | None => (setLibrary settings false (library settings), p2l, [NoStandardLibraryRequest docUriString])
  end.

(** The synchronous part of [resolveSettings]: the cached promise, or a
    fresh pending one recorded in the cache. *)
Definition resolveSettings (docUri : string) (st : ResolverState) : nat * ResolverState :=
  match JSMap.get docUri (document2Settings st) with
  | Some p => (p, st)
  | None =>
      let p := nextPromise st in
      (p, mkResolverState (JSMap.set docUri p (document2Settings st))
            (JSMap.set p Pending (promises st)) (path2Library st) (globalNodePath st)
            (S p) (outbound st))
  end.

(** The asynchronous continuation of promise [p]: the client's answer, the
    [package.json] read (when [usePackageJson] and a workspace folder
    apply), and the module resolution. *)
Definition settle (p : nat) (clientSettings : Settings) (read : PackageRead) (docUri : Uri)
    (dirname : string -> string) (st : ResolverState) : ResolverState :=
  let read := if usePackageJson clientSettings && bool_decide (is_Some (workspaceFolder clientSettings))
              then read else NoPackage in
  match applyPackageJson clientSettings read with
  | None =>
      mkResolverState (document2Settings st) (JSMap.set p Rejected (promises st)) (path2Library st)
        (globalNodePath st) (nextPromise st) (outbound st)
  | Some (settings, linter, out1) =>
      let resolved := resolveLibraryPath settings linter docUri dirname (globalNodePath st) in
      let '(settings', p2l, out2) :=
        loadLibrary settings (linterNames linter) (uriString docUri) resolved (path2Library st) in
      mkResolverState (document2Settings st) (JSMap.set p (Resolved settings') (promises st)) p2l
        (globalNodePath st) (nextPromise st) (outbound st ++ out1 ++ out2)
  end.
End Resolve.

(** [document2Settings.clear()] of [environmentChanged] (line 474) and
    [document2Settings.delete(uri)] of the close handler (line 466). *)
Definition clearSettings (st : ResolverState) : ResolverState :=
  mkResolverState [] (promises st) (path2Library st) (globalNodePath st) (nextPromise st) (outbound st).

Definition deleteSettings (docUri : string) (st : ResolverState) : ResolverState :=
  mkResolverState (JSMap.delete docUri (document2Settings st)) (promises st) (path2Library st)
    (globalNodePath st) (nextPromise st) (outbound st).

(** ** Invariant *)

(** Every promise identifier in the cache and in the promise table was
    allocated: it is below [nextPromise]. *)
Definition allocated (st : ResolverState) : Prop :=
  Forall (fun kv => (kv.2 < nextPromise st)%nat) (document2Settings st) /\
  Forall (fun kv => (kv.1 < nextPromise st)%nat) (promises st).

(** ** Properties *)

(** C25: The settings cache: once [resolveSettings] has run for a URI, a
    second call for the same URI, with no invalidation in between, returns
    the same promise and changes nothing (no second resolution). *)
Theorem resolveSettings_cached u st p st1 :
  resolveSettings u st = (p, st1) -> resolveSettings u st1 = (p, st1).
Proof.
  unfold resolveSettings. destruct (JSMap.get u (document2Settings st)) as [q|] eqn:Hg.
  - intros [= <- <-]. by rewrite Hg.
  - intros [= <- <-]. simpl. by rewrite JSMap.get_set_eq.
Qed.

(** C26: After [environmentChanged] clears the cache, the next
    [resolveSettings] creates a new pending promise, distinct from every
    promise created before, and the allocation invariant is kept. *)
Theorem resolveSettings_fresh_after_clear u st :
  allocated st ->
  let '(p, st') := resolveSettings u (clearSettings st) in
  (forall q, q ∈ JSMap.keys (promises st) -> q <> p) /\
  JSMap.get p (promises st') = Some Pending /\ allocated st'.
Proof.
  intros [Hd Hp]. simpl. split_and!.
  - intros q Hq ->. unfold JSMap.keys in Hq.
    apply list_elem_of_In, in_map_iff in Hq as ([k v] & Hk & Hin).
    rewrite List.Forall_forall in Hp. specialize (Hp _ Hin). simpl in Hp, Hk. lia.
  - apply JSMap.get_set_eq.
  - split; simpl.
    + constructor; [simpl; lia|constructor].
    + apply (JSMap.set_Forall_key (fun k => (k < S (nextPromise st))%nat)); [|lia].
      eapply (Forall_lt_mono fst); [|exact Hp]. lia.
Qed.

(** C27: The unusable-library cache is asymmetric: the first document
    whose linter resolves to a library without [lintText] gets validation
    switched off, but [path2Library] keeps that library, and every later
    document resolving to the same path gets it with validation left on. *)
Theorem loadLibrary_cached_unusable requireLibrary settings name u path p2l :
  JSMap.get path p2l = None -> hasLintText (requireLibrary path) = false ->
  let '(s1, p2l1, _) := loadLibrary requireLibrary settings name u (Some path) p2l in
  validate s1 = false /\
  loadLibrary requireLibrary settings name u (Some path) p2l1 =
    (setLibrary settings (validate settings) (Some (requireLibrary path)), p2l1, []).
Proof.
  intros Hnone Hlt. unfold loadLibrary. rewrite Hnone, Hlt. simpl.
  split; [done|]. by rewrite JSMap.get_set_eq.
Qed.

(** C28: When [package.json] lists a recognised linter in its
    [devDependencies] but has no options block for it, the module
    resolved is that linter while [settings.engine], the diagnostics'
    source and the ignore-configuration key, stays the configured one. *)
Theorem applyPackageJson_engine_not_overridden settings pkg :
  hasDevDependency pkg "standard" = false -> hasDevDependency pkg "semistandard" = true ->
  getField pkg "semistandard" = None ->
  applyPackageJson settings (Package pkg) = Some (settings, "semistandard", []).
Proof. intros Hs Hss Hf. unfold applyPackageJson. rewrite Hs, Hss. simpl. by rewrite Hf. Qed.

(** C29: A [package.json] that is not valid JSON rejects the document's
    settings promise, and the cache keeps the rejected promise: later
    [resolveSettings] calls for the document return it until the cache is
    invalidated, so the document is not validated. *)
Theorem settle_malformed_sticks filesResolve requireLibrary p cs docUri dirname st u :
  usePackageJson cs = true -> is_Some (workspaceFolder cs) ->
  JSMap.get u (document2Settings st) = Some p ->
  let st' := settle filesResolve requireLibrary p cs MalformedPackage docUri dirname st in
  JSMap.get p (promises st') = Some Rejected /\ resolveSettings u st' = (p, st').
Proof.
  intros Hu Hw Hg. unfold settle. rewrite Hu, bool_decide_true by done. simpl.
  split; [apply JSMap.get_set_eq|]. unfold resolveSettings. simpl. by rewrite Hg.
Qed.

(** When the linter module cannot be resolved, the document's
    settings have validation off and the client is sent the
    [standard/noLibrary] request for the document. *)
Theorem loadLibrary_unresolved requireLibrary settings name u p2l :
  loadLibrary requireLibrary settings name u None p2l =
    (setLibrary settings false (library settings), p2l, [NoStandardLibraryRequest u]) /\
  validate (setLibrary settings false (library settings)) = false.
Proof. done. Qed.

(** ** Witnesses *)

Definition exResolve (m : string) (np cwd : option string) : option string :=
  if bool_decide (m = "missing") then None else Some ("/w/node_modules/" +:+ m).

Definition exRequire (path : string) : Library :=
  mkLibrary path (negb (bool_decide (path = "/w/node_modules/broken"))).

Definition exSettings : Settings :=
  mkSettings true true false "standard" true [] "onType" None None
    (Some (mkWorkspaceFolder "w" "file:///w")) None.

Definition exPkg : JValue :=
  JObj [("name", JStr "app"); ("devDependencies", JObj [("semistandard", JStr "^16.0.0")])].

Definition exResolver : ResolverState :=
  mkResolverState [("file:///w/a.js", 0%nat)] [(0%nat, Pending)] [] None 1 [].

Lemma resolveSettings_cached_witness :
  resolveSettings "file:///w/b.js" (snd (resolveSettings "file:///w/b.js" exResolver)) =
    resolveSettings "file:///w/b.js" exResolver.
Proof.
  destruct (resolveSettings "file:///w/b.js" exResolver) as [p st1] eqn:E. simpl.
  exact (resolveSettings_cached "file:///w/b.js" exResolver p st1 E).
Defined.

Lemma resolveSettings_fresh_after_clear_witness :
  let '(p, st') := resolveSettings "file:///w/a.js" (clearSettings exResolver) in
  (forall q, q ∈ JSMap.keys (promises exResolver) -> q <> p) /\
  JSMap.get p (promises st') = Some Pending /\ allocated st'.
Proof.
  apply resolveSettings_fresh_after_clear.
  split; repeat constructor; simpl; lia.
Defined.

Lemma loadLibrary_cached_unusable_witness :
  let '(s1, p2l1, _) := loadLibrary exRequire exSettings "x" "file:///w/a.js" (Some "/w/node_modules/broken") [] in
  validate s1 = false /\
  loadLibrary exRequire exSettings "x" "file:///w/a.js" (Some "/w/node_modules/broken") p2l1 =
    (setLibrary exSettings true (Some (exRequire "/w/node_modules/broken")), p2l1, []).
Proof. apply loadLibrary_cached_unusable; reflexivity. Defined.

Lemma applyPackageJson_engine_not_overridden_witness :
  applyPackageJson exSettings (Package exPkg) = Some (exSettings, "semistandard", []) /\
  engine exSettings = "standard".
Proof. split; [apply applyPackageJson_engine_not_overridden; reflexivity|reflexivity]. Defined.

Lemma settle_malformed_sticks_witness :
  let st' := settle exResolve exRequire 0 exSettings MalformedPackage
               (mkUri "file" "/w/a.js" "file:///w/a.js") (fun _ => "/w") exResolver in
  JSMap.get 0%nat (promises st') = Some Rejected /\ resolveSettings "file:///w/a.js" st' = (0%nat, st').
Proof. apply settle_malformed_sticks; [reflexivity|by eexists|reflexivity]. Defined.

End Settings.
