(* ===== verification/Guards.v ===== *)
(** * The type guards of the client and the server

    [Is.boolean], [Is.string], [ValidateItem.is] and [DirectoryItem.is]
    decide whether a configuration value has the shape of a TypeScript
    interface: [ValidateItem { language: string; autoFix?: boolean }] and
    [DirectoryItem { directory: string; changeProcessCWD?: boolean }].  The
    bundled extension has two versions of each: inline in
    client/out/extension.js (lines 12-38, and server.js lines 13-24 and
    50-57), guarded by the truthiness of the candidate, and in
    client/out/utils/ValidateItem.js and DirectoryItem.js, guarded by
    [candidate != null].  The configuration middleware tells the entries of
    [standard.validate] and [standard.workingDirectories] apart with them
    (extension.js lines 368-375 and 396-402): [decodeValidate] and
    [decodeWD] give the entries of [ClientConfig].

    Configuration values are JSON values ([JValue]): [undefined] is an
    absent field, and a field is read as [getField] reads it. *)

From stdpp Require Import base list strings.
From S2P Require Import Prelude ClientConfig Settings.
Import ClientConfig Settings.

Module Guards.

(** ** The guards *)

(** [Is.boolean(value)]: [value === true || value === false]. *)
Definition isBoolean (v : option JValue) : bool :=
  match v with Some (JBool _) => true | _ => false end.

(** [Is.string(value)]: [toString.call(value) === '[object String]']. *)
Definition isString (v : option JValue) : bool :=
  match v with Some (JStr _) => true | _ => false end.

(** [x === void 0] on a field. *)
Definition isUndefined (v : option JValue) : bool :=
  match v with None => true | Some _ => false end.

(** [candidate != null] (JSON has no [undefined] value). *)
Definition notNull (v : JValue) : bool := match v with JNull => false | _ => true end.

(** [ValidateItem.is] of extension.js (lines 23-30). *)
Definition validateItemIs (item : JValue) : bool :=
  truthyJ (Some item) && isString (getField item "language") &&
  (isBoolean (getField item "autoFix") || isUndefined (getField item "autoFix")).

(** [is] of utils/ValidateItem.js. *)
Definition validateItemIsUtils (item : JValue) : bool :=
  notNull item && isString (getField item "language") &&
  (isBoolean (getField item "autoFix") || isUndefined (getField item "autoFix")).

(** [DirectoryItem.is] of extension.js (lines 31-38) and server.js
    (lines 50-57). *)
Definition directoryItemIs (item : JValue) : bool :=
  truthyJ (Some item) && isString (getField item "directory") &&
  (isBoolean (getField item "changeProcessCWD") || isUndefined (getField item "changeProcessCWD")).

(** [is] of utils/DirectoryItem.js. *)
Definition directoryItemIsUtils (item : JValue) : bool :=
  notNull item && isString (getField item "directory") &&
  (isBoolean (getField item "changeProcessCWD") || isUndefined (getField item "changeProcessCWD")).

(** ** Decoding the configuration entries *)

Definition optBool (v : option JValue) : option bool :=
  match v with Some (JBool b) => Some b | _ => None end.

(** The tests of the [standard.validate] loop (lines 368 and 375), and
    the fields it then reads ([item.language], [item.autoFix]). *)
Definition decodeValidate (item : JValue) : ValidateEntry :=
  match item with
  | JStr l => VLanguage l
  | _ =>
      if validateItemIs item then
        match getField item "language" with
        | Some (JStr l) => VItem l (optBool (getField item "autoFix"))
        | _ => VOther
        end
      else VOther
  end.

(** The tests of the [standard.workingDirectories] loop (lines 396-402). *)
Definition decodeWD (entry : JValue) : WDEntry :=
  match entry with
  | JStr d => WDString d
  | _ =>
      if directoryItemIs entry then
        match getField entry "directory" with
        | Some (JStr d) => WDItem d (optBool (getField entry "changeProcessCWD"))
        | _ => WDOther
        end
      else WDOther
  end.

(** ** The interfaces

    A TypeScript interface read from JSON: its encoding, and the reading of
    its fields from any JSON value (extra fields are allowed, an optional
    field is absent or has its type). *)

Record ValidateItemT := mkValidateItemT { vi_language : string; vi_autoFix : option bool }.
Record DirectoryItemT := mkDirectoryItemT { di_directory : string; di_changeProcessCWD : option bool }.

Class JsonInterface (T : Type) := {
  toJSON : T -> JValue;
  fromJSON : JValue -> option T;
  fromJSON_toJSON x : fromJSON (toJSON x) = Some x
}.

Definition optField (k : string) (b : option bool) : list (string * JValue) :=
  match b with Some b => [(k, JBool b)] | None => [] end.

(** Whether a reading succeeded. *)
Definition present {A} (o : option A) : bool := match o with Some _ => true | None => false end.

(** A required string field and an optional boolean one. *)
Definition readFields (v : JValue) (req opt : string) : option (string * option bool) :=
  match getField v req, getField v opt with
  | Some (JStr x), None => Some (x, None)
  | Some (JStr x), Some (JBool b) => Some (x, Some b)
  | _, _ => None
  end.

Lemma readFields_encode req opt x b :
  req <> opt -> readFields (JObj ((req, JStr x) :: optField opt b)) req opt = Some (x, b).
Proof.
  intros Hne. unfold readFields, getField. simpl. rewrite decide_True by done.
  destruct b; simpl; rewrite decide_False by done; [|done]. by rewrite decide_True.
Qed.

#[export] Program Instance validateItemJson : JsonInterface ValidateItemT := {|
  toJSON x := JObj (("language", JStr (vi_language x)) :: optField "autoFix" (vi_autoFix x));
  fromJSON v := (fun '(l, af) => mkValidateItemT l af) <$> readFields v "language" "autoFix"
|}.
Next Obligation. intros [l af]. by rewrite readFields_encode. Qed.

#[export] Program Instance directoryItemJson : JsonInterface DirectoryItemT := {|
  toJSON x := JObj (("directory", JStr (di_directory x)) ::
                    optField "changeProcessCWD" (di_changeProcessCWD x));
  fromJSON v := (fun '(d, c) => mkDirectoryItemT d c) <$> readFields v "directory" "changeProcessCWD"
|}.
Next Obligation. intros [d c]. by rewrite readFields_encode. Qed.

Lemma guard_readFields v req opt :
  truthyJ (Some v) && isString (getField v req) &&
    (isBoolean (getField v opt) || isUndefined (getField v opt))
  = present (readFields v req opt) /\
  notNull v && isString (getField v req) &&
    (isBoolean (getField v opt) || isUndefined (getField v opt))
  = present (readFields v req opt).
Proof.
  unfold readFields. destruct v as [| | | | |fs]; simpl; rewrite ?andb_false_r; try done.
  by repeat case_match.
Qed.

(** ** Properties *)

(** C40: The type guards are exact: [ValidateItem.is] accepts exactly the
    JSON values whose [language] is a string and whose [autoFix] is absent
    or a boolean, the values [fromJSON] reads as a [ValidateItem];
    [DirectoryItem.is] likewise for [DirectoryItem]; and the [candidate !=
    null] versions of utils/ agree with the truthiness versions on every
    value. *)
Theorem guards_exact v :
  validateItemIs v = present (fromJSON (T := ValidateItemT) v) /\
  validateItemIsUtils v = validateItemIs v /\
  directoryItemIs v = present (fromJSON (T := DirectoryItemT) v) /\
  directoryItemIsUtils v = directoryItemIs v.
Proof.
  destruct (guard_readFields v "language" "autoFix") as [H1 H2].
  destruct (guard_readFields v "directory" "changeProcessCWD") as [H3 H4].
  unfold validateItemIs, validateItemIsUtils, directoryItemIs, directoryItemIsUtils.
  rewrite H1, H2, H3, H4. cbn [fromJSON validateItemJson directoryItemJson].
  split_and!; try done.
  - by destruct (readFields v "language" "autoFix") as [[]|].
  - by destruct (readFields v "directory" "changeProcessCWD") as [[]|].
Qed.

End Guards.
