(* ===== verification/Regex.v ===== *)
(** * The regular expressions of the server's error handlers

    The error handlers of server.js (lines 549-783) classify linter errors
    with [RegExp.prototype.exec] on the error message, and [getMessage]
    rewrites the message with [/\r?\n/g] and [/^CLI: /].  The regexes only
    use literals, character classes ([.], [\s], [[^']]) under greedy [*] or
    [+], and capturing groups around a greedy class star.  This file gives
    those constructs their ECMAScript backtracking semantics: a greedy
    quantifier tries the longest run first and gives characters back one at
    a time, [exec] returns the match at the leftmost position that succeeds,
    as the array [[whole, group1, ...]].

    Strings are Rocq strings of 8-bit code units; the characters the
    classes treat specially are all ASCII ([.] excludes [\n] and [\r],
    [\s] is tab, line feed, vertical tab, form feed, carriage return and
    space).  Non-ASCII line terminators and spaces ([U+2028], [U+00A0],
    ...) are outside the model. *)

From Stdlib Require Import Ascii String Lia.
From stdpp Require Import base list strings.
From S2P Require Import Prelude.

Module JSRegex.

(** ** Syntax *)

Definition charClass := ascii -> bool.

Definition isLineTerminator (c : ascii) : bool :=
  Ascii.eqb c "010"%char || Ascii.eqb c "013"%char.

(** [.] *)
Definition dot : charClass := fun c => negb (isLineTerminator c).

(** [\s] *)
Definition space : charClass := fun c =>
  Ascii.eqb c "009"%char || Ascii.eqb c "010"%char || Ascii.eqb c "011"%char ||
  Ascii.eqb c "012"%char || Ascii.eqb c "013"%char || Ascii.eqb c " "%char.

(** [[^']] *)
Definition notQuote : charClass := fun c => negb (Ascii.eqb c "'"%char).

Inductive atom :=
| Lit (c : ascii)          (* a literal character *)
| Star (p : charClass)     (* p* , greedy *)
| Plus (p : charClass)     (* p+ , greedy *)
| Group (p : charClass).   (* (p* ) , greedy, capturing *)

Definition regex := list atom.

Fixpoint lits (s : string) : regex :=
  match s with
  | EmptyString => []
  | String c s' => Lit c :: lits s'
  end.

Definition nl : string := String "010" EmptyString.

(** ** Matching *)

(** The ways a greedy [p*] can consume a prefix of [s]: (run, rest) pairs,
    the longest run first, then giving back one character at a time. *)
Fixpoint runs (p : charClass) (s : string) : list (string * string) :=
  match s with
  | EmptyString => [(EmptyString, EmptyString)]
  | String c s' =>
      if p c then map (fun tr => (String c tr.1, tr.2)) (runs p s') ++ [(EmptyString, s)]
      else [(EmptyString, s)]
  end.

Fixpoint firstSome {A B} (f : A -> option B) (l : list A) : option B :=
  match l with
  | [] => None
  | x :: l' => match f x with Some b => Some b | None => firstSome f l' end
  end.

(** [matchHere r s]: the first match of [r] at the start of [s] in
    backtracking order, as the captured groups and the unconsumed rest. *)
Fixpoint matchHere (r : regex) (s : string) : option (list string * string) :=
  match r with
  | [] => Some ([], s)
  | a :: r' =>
      match a with
      | Lit c =>
          match s with
          | String c' s' => if Ascii.eqb c c' then matchHere r' s' else None
          | EmptyString => None
          end
      | Star p => firstSome (fun tr => matchHere r' tr.2) (runs p s)
      | Plus p =>
          firstSome (fun tr => match tr.1 with
                               | EmptyString => None
                               | _ => matchHere r' tr.2
                               end) (runs p s)
      | Group p =>
          firstSome (fun tr => match matchHere r' tr.2 with
                               | Some (caps, rest) => Some (tr.1 :: caps, rest)
                               | None => None
                               end) (runs p s)
      end
  end.

(** The leftmost start position at which [r] matches: the suffix of the
    input starting there, with the groups and the rest. *)
Fixpoint search (r : regex) (s : string) : option (string * list string * string) :=
  match matchHere r s with
  | Some (caps, rest) => Some (s, caps, rest)
  | None =>
      match s with
      | EmptyString => None
      | String _ s' => search r s'
      end
  end.

(** [r.exec(s)] (no [g] flag): [null], or [[whole, group1, group2, ...]]. *)
Definition exec (r : regex) (s : string) : option (list string) :=
  match search r s with
  | Some (from, caps, rest) =>
      Some (substring 0 (String.length from - String.length rest) from :: caps)
  | None => None
  end.

(** [s.replace(/\r?\n/g, ' ')] *)
Fixpoint replaceNewlines (s : string) : string :=
  match s with
  | EmptyString => EmptyString
  | String c s' =>
      if Ascii.eqb c "013"%char then
        match s' with
        | String d s'' =>
            if Ascii.eqb d "010"%char then String " " (replaceNewlines s'')
            else String c (replaceNewlines s')
        | EmptyString => String c EmptyString
        end
      else if Ascii.eqb c "010"%char then String " " (replaceNewlines s')
      else String c (replaceNewlines s')
  end.

(** ** Lemmas *)

Definition headNot (p : charClass) (s : string) : Prop :=
  match s with
  | EmptyString => True
  | String c _ => p c = false
  end.

(** Every character of [s] is in the class. *)
Fixpoint allIn (p : charClass) (s : string) : bool :=
  match s with
  | EmptyString => true
  | String c s' => p c && allIn p s'
  end.

Lemma runs_longest p t rest :
  allIn p t = true -> headNot p rest ->
  exists more, runs p (t +:+ rest) = (t, rest) :: more.
Proof.
  induction t as [|c t IH]; simpl.
  - intros _ Hh. destruct rest as [|c rest]; simpl in *; [by eexists|].
    rewrite Hh. by eexists.
  - intros [Hc Ht]%andb_prop Hh. rewrite Hc.
    destruct (IH Ht Hh) as [more ->]. by eexists.
Qed.

Lemma matchHere_lits w r s :
  matchHere (lits w ++ r) (w +:+ s) = matchHere r s.
Proof.
  induction w as [|c w IH]; [done|]. simpl. by rewrite Ascii.eqb_refl.
Qed.

Lemma matchHere_star_longest p r t rest res :
  allIn p t = true -> headNot p rest -> matchHere r rest = Some res ->
  matchHere (Star p :: r) (t +:+ rest) = Some res.
Proof.
  intros Ht Hh Hm. simpl. destruct (runs_longest p t rest Ht Hh) as [more ->].
  simpl. by rewrite Hm.
Qed.

Lemma matchHere_plus_longest p r t rest res :
  t <> EmptyString -> allIn p t = true -> headNot p rest -> matchHere r rest = Some res ->
  matchHere (Plus p :: r) (t +:+ rest) = Some res.
Proof.
  intros Hne Ht Hh Hm. simpl. destruct (runs_longest p t rest Ht Hh) as [more ->].
  simpl. destruct t; [done|]. by rewrite Hm.
Qed.

Lemma matchHere_group_longest p r t rest caps rest' :
  allIn p t = true -> headNot p rest -> matchHere r rest = Some (caps, rest') ->
  matchHere (Group p :: r) (t +:+ rest) = Some (t :: caps, rest').
Proof.
  intros Ht Hh Hm. simpl. destruct (runs_longest p t rest Ht Hh) as [more ->].
  simpl. by rewrite Hm.
Qed.

Lemma substring_full s : substring 0 (String.length s) s = s.
Proof. induction s as [|c s IH]; [done|]. simpl. by rewrite IH. Qed.

Lemma headNot_app p t r : t <> EmptyString -> headNot p t -> headNot p (t +:+ r).
Proof. by destruct t. Qed.

Lemma append_nil_r s : s +:+ EmptyString = s.
Proof.
  induction s as [|c s IH]; [done|].
  change (String c (s +:+ EmptyString) = String c s). by rewrite IH.
Qed.

Lemma allIn_app p s t : allIn p (s +:+ t) = allIn p s && allIn p t.
Proof.
  induction s as [|c s IH]; [done|].
  change (p c && allIn p (s +:+ t) = (p c && allIn p s) && allIn p t).
  by rewrite IH, andb_assoc.
Qed.

Lemma allIn_substring p s n m : allIn p s = true -> allIn p (substring n m s) = true.
Proof.
  revert n m. induction s as [|c s IH]; intros [|n] [|m]; simpl; try done.
  - intros [-> Hs]%andb_prop. simpl. by apply IH.
  - intros [_ Hs]%andb_prop. by apply IH.
  - intros [_ Hs]%andb_prop. by apply IH.
Qed.

(** Characters other than line feed. *)
Definition noLF : charClass := fun c => negb (Ascii.eqb c "010"%char).

Lemma allIn_cons p c s : allIn p (String c s) = p c && allIn p s.
Proof. done. Qed.

Lemma replaceNewlines_noLF s : allIn noLF (replaceNewlines s) = true.
Proof.
  induction s as [s IH] using (induction_ltof1 _ String.length). unfold ltof in IH.
  destruct s as [|c s]; [done|]. cbn [replaceNewlines].
  destruct (Ascii.eqb c "013"%char) eqn:E1; [destruct s as [|d s]|
    destruct (Ascii.eqb c "010"%char) eqn:E2]; rewrite ?allIn_cons.
  - by apply Ascii.eqb_eq in E1 as ->.
  - apply Ascii.eqb_eq in E1 as ->.
    destruct (Ascii.eqb d "010"%char); rewrite allIn_cons; apply IH; simpl; lia.
  - apply IH. simpl. lia.
  - unfold noLF at 1. rewrite E2. apply IH. simpl. lia.
Qed.

Lemma exec_here r s caps rest :
  matchHere r s = Some (caps, rest) ->
  exec r s = Some (substring 0 (String.length s - String.length rest) s :: caps).
Proof. intros Hm. unfold exec. destruct s; simpl; by rewrite Hm. Qed.

End JSRegex.
