(* ===== verification/ErrorChain.v ===== *)
(** * The error chain of validation: server.js lines 511-516 and 531-783

    When [validate] throws, the [catch] block of [validateSingle] offers the
    error to [singleErrorHandlers] in order ([tryHandleNoConfig],
    [tryHandleConfigError], [tryHandleMissingModule], [showErrorMessage]),
    stops at the first one that returns a status, and sends that status (or
    [Status.error]) to the client.  The first three handlers report each
    problem once, remembering what they reported in three maps
    ([noConfigReported], [configErrorReported], [missingModuleReported]);
    the watched-files handler resets two of them and retries the third.

    The state is the three maps and the messages sent to the client, in
    order.  A handler returns [Some (status, state)], or [None] when it
    throws a [TypeError]: the watched-files handler replaces two maps by
    [Object.create(null)], an object without a [has] method, which is the
    constructor [NullObject] of [ReportMap].

    The document manager, the URI library and the linter library are Section
    parameters: [fileUriString] ([URI.file(f).toString()]), [getFilePath],
    [isUNC], [dirname] ([path.dirname]), [lintsEmpty] (whether
    [library.lintText('')] returns without throwing) and [openDocs] (the
    URIs [documents.get] knows). *)

From Stdlib Require Import Ascii String Lia.
From stdpp Require Import base list strings.
From S2P Require Import Prelude ClientConfig Regex.
Import ClientConfig JSRegex.

Module ErrorChain.

(** ** Data *)

(** [Status] of utils/StatusNotification.js: [ok = 1], [warn = 2],
    [error = 3]. *)
Inductive Status := ok | warn | error.

(** The numeric values of the enum ([Status.ok = 1], ...), and its reverse
    mapping ([Status[1] = "ok"], ...), of utils/StatusNotification.js
    (lines 5-10). *)
Definition statusValue (s : Status) : Z :=
  match s with ok => 1 | warn => 2 | error => 3 end.

Definition statusName (n : Z) : option string :=
  match n with 1 => Some "ok" | 2 => Some "warn" | 3 => Some "error" | _ => None end.

(** [StatusNotification.type] (line 11): the notification's method. *)
Definition statusMethod : string := "standard/status".

(** The linter's error object: [messageTemplate], and [message] when it is a
    string ([None] for [undefined]). *)
Record LintError := mkLintError {
  messageTemplate : option string;
  message : option string
}.

(** A report map: a [Map] from keys to the library in use, or the
    [Object.create(null)] object the watched-files handler installs. *)
Inductive ReportMap :=
| Live (m : list (string * option Library))
| NullObject.

(** What the handlers send to the client, in order. *)
Inductive Outbound :=
| NoConfigRequest (uri message : string)
| ConsoleError (message : string)
| ShowInformationMessage (message : string)
| ShowErrorMessage (message : string)
| StatusNotification (state : Status).

Record ErrState := mkErrState {
  noConfigReported : ReportMap;
  configErrorReported : list (string * option Library);
  missingModuleReported : ReportMap;
  outbox : list Outbound
}.

Definition send (o : Outbound) (st : ErrState) : ErrState :=
  mkErrState (noConfigReported st) (configErrorReported st)
    (missingModuleReported st) (outbox st ++ [o]).

(** ** The regexes

    Written as in the source, with a space added inside each group. *)

(** [/Cannot read config file:\s+( .* )\nError:\s+( .* )/] *)
Definition configFileRe : regex :=
  lits "Cannot read config file:" ++ [Plus space; Group dot; Lit "010"%char] ++
  lits "Error:" ++ [Plus space; Group dot].

(** [/( .* ):\n\s*Configuration for rule Q( .* )Q is /], where [Q]
    stands for an escaped double quote. *)
Definition ruleConfigRe : regex :=
  [Group dot] ++ lits ":" ++ [Lit "010"%char; Star space] ++
  lits "Configuration for rule " ++ [Lit "034"%char; Group dot; Lit "034"%char] ++
  lits " is ".

(** [/Cannot find module '( [^']* )'\nReferenced from:\s+( .* )/] *)
Definition moduleReferencedRe : regex :=
  lits "Cannot find module '" ++ [Group notQuote; Lit "'"%char; Lit "010"%char] ++
  lits "Referenced from:" ++ [Plus space; Group dot].

(** [/Failed to load plugin ( .* ): Cannot find module ( .* )/] *)
Definition pluginRe : regex :=
  lits "Failed to load plugin " ++ [Group dot] ++ lits ": Cannot find module " ++
  [Group dot].

(** ** Handlers *)

(** [getMessage(err, document)] *)
Definition getMessage (err : LintError) (docUri : string) : string :=
  match message err with
  | Some m =>
      let result := replaceNewlines m in
      if String.prefix "CLI: " result
      then substring 5 (String.length result - 5) result
      else result
  | None => "An unknown error occured while validating document: " +:+ docUri
  end.

Definition isNoConfigFoundError (err : LintError) : bool :=
  bool_decide (messageTemplate err = Some "no-config-found") ||
  bool_decide (message err = Some "No ESLint configuration found.").

(** [Array.prototype.join('\n')] *)
Definition joinLines (l : list string) : string := String.concat nl l.

Definition Handler :=
  LintError -> string -> option Library -> ErrState -> option (option Status * ErrState).

Section Handlers.
Context (fileUriString : string -> string) (getFilePath : string -> option string)
  (isUNC : string -> bool) (dirname : string -> string) (lintsEmpty : Library -> bool)
  (openDocs : list string).

(** [tryHandleNoConfig(error, document, library)] *)
Definition tryHandleNoConfig : Handler := fun err docUri library st =>
  if negb (isNoConfigFoundError err) then Some (None, st)
  else match noConfigReported st with
       | NullObject => None
       | Live m =>
           if JSMap.has docUri m then Some (Some warn, st)
           else Some (Some warn,
                      mkErrState (Live (JSMap.set docUri library m)) (configErrorReported st)
                        (missingModuleReported st)
                        (outbox st ++ [NoConfigRequest docUri (getMessage err docUri)]))
       end.

(** [handleFileName(filename)], local to [tryHandleConfigError]. *)
Definition handleFileName (err : LintError) (docUri : string) (library : option Library)
    (st : ErrState) (filename : string) : option Status * ErrState :=
  if JSMap.has filename (configErrorReported st) then (Some warn, st)
  else
    let msg := getMessage err docUri in
    let shown := if bool_decide (fileUriString filename ∈ openDocs) then []
                 else [ShowInformationMessage msg] in
    (Some warn,
     mkErrState (noConfigReported st) (JSMap.set filename library (configErrorReported st))
       (missingModuleReported st) (outbox st ++ ConsoleError msg :: shown)).

(** [tryHandleConfigError(error, document, library)] *)
Definition tryHandleConfigError : Handler := fun err docUri library st =>
  match message err with
  | Some m =>
      if negb (truthy m) then Some (None, st)   (* !error.message *)
      else match exec configFileRe m with
           | Some [_; g1; _] => Some (handleFileName err docUri library st g1)
           | _ =>
               match exec ruleConfigRe m with
               | Some [_; g1; _] => Some (handleFileName err docUri library st g1)
               | _ =>
                   match exec moduleReferencedRe m with
                   | Some [_; _; g2] => Some (handleFileName err docUri library st g2)
                   | _ => Some (None, st)
                   end
               end
           end
  | None => Some (None, st)
  end.

(** The console text of [handleMissingModule]. *)
Definition missingModuleText (err : LintError) (m moduleName whereText : string) : string :=
  if bool_decide (messageTemplate err = Some "plugin-missing") then
    joinLines [""; m; "Happend while validating " +:+ whereText;
               "This can happen for a couple of reasons:";
               "1. The plugin name is spelled incorrectly in JavaScript Standard Style configuration.";
               "2. If JavaScript Standard Style is installed globally, then make sure " +:+
                 moduleName +:+ " is installed globally as well.";
               "3. If JavaScript Standard Style is installed locally, then " +:+
                 moduleName +:+ " isn't installed correctly."]
  else joinLines [m; "Happend while validating " +:+ whereText].

(** [tryHandleMissingModule(error, document, library)] *)
Definition tryHandleMissingModule : Handler := fun err docUri library st =>
  match message err with
  | Some m =>
      if negb (truthy m) then Some (None, st)
      else match exec pluginRe m with
           | Some [_; plugin; moduleName] =>
               match missingModuleReported st with
               | NullObject => None
               | Live mm =>
                   if JSMap.has plugin mm then Some (Some warn, st)
                   else
                     let whereText := match getFilePath docUri with
                                      | Some p => if truthy p then p else docUri
                                      | None => docUri
                                      end in
                     Some (Some warn,
                           mkErrState (noConfigReported st) (configErrorReported st)
                             (Live (JSMap.set plugin library mm))
                             (outbox st ++ [ConsoleError (missingModuleText err m moduleName whereText)]))
               end
           | _ => Some (None, st)
           end
  | None => Some (None, st)
  end.

(** [showErrorMessage(error, document)] *)
Definition showErrorMessage : Handler := fun err docUri _ st =>
  Some (Some error, send (ShowErrorMessage (getMessage err docUri)) st).

Definition singleErrorHandlers : list Handler :=
  [tryHandleNoConfig; tryHandleConfigError; tryHandleMissingModule; showErrorMessage].

(** The loop [for (let handler of singleErrorHandlers)] with its [break]. *)
Fixpoint runHandlers (hs : list Handler) (err : LintError) (docUri : string)
    (library : option Library) (st : ErrState) : option (option Status * ErrState) :=
  match hs with
  | [] => Some (None, st)
  | h :: hs' =>
      match h err docUri library st with
      | None => None
      | Some (Some s, st') => Some (Some s, st')
      | Some (None, st') => runHandlers hs' err docUri library st'
      end
  end.

(** The [catch] block of [validateSingle]: [None] when a handler throws, so
    the rejection escapes and no status is sent. *)
Definition catchValidationError (err : LintError) (docUri : string)
    (library : option Library) (st : ErrState) : option ErrState :=
  match runHandlers singleErrorHandlers err docUri library st with
  | Some (status, st') => Some (send (StatusNotification (default error status)) st')
  | None => None
  end.

(** One change of the watched-files handler's [forEach]. *)
Definition watchedFileChange (st : ErrState) (changeUri : string) : ErrState :=
  match getFilePath changeUri with
  | Some fsPath =>
      if negb (truthy fsPath) || isUNC fsPath then st
      else if negb (truthy (dirname fsPath)) then st
      else match JSMap.get fsPath (configErrorReported st) with
           | Some (Some library) =>
               if lintsEmpty library
               then mkErrState (noConfigReported st)
                      (JSMap.delete fsPath (configErrorReported st))
                      (missingModuleReported st) (outbox st)
               else st
           | _ => st
           end
  | None => st
  end.

(** The [DidChangeWatchedFilesNotification] handler (lines 759-783): the new
    state and the documents [validateMany] queues for validation. *)
Definition onDidChangeWatchedFiles (changes : list string) (st : ErrState)
    : ErrState * list string :=
  (fold_left watchedFileChange changes
     (mkErrState NullObject (configErrorReported st) NullObject (outbox st)),
   openDocs).

(** ** Lemmas *)

Lemma statusName_statusValue s :
  statusName (statusValue s) = Some (match s with ok => "ok" | warn => "warn" | error => "error" end).
Proof. by destruct s. Qed.


Definition live (m : ReportMap) : bool :=
  match m with Live _ => true | NullObject => false end.

(** The two resettable maps are [Map]s (no handler can throw). *)
Definition liveMaps (st : ErrState) : bool :=
  live (noConfigReported st) && live (missingModuleReported st).

(** A handler that, on live maps, returns, keeps the maps live and only
    appends to the messages sent. *)
Definition safeHandler (h : Handler) : Prop :=
  forall err u lib st, liveMaps st = true ->
  exists r st', h err u lib st = Some (r, st') /\ liveMaps st' = true /\
                outbox st `prefix_of` outbox st'.

Lemma returns_unchanged (st : ErrState) (r : option Status) :
  liveMaps st = true ->
  exists r' st', Some (r, st) = Some (r', st') /\ liveMaps st' = true /\
                 outbox st `prefix_of` outbox st'.
Proof. intros Hl. by exists r, st. Qed.

Lemma tryHandleNoConfig_safe : safeHandler tryHandleNoConfig.
Proof.
  intros err u lib [nc cfg mm out] Hl. unfold tryHandleNoConfig.
  unfold liveMaps in Hl; simpl in Hl.
  repeat case_match; simplify_eq/=; auto using returns_unchanged.
  eexists _, _. split; [reflexivity|]. split; [done|]. by apply prefix_app_r.
Qed.

Lemma handleFileName_safe err u lib st f :
  liveMaps st = true ->
  exists r st', Some (handleFileName err u lib st f) = Some (r, st') /\
                liveMaps st' = true /\ outbox st `prefix_of` outbox st'.
Proof.
  intros Hl. unfold handleFileName. destruct (JSMap.has _ _); [by exists (Some warn), st|].
  eexists _, _. split; [reflexivity|]. split; [done|]. by apply prefix_app_r.
Qed.

Lemma tryHandleConfigError_safe : safeHandler tryHandleConfigError.
Proof.
  intros err u lib st Hl. unfold tryHandleConfigError.
  repeat case_match; auto using handleFileName_safe, returns_unchanged.
Qed.

Lemma tryHandleMissingModule_safe : safeHandler tryHandleMissingModule.
Proof.
  intros err u lib [nc cfg mm out] Hl. unfold tryHandleMissingModule, liveMaps in *; simpl in *.
  destruct (message err) as [m|]; [|by apply returns_unchanged].
  destruct (negb (truthy m)); [by apply returns_unchanged|].
  destruct (exec pluginRe m) as [[|? [|plugin [|moduleName [|]]]]|];
    try by apply returns_unchanged.
  destruct mm as [mm|]; [|by rewrite andb_false_r in Hl].
  destruct (JSMap.has plugin mm); [by apply returns_unchanged|].
  eexists _, _. split; [reflexivity|]. split; [done|]. by apply prefix_app_r.
Qed.

Lemma showErrorMessage_safe : safeHandler showErrorMessage.
Proof.
  intros err u lib st Hl. eexists _, _. split; [reflexivity|].
  split; [done|]. by apply prefix_app_r.
Qed.

Lemma runHandlers_safe hs err u lib st :
  Forall safeHandler hs -> liveMaps st = true ->
  exists r st', runHandlers hs err u lib st = Some (r, st') /\ liveMaps st' = true /\
                outbox st `prefix_of` outbox st'.
Proof.
  intros Hs. revert st. induction Hs as [|h hs Hh Hs IH]; intros st Hl; simpl.
  - by exists None, st.
  - destruct (Hh err u lib st Hl) as (r & st1 & -> & Hl1 & Hp1).
    destruct r as [s|].
    + by exists (Some s), st1.
    + destruct (IH st1 Hl1) as (r & st2 & -> & Hl2 & Hp2).
      exists r, st2. split_and!; [done|done|by trans (outbox st1)].
Qed.

Lemma singleErrorHandlers_safe : Forall safeHandler singleErrorHandlers.
Proof.
  repeat constructor; auto using tryHandleNoConfig_safe, tryHandleConfigError_safe,
    tryHandleMissingModule_safe, showErrorMessage_safe.
Qed.

Lemma watchedFileChange_keeps st c :
  noConfigReported (watchedFileChange st c) = noConfigReported st /\
  missingModuleReported (watchedFileChange st c) = missingModuleReported st /\
  outbox (watchedFileChange st c) = outbox st.
Proof. unfold watchedFileChange. by repeat case_match. Qed.

Lemma fold_watched_keeps changes st :
  noConfigReported (fold_left watchedFileChange changes st) = noConfigReported st /\
  missingModuleReported (fold_left watchedFileChange changes st) = missingModuleReported st /\
  outbox (fold_left watchedFileChange changes st) = outbox st.
Proof.
  revert st. induction changes as [|c changes IH]; intros st; [done|]. simpl.
  destruct (IH (watchedFileChange st c)) as (-> & -> & ->). apply watchedFileChange_keeps.
Qed.

(** ** Properties *)

(** C31: After the watched-files handler (a [.eslintrc] changed), the next
    validation that fails with a no-config error makes [tryHandleNoConfig]
    call [has] on the [Object.create(null)] object: the [TypeError] escapes
    the [catch] block and no status is sent to the client. *)
Theorem onDidChangeWatchedFiles_noConfig_throws changes st err u lib :
  isNoConfigFoundError err = true ->
  catchValidationError err u lib (onDidChangeWatchedFiles changes st).1 = None.
Proof.
  intros Hn. unfold catchValidationError, onDidChangeWatchedFiles. simpl.
  unfold tryHandleNoConfig. rewrite Hn. simpl.
  by destruct (fold_watched_keeps changes (mkErrState NullObject (configErrorReported st)
                                              NullObject (outbox st))) as (-> & _ & _).
Qed.

(** C32: While [noConfigReported] is a [Map], a no-config error is reported
    to the client once per document: the first call sends one
    [NoConfigRequest] (none if the document was already reported), a second
    call changes nothing, and both return [Status.warn]. *)
Theorem tryHandleNoConfig_reports_once err u lib lib' st m :
  isNoConfigFoundError err = true -> noConfigReported st = Live m ->
  exists st1, tryHandleNoConfig err u lib st = Some (Some warn, st1) /\
    tryHandleNoConfig err u lib' st1 = Some (Some warn, st1) /\
    outbox st1 = outbox st ++ (if JSMap.has u m then [] else [NoConfigRequest u (getMessage err u)]).
Proof.
  intros Hn Hm. unfold tryHandleNoConfig. rewrite Hn, Hm. simpl.
  destruct (JSMap.has u m) eqn:Hh.
  - exists st. rewrite Hm, Hh. split_and!; [done|done|by rewrite app_nil_r].
  - eexists. split; [reflexivity|]. simpl. unfold JSMap.has. by rewrite JSMap.get_set_eq.
Qed.

(** C33: While the report maps are [Map]s, the [catch] block of
    [validateSingle] always completes: the maps stay [Map]s, the messages of
    the handlers are followed by exactly one status notification, and a
    no-config error gives [Status.warn]. *)
Theorem catchValidationError_sends_status err u lib st :
  liveMaps st = true ->
  exists st' s, catchValidationError err u lib st = Some st' /\ liveMaps st' = true /\
    (exists sent, outbox st' = outbox st ++ sent ++ [StatusNotification s]) /\
    (isNoConfigFoundError err = true -> s = warn).
Proof.
  intros Hl. unfold catchValidationError.
  destruct (runHandlers_safe _ err u lib st singleErrorHandlers_safe Hl)
    as (r & st1 & Hr & Hl1 & [sent Hs]).
  rewrite Hr. eexists _, _. split; [reflexivity|]. split_and!; [done| |].
  - exists sent. simpl. by rewrite Hs, app_assoc.
  - intros Hn. simpl in Hr. unfold tryHandleNoConfig in Hr. rewrite Hn in Hr.
    unfold liveMaps in Hl. destruct (noConfigReported st); [|done].
    destruct (JSMap.has _ _); by simplify_eq/=.
Qed.

Lemma watchedFileChange_cfg st c f :
  JSMap.get f (configErrorReported (watchedFileChange st c)) = JSMap.get f (configErrorReported st) \/
  JSMap.get f (configErrorReported (watchedFileChange st c)) = None.
Proof.
  unfold watchedFileChange. repeat case_match; auto. simpl.
  match goal with |- context [JSMap.delete ?k _] => destruct (decide (k = f)) as [->|Hne] end;
    [right; apply JSMap.get_delete_eq|left; by apply JSMap.get_delete_ne].
Qed.

Lemma fold_watched_none changes st f :
  JSMap.get f (configErrorReported st) = None ->
  JSMap.get f (configErrorReported (fold_left watchedFileChange changes st)) = None.
Proof.
  revert st. induction changes as [|c changes IH]; intros st Hg; [done|]. simpl.
  apply IH. by destruct (watchedFileChange_cfg st c f) as [->| ->].
Qed.

Lemma fold_watched_retry changes st c f library :
  In c changes -> getFilePath c = Some f -> truthy f = true -> isUNC f = false ->
  truthy (dirname f) = true -> lintsEmpty library = true ->
  JSMap.get f (configErrorReported st) = Some (Some library) \/
  JSMap.get f (configErrorReported st) = None ->
  JSMap.get f (configErrorReported (fold_left watchedFileChange changes st)) = None.
Proof.
  intros Hin Hp Ht Hu Hd Hl. revert st.
  induction changes as [|c' changes IH]; intros st Hg; [done|]. simpl.
  destruct Hin as [<-|Hin].
  - apply fold_watched_none. unfold watchedFileChange. rewrite Hp, Ht, Hu, Hd. simpl.
    destruct Hg as [Hg|Hg]; rewrite Hg; [rewrite Hl; apply JSMap.get_delete_eq|done].
  - apply IH; [done|]. destruct (watchedFileChange_cfg st c' f) as [->| ->]; auto.
Qed.

(** The watched-files handler retries the configuration files that
    failed before: when a changed file was reported with a library that now
    lints the empty text without throwing, its entry is removed from
    [configErrorReported], so its next error is reported again. *)
Theorem onDidChangeWatchedFiles_retries_config changes st c f library :
  In c changes -> getFilePath c = Some f -> truthy f = true -> isUNC f = false ->
  truthy (dirname f) = true ->
  JSMap.get f (configErrorReported st) = Some (Some library) -> lintsEmpty library = true ->
  JSMap.get f (configErrorReported (onDidChangeWatchedFiles changes st).1) = None.
Proof. intros Hin Hp Ht Hu Hd Hg Hl. eapply fold_watched_retry; eauto. Qed.

End Handlers.

(** C34: Round trip of [configFileRe]: on the message ESLint builds for an
    unreadable configuration file, [exec] matches the whole message and its
    first group is the file name, for any one-line, non-empty file name and
    one-line detail that do not start with white space. *)
Theorem configFileRe_extracts_file f e :
  f <> EmptyString -> allIn dot f = true -> headNot space f ->
  allIn dot e = true -> headNot space e ->
  let msg := "Cannot read config file:" +:+ " " +:+ f +:+ nl +:+ "Error:" +:+ " " +:+ e in
  exec configFileRe msg = Some [msg; f; e].
Proof.
  intros Hne Hf Hsf He Hse msg.
  rewrite (exec_here _ _ [f; e] EmptyString).
  { by rewrite Nat.sub_0_r, substring_full. }
  unfold configFileRe, msg. rewrite <- (append_nil_r e) at 1. rewrite matchHere_lits.
  apply matchHere_plus_longest; [done|done|by apply headNot_app|].
  apply matchHere_group_longest; [done|done|].
  change (Lit "010"%char :: ?r) with (lits nl ++ r). rewrite matchHere_lits, matchHere_lits.
  apply matchHere_plus_longest; [done|done|by rewrite append_nil_r|].
  by apply matchHere_group_longest.
Qed.

(** The message [getMessage] passes to the client and the console is
    one line: it contains no line feed (for a document URI without one). *)
Theorem getMessage_single_line err u :
  allIn noLF u = true -> allIn noLF (getMessage err u) = true.
Proof.
  intros Hu. unfold getMessage. destruct (message err) as [m|].
  - pose proof (replaceNewlines_noLF m). case_match; [by apply allIn_substring|done].
  - by rewrite allIn_app, Hu.
Qed.

(** ** Examples

    A POSIX host ([isUNC] is false off Windows), a workspace [/w] with a
    reported [.eslintrc] whose library now lints, and the no-config error of
    ESLint. *)

Definition exFileUri (f : string) : string := "file://" +:+ f.

Definition exGetFilePath (u : string) : option string :=
  if String.prefix "file://" u then Some (substring 7 (String.length u - 7) u) else None.

Definition exIsUNC (_ : string) : bool := false.

Definition exDirname (_ : string) : string := "/w".

Definition exLintsEmpty (l : Library) : bool := hasLintText l.

Definition exLib : Library := mkLibrary "/w/node_modules/standard/index.js" true.

Definition exNoConfig : LintError :=
  mkLintError (Some "no-config-found") (Some "No ESLint configuration found.").

Definition exErrState : ErrState :=
  mkErrState (Live []) [("/w/.eslintrc", Some exLib)] (Live []) [].

Lemma onDidChangeWatchedFiles_noConfig_throws_witness :
  isNoConfigFoundError exNoConfig = true /\
  catchValidationError exFileUri exGetFilePath ["file:///w/a.js"] exNoConfig "file:///w/a.js"
    (Some exLib)
    (onDidChangeWatchedFiles exGetFilePath exIsUNC exDirname exLintsEmpty ["file:///w/a.js"]
       ["file:///w/.eslintrc"] exErrState).1 = None.
Proof.
  split; [reflexivity|].
  apply (onDidChangeWatchedFiles_noConfig_throws exFileUri). reflexivity.
Defined.

Lemma tryHandleNoConfig_reports_once_witness :
  isNoConfigFoundError exNoConfig = true /\ noConfigReported exErrState = Live [] /\
  exists st1, tryHandleNoConfig exNoConfig "file:///w/a.js" (Some exLib) exErrState
                = Some (Some warn, st1) /\
    tryHandleNoConfig exNoConfig "file:///w/a.js" None st1 = Some (Some warn, st1) /\
    outbox st1 = outbox exErrState ++
      (if JSMap.has "file:///w/a.js" (@nil (string * option Library)) then []
       else [NoConfigRequest "file:///w/a.js" (getMessage exNoConfig "file:///w/a.js")]).
Proof.
  split; [reflexivity|]. split; [reflexivity|].
  apply tryHandleNoConfig_reports_once; reflexivity.
Defined.

Lemma catchValidationError_sends_status_witness :
  liveMaps exErrState = true /\
  exists st' s, catchValidationError exFileUri exGetFilePath [] exNoConfig "file:///w/a.js"
                  (Some exLib) exErrState = Some st' /\ liveMaps st' = true /\
    (exists sent, outbox st' = outbox exErrState ++ sent ++ [StatusNotification s]) /\
    (isNoConfigFoundError exNoConfig = true -> s = warn).
Proof.
  split; [reflexivity|]. apply catchValidationError_sends_status. reflexivity.
Defined.

Lemma configFileRe_extracts_file_witness :
  let msg := "Cannot read config file:" +:+ " " +:+ "/w/.eslintrc" +:+ nl +:+ "Error:" +:+ " " +:+
             "Unexpected token" in
  exec configFileRe msg = Some [msg; "/w/.eslintrc"; "Unexpected token"].
Proof. apply configFileRe_extracts_file; vm_compute; congruence. Defined.

Lemma getMessage_single_line_witness :
  allIn noLF "file:///w/a.js" = true /\
  allIn noLF (getMessage (mkLintError None (Some ("CLI: bad" +:+ nl +:+ "config")))
                "file:///w/a.js") = true.
Proof. split; [reflexivity|]. apply getMessage_single_line. reflexivity. Defined.

Lemma onDidChangeWatchedFiles_retries_config_witness :
  JSMap.get "/w/.eslintrc" (configErrorReported exErrState) = Some (Some exLib) /\
  JSMap.get "/w/.eslintrc"
    (configErrorReported (onDidChangeWatchedFiles exGetFilePath exIsUNC exDirname exLintsEmpty
       ["file:///w/a.js"] ["file:///w/.eslintrc"] exErrState).1) = None.
Proof.
  split; [reflexivity|].
  apply (onDidChangeWatchedFiles_retries_config _ _ _ _ _ _ _ "file:///w/.eslintrc" _ exLib);
    simpl; auto; reflexivity.
Defined.

End ErrorChain.
