(* ===== verification/Validate.v ===== *)
(** * The validation pipeline (server.js lines 112-155, 517-669)

    [validate(document, settings, publishDiagnostics)] merges the options,
    picks the linter's working directory and may [process.chdir] into it,
    asks the library to [parseOpts], then starts an [async.waterfall]:
    clear the document's fixes, [deglob] the file against the ignore
    patterns, [lintText] the content, convert the report.  The [finally]
    block restores the process's working directory.  [deglob] answers
    through a file-system callback, so everything after it runs in a later
    task; [lintText] answers through [process.nextTick].

    State and effects are those of a Node process: a [Proc] record with the
    working directory, the [codeActions] store, the published diagnostics,
    the error handlers' state of [ErrorChain] (whose outbox also holds the
    status notifications), the console log and the two queues of pending
    callbacks ([ticks] for [process.nextTick], [io] for I/O completions),
    and the host's document objects ([heap]).  [validate] receives the
    object itself and reads its text at once; the closures of the
    waterfall keep the object, whose [version] the host's [didChange]
    ([VChange], an I/O event) updates in place, so the last step reads the
    version of the moment it runs.
    The synchronous code runs in an exception-and-state monad [EST]
    ([throw], [tryCatch], [tryFinally]); the callbacks are tasks of a step
    relation [vstep].

    The waterfall follows the async library from version 2 on: a task that
    calls its callback synchronously starts the next task at once. *)

From Stdlib Require Import ZArith Lia Ascii.
From stdpp Require Import base list strings relations.
From S2P Require Import Prelude Diagnostics CodeActions ClientConfig Settings Regex ErrorChain.
Import Diagnostics ClientConfig JSRegex ErrorChain.

Module Validate.

(** ** The exception-and-state monad *)

(** A JavaScript completion: a value, or a thrown error object. *)
Inductive outcome (A : Type) := Normal (a : A) | Throw (e : LintError).
Arguments Normal {A} a.
Arguments Throw {A} e.

(** A pending callback, with the data its closure captured. *)
Record Job := mkJob {
  jb_ref : nat;                 (** the document object the closure holds *)
  jb_document : TextDocument;
  jb_content : string;
  jb_options : list (string * JValue);
  jb_settings : Settings;
  jb_library : Library;
  jb_publish : bool
}.

Record DeglobOpts := mkDeglobOpts { dg_ignore : list string; dg_cwd : string; dg_configKey : string }.

(** [settings.library.parseOpts(newOptions)]: the ignore patterns and the
    working directory the linter settled on. *)
Record ParsedOpts := mkParsedOpts { po_ignore : list string; po_cwd : string }.

(** The linter's report: [report.results] when it is an array, each
    result's [messages] when it is an array. *)
Record DocReport := mkDocReport { messages : option (list (option Problem)) }.
Abbreviation Report := (option (list DocReport)).

Inductive Task :=
| DeglobDone (j : Job) (file : string) (opts : DeglobOpts)
| LintDone (j : Job) (result : outcome Report).

(** What [console.log] printed: an error object or a string. *)
Inductive Logged := LogError (e : LintError) | LogString (s : string) | Uncaught (e : LintError).

Record Proc := mkProc {
  cwd : string;
  codeActions : CodeActionStore;
  published : list (string * list Diagnostic);
  errs : ErrState;
  console : list Logged;
  ticks : list Task;
  io : list Task;
  heap : list (nat * DocObj)    (** the host's document objects *)
}.

Definition EST (A : Type) : Type := Proc -> outcome A * Proc.

Definition ret {A} (a : A) : EST A := fun s => (Normal a, s).
Definition bind {A B} (m : EST A) (f : A -> EST B) : EST B := fun s =>
  match m s with
  | (Normal a, s') => f a s'
  | (Throw e, s') => (Throw e, s')
  end.
Definition throw {A} (e : LintError) : EST A := fun s => (Throw e, s).
Definition gets {A} (f : Proc -> A) : EST A := fun s => (Normal (f s), s).
Definition modify (f : Proc -> Proc) : EST unit := fun s => (Normal tt, f s).

(** [try { body } catch (e) { handler(e) }] *)
Definition tryCatch {A} (body : EST A) (handler : LintError -> EST A) : EST A := fun s =>
  match body s with
  | (Throw e, s') => handler e s'
  | r => r
  end.

(** [try { body } finally { fin }]: an exception of [fin] replaces the
    body's completion. *)
Definition tryFinally {A} (body : EST A) (fin : EST unit) : EST A := fun s =>
  let '(r, s1) := body s in
  match fin s1 with
  | (Normal _, s2) => (r, s2)
  | (Throw e, s2) => (Throw e, s2)
  end.

Declare Scope est_scope.
Delimit Scope est_scope with est.
Notation "x <- m ;; k" := (bind m (fun x => k))
  (at level 100, m at next level, right associativity) : est_scope.
Notation "m ;; k" := (bind m (fun _ => k))
  (at level 100, right associativity) : est_scope.
Open Scope est_scope.

(** ** State updates *)

Definition setCwd (d : string) (s : Proc) : Proc :=
  mkProc d (codeActions s) (published s) (errs s) (console s) (ticks s) (io s) (heap s).
Definition setCodeActions (ca : CodeActionStore) (s : Proc) : Proc :=
  mkProc (cwd s) ca (published s) (errs s) (console s) (ticks s) (io s) (heap s).
Definition setPublished (p : list (string * list Diagnostic)) (s : Proc) : Proc :=
  mkProc (cwd s) (codeActions s) p (errs s) (console s) (ticks s) (io s) (heap s).
Definition setErrs (e : ErrState) (s : Proc) : Proc :=
  mkProc (cwd s) (codeActions s) (published s) e (console s) (ticks s) (io s) (heap s).
Definition log (l : Logged) (s : Proc) : Proc :=
  mkProc (cwd s) (codeActions s) (published s) (errs s) (console s ++ [l]) (ticks s) (io s) (heap s).
Definition nextTick (t : Task) (s : Proc) : Proc :=
  mkProc (cwd s) (codeActions s) (published s) (errs s) (console s) (ticks s ++ [t]) (io s) (heap s).
Definition startIO (t : Task) (s : Proc) : Proc :=
  mkProc (cwd s) (codeActions s) (published s) (errs s) (console s) (ticks s) (io s ++ [t]) (heap s).
Definition setHeap (h : list (nat * DocObj)) (s : Proc) : Proc :=
  mkProc (cwd s) (codeActions s) (published s) (errs s) (console s) (ticks s) (io s) h.

(** ** The pipeline *)

Definition backslash : Ascii.ascii := "\"%char.

Definition charIs (n : nat) (p : string) (c : Ascii.ascii) : bool :=
  match String.get n p with Some c' => bool_decide (c' = c) | None => false end.

Definition notBackslash : charClass := fun c => negb (bool_decide (c = backslash)).

(** The pattern of the comment of [isUNC], [\\hostname\sharename]: two
    backslashes, a non-empty host name without a backslash, a backslash and
    a share name that does not start with one. *)
Definition uncPattern (p : string) : Prop :=
  exists host c rest,
    host <> EmptyString /\ allIn notBackslash host = true /\ c <> backslash /\
    p = String backslash (String backslash (host +:+ String backslash (String c rest))).

(** The length of the leading run of non-backslash characters. *)
Fixpoint hostLen (q : string) : nat :=
  match q with
  | EmptyString => 0
  | String c q' => if bool_decide (c = backslash) then 0 else S (hostLen q')
  end.

Section Pipeline.
Context (win32 : bool) (parseUri : string -> Uri) (dirname : string -> string)
  (isAbsolute : string -> bool) (dirExists : string -> bool)
  (chdirError : string -> string -> LintError)
  (parseOpts : Library -> list (string * JValue) -> string -> outcome ParsedOpts)
  (deglob : list string -> DeglobOpts -> outcome (list string))
  (lintText : Library -> string -> list (string * JValue) -> string -> outcome Report)
  (fileUriString : string -> string) (openDocs : list string).

(** The [for] loop of [isUNC] (lines 131-136): the index of the first
    backslash from [pos] on, or the length of the path. *)
Fixpoint scanHost (fuel pos : nat) (p : string) : nat :=
  match fuel with
  | O => pos
  | S f => match String.get pos p with
           | Some c => if bool_decide (c = backslash) then pos else scanHost f (S pos) p
           | None => pos
           end
  end.

(** [isUNC(path)] (lines 112-145). *)
Definition isUNC (path : string) : bool :=
  if negb win32 then false
  else if Nat.ltb (String.length path) 5 then false
  else if negb (charIs 0 path backslash) then false
  else if negb (charIs 1 path backslash) then false
  else let pos := scanHost (String.length path) 2 path in
       if Nat.eqb 2 pos then false
       else match String.get (S pos) path with
            | None => false
            | Some c => negb (bool_decide (c = backslash))
            end.

(** [getFilePath(document)] (lines 146-155). *)
Definition getFilePath (docUri : string) : option string :=
  let u := parseUri docUri in
  if bool_decide (scheme u = "file") then Some (fsPath u) else None.

(** [process.chdir(directory)]: throws when the directory is missing. *)
Definition processChdir (d : string) : EST unit := fun s =>
  if dirExists d then (Normal tt, setCwd d s) else (Throw (chdirError (cwd s) d), s).

(** Lines 572-594: the [cwd] option, and the [process.chdir] calls. *)
Definition configureCwd (file : option string) (settings : Settings)
    (newOptions : list (string * JValue)) : EST (list (string * JValue)) :=
  match file with
  | None => ret newOptions
  | Some f =>
      match workingDirectory settings with
      | Some wd =>
          let opts := JSMap.set "cwd" (JStr (directory wd)) newOptions in
          if changeProcessCWD wd then processChdir (directory wd);; ret opts else ret opts
      | None =>
          match workspaceFolder settings with
          | Some wf =>
              let u := parseUri (wf_uri wf) in
              if bool_decide (scheme u = "file") then
                let opts := JSMap.set "cwd" (JStr (fsPath u)) newOptions in
                processChdir (fsPath u);; ret opts
              else ret newOptions
          | None =>
              if negb (isUNC f) then
                let d := dirname f in
                if truthy d && isAbsolute d then ret (JSMap.set "cwd" (JStr d) newOptions)
                else ret newOptions
              else ret newOptions
          end
      end
  end.

(** [settings.library] read as an object: a [TypeError] when undefined. *)
Definition libraryTypeError : LintError :=
  mkLintError None (Some "Cannot read property 'parseOpts' of undefined").

Definition getLibrary (settings : Settings) : EST Library :=
  match library settings with Some l => ret l | None => throw libraryTypeError end.

Definition liftOutcome {A} (o : outcome A) : EST A := fun s => (o, s).

(** The third waterfall step (line 628): [lintText] runs now, with the
    process's working directory of this moment; its callback is a tick. *)
Definition lintStep (j : Job) : EST unit := fun s =>
  (Normal tt, nextTick (LintDone j (lintText (jb_library j) (jb_content j) (jb_options j) (cwd s))) s).

(** The messages of [report.results[0]] (lines 639-641). *)
Definition reportMessages (r : Report) : list (option Problem) :=
  match r with
  | Some (d :: _) => default [] (messages d)
  | _ => []
  end.

(** The [try] block of [validate] (lines 571-663), [newOptions] and [file]
    as computed before it (lines 564-569). *)
Definition validateTry (obj : nat) (document : TextDocument) (content : string) (settings : Settings)
    (publish : bool) : EST unit :=
  let docUri := uri document in
  let newOptions := Settings.objectAssign [("filename", JStr docUri)] (JObj (options settings)) in
  let file := getFilePath docUri in
  newOptions' <- configureCwd file settings newOptions;;
  lib <- getLibrary settings;;
  c <- gets cwd;;
  opts <- liftOutcome (parseOpts lib newOptions' c);;
  let dopts := mkDeglobOpts (po_ignore opts) (po_cwd opts) (engine settings) in
  let j := mkJob obj document content newOptions' settings lib publish in
  modify (fun s => setCodeActions (JSMap.delete docUri (codeActions s)) s);;
  match file with
  | None => lintStep j
  | Some f => modify (startIO (DeglobDone j f dopts))
  end.

(** The [finally] block (lines 664-668). *)
Definition restoreCwd (cwd0 : string) : EST unit :=
  c <- gets cwd;;
  if bool_decide (cwd0 = c) then ret tt else processChdir cwd0.

(** [validate(document, settings, publishDiagnostics)] (lines 563-669),
    on the document's text [content]. *)
Definition validate (obj : nat) (document : TextDocument) (content : string) (settings : Settings)
    (publish : bool) : EST unit :=
  cwd0 <- gets cwd;;
  tryFinally (validateTry obj document content settings publish) (restoreCwd cwd0).

(** The [deglob] callback (lines 611-625), and the final callback's
    [console.log(err)]. *)
Definition deglobDone (j : Job) (f : string) (opts : DeglobOpts) : EST unit :=
  match deglob [f] opts with
  | Throw e => modify (log (LogError e))
  | Normal files =>
      if Nat.eqb (length files) 1 then lintStep j
      else modify (log (LogString (f +:+ " ignored.")))
  end.

(** [document] as a callback reads it when it runs: the object its
    closure holds, with the version the host has given it since
    (vscode-languageserver updates the object in place).  An object is
    never freed while a closure holds it; the second branch, the snapshot
    taken when [validate] was called, is not reached from a state where
    the job's object is allocated. *)
Definition liveDocument (j : Job) (s : Proc) : TextDocument :=
  match JSMap.get (jb_ref j) (heap s) with
  | Some o => docOf o
  | None => jb_document j
  end.

(** The [lintText] callback (lines 628-635) and the last waterfall step
    (lines 637-656). *)
Definition lintDone (j : Job) (r : outcome Report) : EST unit :=
  let settings := jb_settings j in
  match r with
  | Throw e =>
      fun s =>
        let document := liveDocument j s in
        match tryHandleMissingModule getFilePath e (uri document)
                (Some (jb_library j)) (errs s) with
        | Some (_, es) => (Normal tt, log (LogError e) (setErrs es s))
        | None => (Throw (mkLintError None (Some "missingModuleReported.has is not a function")), s)
        end
  | Normal report =>
      fun s =>
        let document := liveDocument j s in
        let '(diagnostics, ca) :=
          convertMessages (autoFix settings) (engine settings) document (reportMessages report)
            (codeActions s) in
        let s1 := setCodeActions ca s in
        (Normal tt,
         if jb_publish j then setPublished (JSMap.set (uri document) diagnostics (published s1)) s1
         else s1)
  end.

Definition runTask (t : Task) : EST unit :=
  match t with
  | DeglobDone j f opts => deglobDone j f opts
  | LintDone j r => lintDone j r
  end.

(** The [catch] block of [validateSingle] (lines 531-541): the handler
    chain of [ErrorChain]; a handler that throws rejects the promise. *)
Definition validateSingleCatch (document : TextDocument) (settings : Settings)
    (err : LintError) : EST unit := fun s =>
  match catchValidationError fileUriString getFilePath openDocs
          err (uri document) (library settings) (errs s) with
  | Some es => (Normal tt, setErrs es s)
  | None => (Throw (mkLintError None (Some "noConfigReported.has is not a function")), s)
  end.

(** The [then] callback of [validateSingle] (lines 523-541): [validate],
    the [ok] status, and the [catch] block. *)
Definition validateSingleBody (obj : nat) (document : TextDocument) (content : string)
    (settings : Settings) (publish : bool) : EST unit :=
  if negb (ClientConfig.validate settings) then ret tt
  else tryCatch
         (validate obj document content settings publish;;
          modify (fun s => setErrs (send (StatusNotification ok) (errs s)) s))
         (validateSingleCatch document settings).

(** One run of the event loop: a [nextTick] callback while there are any,
    else a completed I/O callback (in any order), a validation of a
    document object (its text read as [getText()]), or the host's
    [didChange] of an object, which vscode-languageserver's [TextDocuments]
    applies in place (full sync: the new version and text); an exception
    escaping a callback is logged as uncaught. *)
Definition finish (r : outcome unit * Proc) : Proc :=
  match r with
  | (Normal _, s) => s
  | (Throw e, s) => log (Uncaught e) s
  end.

Inductive vstep : Proc -> Proc -> Prop :=
| VTick t ts s :
    ticks s = t :: ts ->
    vstep s (finish (runTask t (mkProc (cwd s) (codeActions s) (published s) (errs s)
                                   (console s) ts (io s) (heap s))))
| VIO t l1 l2 s :
    ticks s = [] -> io s = l1 ++ t :: l2 ->
    vstep s (finish (runTask t (mkProc (cwd s) (codeActions s) (published s) (errs s)
                                   (console s) [] (l1 ++ l2) (heap s))))
| VValidate obj o settings publish s :
    ticks s = [] -> JSMap.get obj (heap s) = Some o ->
    vstep s (finish (validateSingleBody obj (docOf o) (d_text o) settings publish s))
| VChange obj o v t s :
    ticks s = [] -> JSMap.get obj (heap s) = Some o ->
    vstep s (setHeap (JSMap.set obj (mkDocObj (d_uri o) v t) (heap s)) s).

(** ** Frame lemmas *)

Lemma setCwd_id s : setCwd (cwd s) s = s.
Proof. by destruct s. Qed.

Lemma restoreCwd_spec c s : dirExists c = true -> restoreCwd c s = (Normal tt, setCwd c s).
Proof.
  intros Hc. unfold restoreCwd, bind, gets. simpl.
  case_bool_decide; [subst; by rewrite setCwd_id|]. unfold processChdir. by rewrite Hc.
Qed.

Lemma tryFinally_restore {A} (body : EST A) c s :
  dirExists c = true -> tryFinally body (restoreCwd c) s = ((body s).1, setCwd c (body s).2).
Proof.
  intros Hc. unfold tryFinally. destruct (body s) as [r s1]. by rewrite restoreCwd_spec.
Qed.

(** [configureCwd] changes nothing but the working directory. *)
Lemma configureCwd_frame file settings o s :
  exists c, (configureCwd file settings o s).2 = setCwd c s.
Proof.
  exists (cwd (configureCwd file settings o s).2).
  unfold configureCwd, processChdir, bind, ret.
  repeat (case_match; simplify_eq/=); by rewrite ?setCwd_id.
Qed.

Lemma configureCwd_none settings o s : configureCwd None settings o s = (Normal o, s).
Proof. done. Qed.

Ltac est_unfold :=
  unfold getLibrary, lintStep, bind, ret, gets, modify, liftOutcome, throw in *.

Lemma finish_cwd r : cwd (finish r) = cwd r.2.
Proof. by destruct r as [[] ?]. Qed.

Lemma finish_ticks r : ticks (finish r) = ticks r.2.
Proof. by destruct r as [[] ?]. Qed.

(** ** The working directory of the linter *)

(** A pending [lintText] callback carries the result [lintText] gave when
    the process's working directory was [c]. *)
Definition lintAt (c : string) (t : Task) : Prop :=
  match t with
  | LintDone j r => r = lintText (jb_library j) (jb_content j) (jb_options j) c
  | DeglobDone _ _ _ => True
  end.

Lemma runTask_inv c t s :
  cwd s = c -> Forall (lintAt c) (ticks s) ->
  cwd (finish (runTask t s)) = c /\ Forall (lintAt c) (ticks (finish (runTask t s))).
Proof.
  intros Hc Ht. rewrite finish_cwd, finish_ticks.
  destruct t as [j f o|j [r|e]]; simpl.
  - unfold deglobDone. est_unfold. repeat case_match; simpl; split_and!; try done.
    apply Forall_app; split; [done|]. by constructor; [simpl; rewrite Hc|].
  - unfold lintDone. case_match. case_match; done.
  - unfold lintDone. repeat case_match; simplify_eq/=; done.
Qed.

Lemma validateTry_ticks obj document content settings publish c s :
  cwd s = c -> Forall (lintAt c) (ticks s) ->
  Forall (lintAt c) (ticks (validateTry obj document content settings publish s).2).
Proof.
  intros Hc Ht. unfold validateTry. cbv zeta.
  destruct (getFilePath (uri document)) as [f|] eqn:Hf.
  - unfold bind at 1.
    match goal with |- context [configureCwd ?fl ?st ?o s] =>
      destruct (configureCwd_frame fl st o s) as [c' Hfr];
      destruct (configureCwd fl st o s) as [[o'|e] s1]; simpl in Hfr; subst s1
    end; [|done].
    est_unfold. by repeat (case_match; simplify_eq/=).
  - unfold bind at 1. rewrite configureCwd_none.
    est_unfold. repeat (case_match; simplify_eq/=); try done.
    apply Forall_app; split; [done|]. by constructor.
Qed.

Lemma validate_eq obj document content settings publish s :
  dirExists (cwd s) = true ->
  validate obj document content settings publish s =
  ((validateTry obj document content settings publish s).1,
   setCwd (cwd s) (validateTry obj document content settings publish s).2).
Proof. intros Hd. unfold validate, bind, gets. by rewrite tryFinally_restore. Qed.

Lemma validateSingleBody_inv obj document content settings publish c s :
  dirExists c = true -> cwd s = c -> Forall (lintAt c) (ticks s) ->
  cwd (finish (validateSingleBody obj document content settings publish s)) = c /\
  Forall (lintAt c) (ticks (finish (validateSingleBody obj document content settings publish s))).
Proof.
  intros Hd Hc Ht. rewrite finish_cwd, finish_ticks. unfold validateSingleBody.
  case_match; [done|]. unfold tryCatch, bind, validateSingleCatch. subst c. rewrite validate_eq by done.
  pose proof (validateTry_ticks obj document content settings publish (cwd s) s eq_refl Ht) as Hv.
  destruct (validateTry obj document content settings publish s) as [[]s1]; simpl in *;
    unfold modify; [done|]. by case_match.
Qed.

Lemma vstep_inv c s s' :
  dirExists c = true -> vstep s s' -> cwd s = c -> Forall (lintAt c) (ticks s) ->
  cwd s' = c /\ Forall (lintAt c) (ticks s').
Proof.
  intros Hd Hs Hc Ht.
  destruct Hs as [t ts s Hts|t l1 l2 s Ht0 Hio|obj o settings publish s Ht0 Ho|obj o v t s Ht0 Ho].
  - rewrite Hts in Ht. apply Forall_cons in Ht as [_ Ht]. by apply runTask_inv.
  - by apply runTask_inv.
  - by apply validateSingleBody_inv.
  - done.
Qed.

Lemma rtc_vstep_inv c s s' :
  dirExists c = true -> rtc vstep s s' -> cwd s = c -> Forall (lintAt c) (ticks s) ->
  cwd s' = c /\ Forall (lintAt c) (ticks s').
Proof.
  intros Hd Hr. induction Hr as [|s1 s2 s3 Hs Hr IH]; [done|].
  intros Hc Ht. apply IH; by apply (vstep_inv c s1 s2).
Qed.

(** ** The UNC test *)

Lemma scanHost_shift fuel pos a q : scanHost fuel (S pos) (String a q) = S (scanHost fuel pos q).
Proof.
  revert pos. induction fuel as [|f IH]; intros pos; [done|]. simpl.
  case_match; [|done]. case_bool_decide; [done|]. apply IH.
Qed.

Lemma scanHost_hostLen q fuel : (String.length q <= fuel)%nat -> scanHost fuel 0 q = hostLen q.
Proof.
  revert fuel. induction q as [|c q IH]; intros [|f] Hl; simpl in *; try done; [lia|].
  case_bool_decide; [done|]. rewrite scanHost_shift, IH; [done|lia].
Qed.

Lemma get_app_length (host r : string) k :
  String.get (String.length host + k)%nat (host +:+ r) = String.get k r.
Proof. rewrite Nat.add_comm, <- String.append_correct2. done. Qed.

Lemma app_nil_l' (t : string) : EmptyString +:+ t = t.
Proof. done. Qed.

Lemma app_cons' c (s t : string) : String c s +:+ t = String c (s +:+ t).
Proof. done. Qed.

Lemma length_app (s t : string) : String.length (s +:+ t) = (String.length s + String.length t)%nat.
Proof. induction s; rewrite ?app_cons'; simpl; auto. Qed.

Lemma hostLen_app host r :
  allIn notBackslash host = true -> hostLen (host +:+ String backslash r) = String.length host.
Proof.
  induction host as [|c host IH]; rewrite ?app_nil_l', ?app_cons'; simpl;
    [done|].
  unfold notBackslash. intros H. apply andb_prop in H as [Hc H].
  rewrite bool_decide_false; [by rewrite IH|]. intros ->. by rewrite bool_decide_true in Hc.
Qed.

Lemma hostLen_split q :
  exists host rest, q = host +:+ rest /\ String.length host = hostLen q /\
    allIn notBackslash host = true /\ (rest = EmptyString \/ exists r, rest = String backslash r).
Proof.
  induction q as [|c q (host & rest & -> & Hl & Ha & Hr)].
  - by exists EmptyString, EmptyString; split_and!; [..|left].
  - simpl. rewrite ?app_cons'. case_bool_decide as Hc.
    + subst c. exists EmptyString, (String backslash (host +:+ rest)).
      split_and!; [done|done|done|right; by eexists].
    + exists (String c host), rest. simpl. unfold notBackslash at 1.
      rewrite bool_decide_false by done. by split_and!; [|rewrite Hl|..].
Qed.


Lemma scanHost_two fuel q :
  (String.length q <= fuel)%nat ->
  scanHost fuel 2 (String backslash (String backslash q)) = S (S (hostLen q)).
Proof. intros Hl. by rewrite !scanHost_shift, scanHost_hostLen. Qed.

Lemma get_after_host (host r : string) :
  String.get (S (String.length host)) (host +:+ r) = String.get 1 r.
Proof. rewrite <- (get_app_length host r 1). f_equal. lia. Qed.


(** ** The synchronous part of a validation *)

Lemma configureCwd_ok file settings o s :
  (forall d, dirExists d = true) ->
  exists o' c, configureCwd file settings o s = (Normal o', setCwd c s).
Proof.
  intros Hd. unfold configureCwd, processChdir, bind, ret.
  repeat (case_match; simplify_eq/=); rewrite ?Hd in *; try discriminate;
    first [by eexists _, _ | by eexists _, (cwd s); rewrite setCwd_id].
Qed.

Abbreviation okStatus s := (setErrs (send (StatusNotification ok) (errs s)) s).

(** The [try] block of a validation of a file: the document's fixes are
    cleared, [deglob] is started, and nothing else changes. *)
Lemma validateTry_file obj document content settings publish f lib opts s :
  (forall d, dirExists d = true) -> getFilePath (uri document) = Some f ->
  library settings = Some lib -> (forall o c, parseOpts lib o c = Normal opts) ->
  exists o' c,
    validateTry obj document content settings publish s =
    (Normal tt, startIO (DeglobDone (mkJob obj document content o' settings lib publish) f
                           (mkDeglobOpts (po_ignore opts) (po_cwd opts) (engine settings)))
                  (setCodeActions (JSMap.delete (uri document) (codeActions s)) (setCwd c s))).
Proof.
  intros Hd Hf Hl Hp. unfold validateTry. cbv zeta. rewrite Hf.
  match goal with |- context [configureCwd ?fl ?st ?o] =>
    destruct (configureCwd_ok fl st o s Hd) as (o' & c & Hc) end.
  exists o', c. unfold bind at 1. rewrite Hc. est_unfold. by rewrite Hl, Hp.
Qed.

(** The [then] callback of [validateSingle] on a file: the [ok] status is
    sent at once, before [deglob] and [lintText] answer. *)
Lemma validateSingleBody_file obj document content settings publish f lib opts s :
  (forall d, dirExists d = true) -> ClientConfig.validate settings = true ->
  getFilePath (uri document) = Some f ->
  library settings = Some lib -> (forall o c, parseOpts lib o c = Normal opts) ->
  exists o',
    validateSingleBody obj document content settings publish s =
    (Normal tt, okStatus (startIO (DeglobDone (mkJob obj document content o' settings lib publish) f
                           (mkDeglobOpts (po_ignore opts) (po_cwd opts) (engine settings)))
                  (setCodeActions (JSMap.delete (uri document) (codeActions s)) s))).
Proof.
  intros Hd Hv Hf Hl Hp.
  destruct (validateTry_file obj document content settings publish f lib opts s Hd Hf Hl Hp)
    as (o' & c & Ht).
  exists o'. unfold validateSingleBody. rewrite Hv. simpl.
  unfold tryCatch, bind at 1. rewrite validate_eq, Ht by done. done.
Qed.

(** [tryHandleMissingModule] adds at most a console error to the outbox
    and never touches [noConfigReported]. *)
Definition isConsoleError (o : Outbound) : Prop :=
  match o with ConsoleError _ => True | _ => False end.

Lemma tryHandleMissingModule_outbox e u lib st r st' :
  tryHandleMissingModule getFilePath e u lib st = Some (r, st') ->
  (exists extra, outbox st' = outbox st ++ extra /\ Forall isConsoleError extra) /\
  noConfigReported st' = noConfigReported st.
Proof.
  unfold tryHandleMissingModule. intros H.
  repeat case_match; simplify_eq/=; split; try done;
    (exists []; by rewrite app_nil_r) || (eexists; split; [done|by repeat constructor]).
Qed.


(** The validation of a file, as one step of the event loop. *)
Lemma validate_file_step obj o settings publish f lib opts s :
  (forall d, dirExists d = true) -> ClientConfig.validate settings = true ->
  JSMap.get obj (heap s) = Some o -> getFilePath (d_uri o) = Some f -> library settings = Some lib ->
  (forall o1 c, parseOpts lib o1 c = Normal opts) -> ticks s = [] ->
  exists o',
    vstep s (okStatus (startIO (DeglobDone (mkJob obj (docOf o) (d_text o) o' settings lib publish) f
                                  (mkDeglobOpts (po_ignore opts) (po_cwd opts) (engine settings)))
                         (setCodeActions (JSMap.delete (d_uri o) (codeActions s)) s))).
Proof.
  intros Hd Hv Ho Hf Hl Hp Ht.
  destruct (validateSingleBody_file obj (docOf o) (d_text o) settings publish f lib opts s Hd Hv Hf Hl Hp)
    as [o' Hb].
  exists o'. pose proof (VValidate obj o settings publish s Ht Ho) as Hs.
  rewrite Hb in Hs. exact Hs.
Qed.

(** The validation of a file followed by its [deglob] callback. *)
Lemma validate_deglob_steps obj o settings publish f lib opts s :
  (forall d, dirExists d = true) -> ClientConfig.validate settings = true ->
  JSMap.get obj (heap s) = Some o -> getFilePath (d_uri o) = Some f -> library settings = Some lib ->
  (forall o1 c, parseOpts lib o1 c = Normal opts) -> ticks s = [] ->
  exists o',
    rtc vstep s (finish (deglobDone (mkJob obj (docOf o) (d_text o) o' settings lib publish) f
                   (mkDeglobOpts (po_ignore opts) (po_cwd opts) (engine settings))
                   (okStatus (setCodeActions (JSMap.delete (d_uri o) (codeActions s)) s)))).
Proof.
  intros Hd Hv Ho Hf Hl Hp Ht.
  destruct (validate_file_step obj o settings publish f lib opts s Hd Hv Ho Hf Hl Hp Ht) as [o' Hs].
  exists o'. eapply rtc_l; [apply Hs|].
  eapply rtc_l; [eapply (VIO _ (io s) []); simpl; [done|reflexivity]|].
  destruct s; simpl in *; subst. rewrite app_nil_r. apply rtc_refl.
Qed.


(** ** Properties *)

(** C5: [validate] restores the process's working directory on every path:
    whatever the [try] block did (a [process.chdir] into the configured
    directory, or an exception after it), the [finally] block puts back the
    directory of the call's start, and the completion of the [try] block,
    an exception included, is that of [validate]. *)
Theorem validate_restores_cwd obj document content settings publish s :
  dirExists (cwd s) = true ->
  cwd (validate obj document content settings publish s).2 = cwd s /\
  (validate obj document content settings publish s).1 = (validateTry obj document content settings publish s).1.
Proof. intros Hd. by rewrite validate_eq. Qed.

(** C6: In every state the server reaches from a start without pending
    ticks, the process's working directory is the one of the start, and
    every pending [lintText] callback carries the report [lintText] gave in
    that directory: the [process.chdir] of [changeProcessCWD] is undone
    before the asynchronous lint runs. *)
Theorem lintText_in_initial_cwd s0 s :
  dirExists (cwd s0) = true -> ticks s0 = [] -> rtc vstep s0 s ->
  cwd s = cwd s0 /\ Forall (lintAt (cwd s0)) (ticks s).
Proof.
  intros Hd Ht0 Hr. apply (rtc_vstep_inv _ s0); [done|done|done|by rewrite Ht0].
Qed.

(** C8: When the configured working directory asks for [changeProcessCWD]
    and does not exist, [process.chdir] throws inside [validate]: the
    [finally] block finds the directory unchanged, and the error goes to
    the [catch] block of [validateSingle] with the state of the call's
    start (no fix cleared, no [deglob] started, no [ok] status). *)
Theorem validateSingle_chdir_fails obj document content settings publish f d s :
  ClientConfig.validate settings = true -> getFilePath (uri document) = Some f ->
  workingDirectory settings = Some (mkDirectoryItem d true) -> dirExists d = false ->
  validateSingleBody obj document content settings publish s =
  validateSingleCatch document settings (chdirError (cwd s) d) s.
Proof.
  intros Hv Hf Hw Hd. unfold validateSingleBody. rewrite Hv. simpl.
  unfold tryCatch, validate, validateTry, tryFinally, restoreCwd. cbv zeta. rewrite Hf.
  unfold configureCwd. rewrite Hw. simpl. unfold processChdir. rewrite Hd.
  unfold bind, gets. simpl. by rewrite bool_decide_true.
Qed.

(** C9: An error the linter reports through the [lintText] callback never
    reaches the handler chain: only [tryHandleMissingModule] sees it, so
    the outbox gains at most a console error (no status notification, no
    no-config request), [noConfigReported] is unchanged, and neither the
    fixes nor the published diagnostics change; the [ok] status sent by
    [validateSingle] stands. *)
Theorem lintText_error_no_status j e s :
  let s' := finish (runTask (LintDone j (Throw e)) s) in
  (exists extra, outbox (errs s') = outbox (errs s) ++ extra /\ Forall isConsoleError extra) /\
  noConfigReported (errs s') = noConfigReported (errs s) /\
  codeActions s' = codeActions s /\ published s' = published s.
Proof.
  simpl. unfold lintDone.
  destruct (tryHandleMissingModule _ _ _ _ _) as [[r es]|] eqn:E; simpl.
  - apply tryHandleMissingModule_outbox in E as [Ho Hn]. by split_and!.
  - split_and!; [exists []; by rewrite app_nil_r|done..].
Qed.

(** C22: Run without interleaving, the asynchronous pipeline refines the
    atomic validation step of [Diagnostics]: [validateSingle] on a file
    the ignore patterns keep, followed by the [deglob] and [lintText]
    callbacks, leaves the fixes and published diagnostics that
    [runValidation] computes from the report on the document's text, with
    one [ok] status, the working directory, the console, the pending I/O
    and the document objects of the start. *)
Theorem validation_refines_runValidation obj o settings (publish : bool) f f' lib opts report s :
  (forall d, dirExists d = true) -> ClientConfig.validate settings = true ->
  JSMap.get obj (heap s) = Some o -> getFilePath (d_uri o) = Some f -> library settings = Some lib ->
  (forall o1 c, parseOpts lib o1 c = Normal opts) -> (forall o1, deglob [f] o1 = Normal [f']) ->
  (forall o1, lintText lib (d_text o) o1 (cwd s) = Normal (Some report)) -> ticks s = [] ->
  let r := runValidation (autoFix settings) (engine settings) (docOf o)
             (reportMessages (Some report)) (codeActions s) in
  exists s', rtc vstep s s' /\
    codeActions s' = r.2 /\
    published s' = (if publish then JSMap.set (d_uri o) r.1 (published s) else published s) /\
    outbox (errs s') = outbox (errs s) ++ [StatusNotification ok] /\
    cwd s' = cwd s /\ ticks s' = [] /\ io s' = io s /\ console s' = console s /\ heap s' = heap s.
Proof.
  intros Hd Hv Ho Hf Hl Hp Hg Hlint Ht r.
  destruct (validate_deglob_steps obj o settings publish f lib opts s Hd Hv Ho Hf Hl Hp Ht)
    as [o' Hsteps].
  unfold deglobDone in Hsteps. rewrite Hg in Hsteps. simpl in Hsteps.
  rewrite Hlint in Hsteps. destruct s; simpl in *; subst.
  eexists. split.
  { eapply rtc_trans; [apply Hsteps|]. eapply rtc_l; [by eapply VTick|]. apply rtc_refl. }
  unfold r, runValidation. simpl. unfold liveDocument. simpl. rewrite Ho.
  destruct (convertMessages _ _ _ _ _) as [diags ca].
  by destruct publish; simpl; split_and!.
Qed.


(** C30: A file the ignore patterns exclude is not re-linted, but its
    earlier fixes are already cleared and the [ok] status already sent;
    the diagnostics published before stay on the document, and the console
    logs "<file> ignored.". *)
Theorem validation_ignored_file obj o settings (publish : bool) f files lib opts s :
  (forall d, dirExists d = true) -> ClientConfig.validate settings = true ->
  JSMap.get obj (heap s) = Some o -> getFilePath (d_uri o) = Some f -> library settings = Some lib ->
  (forall o1 c, parseOpts lib o1 c = Normal opts) -> (forall o1, deglob [f] o1 = Normal files) ->
  length files <> 1%nat -> ticks s = [] ->
  exists s', rtc vstep s s' /\
    codeActions s' = JSMap.delete (d_uri o) (codeActions s) /\
    published s' = published s /\
    outbox (errs s') = outbox (errs s) ++ [StatusNotification ok] /\
    console s' = console s ++ [LogString (f +:+ " ignored.")] /\ ticks s' = [].
Proof.
  intros Hd Hv Ho Hf Hl Hp Hg Hn Ht.
  destruct (validate_deglob_steps obj o settings publish f lib opts s Hd Hv Ho Hf Hl Hp Ht)
    as [o' Hsteps].
  unfold deglobDone in Hsteps. rewrite Hg in Hsteps.
  apply Nat.eqb_neq in Hn. rewrite Hn in Hsteps.
  eexists. split; [apply Hsteps|]. by simpl; split_and!.
Qed.

(** C16: [isUNC] is the test its comment describes: on Windows it holds
    exactly of the paths of the form [\\hostname\sharename] (a non-empty
    host name without a backslash, a share name not starting with one);
    elsewhere it never holds. *)
Theorem isUNC_spec p : isUNC p = true <-> win32 = true /\ uncPattern p.
Proof.
  unfold isUNC, uncPattern. split.
  - destruct win32; simpl; [|done].
    destruct (Nat.ltb_spec (String.length p) 5) as [|Hlen]; [done|].
    destruct p as [|a [|b q]]; simpl in Hlen; [lia|lia|]. unfold charIs. cbn [String.get].
    case_bool_decide as Ha; [|done]. case_bool_decide as Hb; [|done]. cbn [negb]. subst a b.
    rewrite scanHost_two by (simpl; lia).
    destruct (hostLen_split q) as (host & rest & -> & Hl & Hh & Hr). rewrite <- Hl.
    destruct (String.length host) as [|n] eqn:En; [done|]. simpl. rewrite <- En, get_after_host.
    destruct Hr as [->|[r ->]]; [done|]. destruct r as [|c r]; [done|]. simpl.
    case_bool_decide as Hc; [done|]. intros _. split; [done|].
    exists host, c, r. split_and!; [by intros ->|done|done|done].
  - intros [-> (host & c & rest & Hne & Hh & Hc & ->)]. cbn [negb].
    assert (String.length host <> 0%nat) by (by destruct host).
    rewrite scanHost_two by (simpl; rewrite length_app; simpl; lia).
    rewrite hostLen_app by done.
    unfold charIs. cbn [String.get String.length]. rewrite length_app. cbn [String.length].
    destruct (Nat.ltb_spec (S (S (String.length host + S (S (String.length rest))))) 5); [lia|].
    rewrite !bool_decide_true by done. cbn [negb].
    destruct (String.length host) as [|n] eqn:En; [done|]. cbn [Nat.eqb].
    cbn [String.get]. rewrite <- En, get_after_host. cbn [String.get].
    by rewrite bool_decide_false.
Qed.

End Pipeline.

(** ** Witnesses

    A document [/w/sub/a.js] whose settings name [/w/sub] as working
    directory with [changeProcessCWD]; the server process runs in [/].  The
    linter finds its configuration, and the missing semicolon, only when
    the process runs in [/w/sub]. *)

Definition exUri : string := "file:///w/sub/a.js".
Definition exParseUri (u : string) : Uri :=
  if bool_decide (u = exUri) then mkUri "file" "/w/sub/a.js" u else mkUri "untitled" u u.
Definition exDirname (_ : string) : string := "/w/sub".
Definition exIsAbsolute (_ : string) : bool := true.
Definition exDirExists (d : string) : bool := bool_decide (d = "/" \/ d = "/w/sub").
Definition exChdirError (c d : string) : LintError :=
  mkLintError None (Some ("ENOENT: no such file or directory, chdir " +:+ c +:+ " -> " +:+ d)).
Definition exParseOpts (_ : Library) (_ : list (string * JValue)) (_ : string) : outcome ParsedOpts :=
  Normal (mkParsedOpts [] "/w").
Definition exDeglob (fs : list string) (_ : DeglobOpts) : outcome (list string) := Normal fs.
Definition exProblem : Problem :=
  mkProblem 1 6 None None 2 (Some "semi") "Missing semicolon." (Some (mkEdit 5 5 (Some ";"))).
Definition exLintText (_ : Library) (_ : string) (_ : list (string * JValue)) (c : string)
    : outcome Report :=
  if bool_decide (c = "/w/sub") then Normal (Some [mkDocReport (Some [Some exProblem])])
  else Normal (Some [mkDocReport (Some [])]).
Definition exLib : Library := mkLibrary "/w/node_modules/standard/index.js" true.
Definition exSettings (wd : option DirectoryItem) : Settings :=
  mkSettings true true false "standard" false [] "onType" None wd None (Some exLib).
Definition exObj : DocObj := mkDocObj exUri 1 "var a".
Definition exDoc : TextDocument := docOf exObj.
Definition exProc : Proc :=
  mkProc "/" [] [] (mkErrState (Live []) [] (Live []) []) [] [] [] [(0%nat, exObj)].

Abbreviation exStep dirExists :=
  (vstep false exParseUri exDirname exIsAbsolute dirExists exChdirError exParseOpts exDeglob
     exLintText (fun f => "file://" +:+ f) []).

Definition exAfterDeglob : Proc :=
  finish (runTask exParseUri exDeglob exLintText
            (DeglobDone (mkJob 0 exDoc "var a" [("filename", JStr exUri); ("cwd", JStr "/w/sub")]
                           (exSettings (Some (mkDirectoryItem "/w/sub" true))) exLib true)
               "/w/sub/a.js" (mkDeglobOpts [] "/w" "standard"))
            (setErrs (send (StatusNotification ok) (errs exProc))
               (setCodeActions [] exProc))).

Lemma exAfterDeglob_reachable : rtc (exStep exDirExists) exProc exAfterDeglob.
Proof.
  eapply rtc_l; [apply (VValidate _ _ _ _ _ _ _ _ _ _ _ 0 exObj
                   (exSettings (Some (mkDirectoryItem "/w/sub" true))) true); reflexivity|].
  eapply rtc_l; [eapply (VIO _ _ _ _ _ _ _ _ _ _ _ _ [] []); reflexivity|].
  apply rtc_refl.
Qed.


Definition exWD : Settings := exSettings (Some (mkDirectoryItem "/w/sub" true)).
Definition exMissingWD : Settings := exSettings (Some (mkDirectoryItem "/w/missing" true)).
Definition exTotal (_ : string) : bool := true.
Definition exIgnore (_ : list string) (_ : DeglobOpts) : outcome (list string) := Normal [].

(** A linter that finds the missing semicolon of ["var a"] and of
    ["var bb"] and nothing in any other text. *)
Definition exProblemBB : Problem :=
  mkProblem 1 7 None None 2 (Some "semi") "Missing semicolon." (Some (mkEdit 6 6 (Some ";"))).
Definition exLintByText (_ : Library) (content : string) (_ : list (string * JValue)) (_ : string)
    : outcome Report :=
  if bool_decide (content = "var a") then Normal (Some [mkDocReport (Some [Some exProblem])])
  else if bool_decide (content = "var bb") then Normal (Some [mkDocReport (Some [Some exProblemBB])])
  else Normal (Some [mkDocReport (Some [])]).

Abbreviation exRace :=
  (vstep false exParseUri exDirname exIsAbsolute exTotal exChdirError exParseOpts exDeglob
     exLintByText (fun f => "file://" +:+ f) []).

Lemma validate_restores_cwd_witness :
  exDirExists (cwd exProc) = true /\
  cwd (validate false exParseUri exDirname exIsAbsolute exDirExists exChdirError exParseOpts
         exLintText 0 exDoc "var a" exWD true exProc).2 = cwd exProc /\
  (validate false exParseUri exDirname exIsAbsolute exDirExists exChdirError exParseOpts
     exLintText 0 exDoc "var a" exWD true exProc).1 =
  (validateTry false exParseUri exDirname exIsAbsolute exDirExists exChdirError exParseOpts
     exLintText 0 exDoc "var a" exWD true exProc).1.
Proof. split; [reflexivity|]. apply validate_restores_cwd. reflexivity. Defined.

Lemma lintText_in_initial_cwd_witness :
  exDirExists (cwd exProc) = true /\ ticks exProc = [] /\
  rtc (exStep exDirExists) exProc exAfterDeglob /\
  (cwd exAfterDeglob = cwd exProc /\ Forall (lintAt exLintText (cwd exProc)) (ticks exAfterDeglob)).
Proof.
  split; [reflexivity|]. split; [reflexivity|]. split; [apply exAfterDeglob_reachable|].
  apply (lintText_in_initial_cwd false exParseUri exDirname exIsAbsolute exDirExists exChdirError
           exParseOpts exDeglob exLintText (fun f => "file://" +:+ f) []);
    [reflexivity|reflexivity|apply exAfterDeglob_reachable].
Defined.

Lemma validateSingle_chdir_fails_witness :
  ClientConfig.validate exMissingWD = true /\
  getFilePath exParseUri (uri exDoc) = Some "/w/sub/a.js" /\
  workingDirectory exMissingWD = Some (mkDirectoryItem "/w/missing" true) /\
  exDirExists "/w/missing" = false /\
  validateSingleBody false exParseUri exDirname exIsAbsolute exDirExists exChdirError exParseOpts
    exLintText (fun f => "file://" +:+ f) [] 0 exDoc "var a" exMissingWD true exProc =
  validateSingleCatch exParseUri (fun f => "file://" +:+ f) [] exDoc exMissingWD
    (exChdirError (cwd exProc) "/w/missing") exProc.
Proof.
  do 4 (split; [reflexivity|]).
  apply (validateSingle_chdir_fails _ _ _ _ _ _ _ _ _ _ _ _ _ _ _ "/w/sub/a.js");
    [reflexivity|vm_compute; reflexivity|reflexivity|reflexivity].
Defined.

Lemma validation_refines_runValidation_witness :
  (forall d, exTotal d = true) /\ ticks exProc = [] /\
  let r := runValidation (autoFix exWD) (engine exWD) exDoc
             (reportMessages (Some [mkDocReport (Some [])])) (codeActions exProc) in
  exists s', rtc (exStep exTotal) exProc s' /\
    codeActions s' = r.2 /\ published s' = JSMap.set (uri exDoc) r.1 (published exProc) /\
    outbox (errs s') = outbox (errs exProc) ++ [StatusNotification ok] /\
    cwd s' = cwd exProc /\ ticks s' = [] /\ io s' = io exProc /\ console s' = console exProc /\
    heap s' = heap exProc.
Proof.
  split; [reflexivity|]. split; [reflexivity|].
  apply (validation_refines_runValidation false exParseUri exDirname exIsAbsolute exTotal
           exChdirError exParseOpts exDeglob exLintText (fun f => "file://" +:+ f) [] 0 exObj
           exWD true "/w/sub/a.js" "/w/sub/a.js" exLib (mkParsedOpts [] "/w"));
    [reflexivity|reflexivity|reflexivity|vm_compute; reflexivity|reflexivity|reflexivity|
     reflexivity|reflexivity|reflexivity].
Defined.


Lemma validation_ignored_file_witness :
  (forall d, exTotal d = true) /\ length (@nil string) <> 1%nat /\
  exists s', rtc (vstep false exParseUri exDirname exIsAbsolute exTotal exChdirError exParseOpts
                    exIgnore exLintText (fun f => "file://" +:+ f) []) exProc s' /\
    codeActions s' = JSMap.delete (uri exDoc) (codeActions exProc) /\
    published s' = published exProc /\
    outbox (errs s') = outbox (errs exProc) ++ [StatusNotification ok] /\
    console s' = console exProc ++ [LogString ("/w/sub/a.js" +:+ " ignored.")] /\ ticks s' = [].
Proof.
  split; [reflexivity|]. split; [simpl; lia|].
  apply (validation_ignored_file false exParseUri exDirname exIsAbsolute exTotal exChdirError
           exParseOpts exIgnore exLintText (fun f => "file://" +:+ f) [] 0 exObj exWD true
           "/w/sub/a.js" [] exLib (mkParsedOpts [] "/w"));
    [reflexivity|reflexivity|reflexivity|vm_compute; reflexivity|reflexivity|reflexivity|
     reflexivity|simpl; lia|reflexivity].
Defined.


(** C38: Two validations of one document in flight merge their fixes.
    The first waterfall step clears the document's fixes when [validate]
    is called, not when the report is recorded: the document ["var a"]
    (version 1) is validated, changed to ["var bb"] (version 2) and
    validated again before either [deglob] answers; both reports are then
    recorded for version 2 into the same map.  [getFixes] for the live
    document returns the insertion computed for ["var a"] together with
    the one for ["var bb"], which turn the text into ["var b;b;"]. *)
Example overlapping_validations_merge_fixes :
  exists s, rtc exRace exProc s /\
    JSMap.get 0%nat (heap s) = Some (mkDocObj exUri 2 "var bb") /\
    CodeActions.getFixes (mkTextDocument exUri 2) (CodeActions.mkCAState (codeActions s) [] None) =
      [CodeActions.mkTextEdit 5 5 ";"; CodeActions.mkTextEdit 6 6 ";"].
Proof.
  eexists. split.
  - eapply rtc_l; [apply (VValidate _ _ _ _ _ _ _ _ _ _ _ 0 exObj exWD true); reflexivity|].
    eapply rtc_l; [apply (VChange _ _ _ _ _ _ _ _ _ _ _ 0 exObj 2 "var bb"); reflexivity|].
    eapply rtc_l; [apply (VValidate _ _ _ _ _ _ _ _ _ _ _ 0 (mkDocObj exUri 2 "var bb") exWD true);
                   reflexivity|].
    eapply rtc_l; [eapply (VIO _ _ _ _ _ _ _ _ _ _ _ _ [] [_]); reflexivity|].
    eapply rtc_l; [eapply VTick; reflexivity|].
    eapply rtc_l; [eapply (VIO _ _ _ _ _ _ _ _ _ _ _ _ [] []); reflexivity|].
    eapply rtc_l; [eapply VTick; reflexivity|]. apply rtc_refl.
  - vm_compute. split; reflexivity.
Qed.

End Validate.
