(* ===== verification/Session.v ===== *)
(** * The session: the server's document lifecycle as an event loop

    server.js lines 387-478 and 517-548 wire the components together: the
    host's document events ([documents.onDidOpen], [onDidChangeContent],
    [onDidSave], [onDidClose]) each call [resolveSettings(document).then(cb)];
    the callbacks queue a [standard/validate] notification on the message
    queue; the queue's handler [validateSingle] resolves the settings again
    and validates in a [then] callback; [environmentChanged] (on a
    configuration change, through the queue) clears the settings cache and
    queues every open document.

    The state is a world of the message queue ([MessageQueue]) and a
    [Server] record: the document manager's map from URI to document object
    and the objects themselves ([heap]: vscode-languageserver's
    [TextDocuments] updates an object in place on a change and creates a new
    one on open, and a queued notification holds the object, so the model
    keeps the aliasing), the settings resolver of [Settings], the [then]
    callbacks waiting on a pending promise, the JavaScript microtask queue,
    [codeActions] and the diagnostics last published per URI.

    [step] is the event loop: a host event, a client answer to a
    configuration request or a [setImmediate] tick is a macrotask and runs
    only when the microtask queue is empty; a microtask runs a [then]
    callback.  [validate] runs as one step (its [deglob] and [lintText]
    callbacks are taken to complete before any other event:
    [Validate.validation_refines_runValidation] shows that the pipeline,
    run without interleaving, has exactly this effect, and
    [Validate.change_during_deglob_restamps] what a change arriving in
    between does, which this model does not show); the linter,
    module resolution, URI parsing and the client's path functions are
    Section parameters. *)

From Stdlib Require Import ZArith Lia.
From stdpp Require Import base list sets strings relations.
From S2P Require Import Prelude Diagnostics Fixes CodeActions ClientConfig Settings MessageQueue.
Import Diagnostics ClientConfig Settings MessageQueue.

Module Session.

(** ** State *)

(** A [then] callback, with the document object its event captured. *)
Inductive Reaction :=
| OnOpen (d : nat)
| OnChange (d : nat)
| OnSave (d : nat)
| OnClose (d : nat)
| OnValidate (d : nat) (publishDiagnostics : bool)
| OnWillSave (d : nat)
| OnValidateForSave (d : nat)
| OnRespondFixes (d : nat).

(** [TextDocumentSaveReason]. *)
Inductive SaveReason := Manual | AfterDelay | FocusOut.

Record Server := mkServer {
  documents : list (string * nat);
  heap : list (nat * DocObj);
  nextObj : nat;
  resolver : ResolverState;
  promiseDoc : list (nat * string);
  reactions : list (nat * Reaction);
  microtasks : list (Reaction * Settings);
  codeActions : CodeActionStore;
  published : list (string * list Diagnostic);
  willSaveResponses : list (string * list CodeActions.TextEdit)
}.

Definition World : Type := QState nat unit * Server.

Definition validateMethod : string := "standard/validate".
Definition configMethod : string := "workspace/didChangeConfiguration".

Definition setResolver (r : ResolverState) (pd : list (nat * string)) (s : Server) : Server :=
  mkServer (documents s) (heap s) (nextObj s) r pd (reactions s) (microtasks s)
    (codeActions s) (published s) (willSaveResponses s).

Definition setTasks (rs : list (nat * Reaction)) (ms : list (Reaction * Settings)) (s : Server)
    : Server :=
  mkServer (documents s) (heap s) (nextObj s) (resolver s) (promiseDoc s) rs ms
    (codeActions s) (published s) (willSaveResponses s).

Definition setDocs (ds : list (string * nat)) (h : list (nat * DocObj)) (n : nat) (s : Server)
    : Server :=
  mkServer ds h n (resolver s) (promiseDoc s) (reactions s) (microtasks s)
    (codeActions s) (published s) (willSaveResponses s).

Definition setStore (ca : CodeActionStore) (pub : list (string * list Diagnostic)) (s : Server)
    : Server :=
  mkServer (documents s) (heap s) (nextObj s) (resolver s) (promiseDoc s) (reactions s)
    (microtasks s) ca pub (willSaveResponses s).

(** The will-save handler answers the host. *)
Definition respond (u : string) (edits : list CodeActions.TextEdit) (s : Server) : Server :=
  mkServer (documents s) (heap s) (nextObj s) (resolver s) (promiseDoc s) (reactions s)
    (microtasks s) (codeActions s) (published s) (willSaveResponses s ++ [(u, edits)]).

(** [document.version] of an object. *)
Definition docVersion (s : Server) (d : nat) : option Z := d_version <$> JSMap.get d (heap s).

(** The settings [resolveSettings] would hand to a callback now: those of
    the cached promise of the URI, once resolved. *)
Definition settingsOf (s : Server) (u : string) : option Settings :=
  match JSMap.get u (document2Settings (resolver s)) ≫= fun p => JSMap.get p (promises (resolver s)) with
  | Some (Resolved st) => Some st
  | _ => None
  end.

(** The state the code-action handlers and [getFixes] read. *)
Definition caState (s : Server) : CodeActions.CAState :=
  CodeActions.mkCAState (codeActions s)
    (omap (fun e => (fun o => (e.1, mkTextDocument (d_uri o) (d_version o))) <$> JSMap.get e.2 (heap s))
       (documents s)) None.

(** ** Operations *)

(** [resolveSettings(document).then(r)]: the callback becomes a microtask
    at once on a resolved promise, waits on a pending one, and never runs
    on a rejected one.  A new promise remembers the URI it asks about. *)
Definition resolveThen (d : nat) (r : Reaction) (s : Server) : Server :=
  match JSMap.get d (heap s) with
  | None => s
  | Some o =>
      let u := d_uri o in
      let pd := match JSMap.get u (document2Settings (resolver s)) with
                | Some _ => promiseDoc s
                | None => JSMap.set (nextPromise (resolver s)) u (promiseDoc s)
                end in
      let '(p, res) := resolveSettings u (resolver s) in
      let s1 := setResolver res pd s in
      match JSMap.get p (promises res) with
      | Some (Resolved st) => setTasks (reactions s1) (microtasks s1 ++ [(r, st)]) s1
      | Some Pending => setTasks (reactions s1 ++ [(p, r)]) (microtasks s1) s1
      | _ => s1
      end
  end.

(** [validateSingle(document, publishDiagnostics)] up to its [then]. *)
Definition validateSingle (d : nat) (publish : bool) (w : World) : World :=
  let '(q, s) := w in
  match JSMap.get d (heap s) with
  | Some o => if JSMap.has (d_uri o) (documents s) then (q, resolveThen d (OnValidate d publish) s)
              else w
  | None => w
  end.

(** [environmentChanged()] (lines 473-478). *)
Definition environmentChanged (w : World) : World :=
  let '(q, s) := w in
  fold_left (fun w' (e : string * nat) =>
               addNotificationMessage validateMethod e.2 (docVersion s e.2) w')
    (documents s) (q, setResolver (clearSettings (resolver s)) (promiseDoc s) s).

(** The handlers the server registers on the queue (lines 392-396 and
    505-507). *)
#[export] Instance sessionHandlers : Handlers Server nat unit :=
  {| requestHandlers := fun _ => None;
     notificationHandlers := fun m =>
       if decide (m = validateMethod) then
         Some {| nt_handler := fun d w => validateSingle d true w;
                 nt_versionProvider := Some (fun d s => docVersion s d) |}
       else if decide (m = configMethod) then
         Some {| nt_handler := fun _ w => environmentChanged w; nt_versionProvider := None |}
       else None |}.

Section Session.
Context (lint : string -> list (option Problem))
  (filesResolve : string -> option string -> option string -> option string)
  (requireLibrary : string -> Library) (parseUri : string -> Uri) (dirname : string -> string)
  (isAbsolute : string -> bool) (pathJoin : string -> string -> string).

(** The [then] callback of [validateSingle] (lines 523-542): [validate]
    on the captured object, without a thrown error. *)
Definition validateNow (d : nat) (publish : bool) (st : Settings) (w : World) : World :=
  let '(q, s) := w in
  if negb (validate st) then w
  else match JSMap.get d (heap s) with
       | Some o =>
           let '(diagnostics, ca) :=
             runValidation (autoFix st) (engine st) (mkTextDocument (d_uri o) (d_version o))
               (lint (d_text o)) (codeActions s) in
           (q, setStore ca (if publish then JSMap.set (d_uri o) diagnostics (published s)
                            else published s) s)
       | None => w
       end.

(** [validateSingle(document, false).then(() => getFixes(document))] of
    the will-save handler: the answer follows the validation callback, or
    comes at once when the document is no longer open. *)
Definition validateForSave (d : nat) (st : Settings) (w : World) : World :=
  let '(q, s) := w in
  match JSMap.get d (heap s) with
  | Some o =>
      if JSMap.has (d_uri o) (documents s) then (q, resolveThen d (OnValidateForSave d) s)
      else (q, setTasks (reactions s) (microtasks s ++ [(OnRespondFixes d, st)]) s)
  | None => w
  end.

(** The [then] callbacks of lines 401-408, 412-417, 439-452, 456-461,
    464-471 and 523-542. *)
Definition runReaction (r : Reaction) (st : Settings) (w : World) : World :=
  let '(q, s) := w in
  match r with
  | OnOpen d =>
      if validate st && bool_decide (run st = "onSave")
      then addNotificationMessage validateMethod d (docVersion s d) w else w
  | OnChange d =>
      if validate st && bool_decide (run st = "onType")
      then addNotificationMessage validateMethod d (docVersion s d) w else w
  | OnSave d =>
      if validate st && bool_decide (run st = "onSave")
      then addNotificationMessage validateMethod d (docVersion s d) w else w
  | OnClose d =>
      match JSMap.get d (heap s) with
      | Some o =>
          let u := d_uri o in
          (q, setStore (JSMap.delete u (codeActions s))
                (if validate st then JSMap.set u [] (published s) else published s)
                (setResolver (deleteSettings u (resolver s)) (promiseDoc s) s))
      | None => w
      end
  | OnValidate d publish => validateNow d publish st w
  | OnWillSave d =>
      match JSMap.get d (heap s) with
      | Some o =>
          if negb (autoFixOnSave st) then (q, respond (d_uri o) [] s)
          else if bool_decide (run st = "onSave") then validateForSave d st w
          else (q, respond (d_uri o)
                     (CodeActions.getFixes (mkTextDocument (d_uri o) (d_version o)) (caState s)) s)
      | None => w
      end
  | OnValidateForSave d =>
      let '(q1, s1) := validateNow d false st w in
      (q1, setTasks (reactions s1) (microtasks s1 ++ [(OnRespondFixes d, st)]) s1)
  | OnRespondFixes d =>
      match JSMap.get d (heap s) with
      | Some o =>
          (q, respond (d_uri o)
                (CodeActions.getFixes (mkTextDocument (d_uri o) (d_version o)) (caState s)) s)
      | None => w
      end
  end.

(** One microtask: the oldest ready callback. *)
Definition runMicrotask (w : World) : World :=
  let '(q, s) := w in
  match microtasks s with
  | (r, st) :: rest => runReaction r st (q, setTasks (reactions s) rest s)
  | [] => w
  end.

(** [TextDocuments] on [didOpen]: a new object, then [onDidOpen] and
    [onDidChangeContent]. *)
Definition hostOpen (u : string) (v : Z) (t : string) (w : World) : World :=
  let '(q, s) := w in
  let d := nextObj s in
  let s1 := setDocs (JSMap.set u d (documents s)) (JSMap.set d (mkDocObj u v t) (heap s)) (S d) s in
  (q, resolveThen d (OnChange d) (resolveThen d (OnOpen d) s1)).

(** [TextDocuments] on [didChange]: the object is updated in place. *)
Definition hostChange (u : string) (v : Z) (t : string) (w : World) : World :=
  let '(q, s) := w in
  match JSMap.get u (documents s) with
  | Some d =>
      (q, resolveThen d (OnChange d)
            (setDocs (documents s) (JSMap.set d (mkDocObj u v t) (heap s)) (nextObj s) s))
  | None => w
  end.

Definition hostSave (u : string) (w : World) : World :=
  let '(q, s) := w in
  match JSMap.get u (documents s) with
  | Some d => (q, resolveThen d (OnSave d) s)
  | None => w
  end.

(** [documents.onWillSaveWaitUntil] (lines 434-453). *)
Definition hostWillSave (reason : SaveReason) (u : string) (w : World) : World :=
  let '(q, s) := w in
  match JSMap.get u (documents s) with
  | Some d =>
      match reason with
      | AfterDelay => (q, respond u [] s)
      | _ => (q, resolveThen d (OnWillSave d) s)
      end
  | None => w
  end.

(** [TextDocuments] on [didClose]: the URI leaves the manager, the object
    stays reachable from queued items. *)
Definition hostClose (u : string) (w : World) : World :=
  let '(q, s) := w in
  match JSMap.get u (documents s) with
  | Some d =>
      (q, resolveThen d (OnClose d)
            (setDocs (JSMap.delete u (documents s)) (heap s) (nextObj s) s))
  | None => w
  end.

(** The client's answer to the configuration request of promise [p]: the
    settings its middleware builds, then [settle]; the callbacks waiting
    on [p] become microtasks in the order they were attached. *)
Definition clientAnswers (p : nat) (config : StandardConfig) (synced : option ClientDocument)
    (folder : option HostFolder) (read : PackageRead) (w : World) : World :=
  let '(q, s) := w in
  match JSMap.get p (promiseDoc s) with
  | Some u =>
      let res := settle filesResolve requireLibrary p (configurationItem isAbsolute pathJoin config synced folder) read
                   (parseUri u) dirname (resolver s) in
      let mine := filter (fun pr : nat * Reaction => pr.1 = p) (reactions s) in
      let others := filter (fun pr : nat * Reaction => pr.1 <> p) (reactions s) in
      let ready := match JSMap.get p (promises res) with
                   | Some (Resolved st) => map (fun pr => (pr.2, st)) mine
                   | _ => []
                   end in
      (q, setTasks others (microtasks s ++ ready) (setResolver res (promiseDoc s) s))
  | None => w
  end.

(** The event loop. *)
Inductive step : World -> World -> Prop :=
| StepOpen u v t w : microtasks w.2 = [] -> step w (hostOpen u v t w)
| StepChange u v t w : microtasks w.2 = [] -> step w (hostChange u v t w)
| StepSave u w : microtasks w.2 = [] -> step w (hostSave u w)
| StepClose u w : microtasks w.2 = [] -> step w (hostClose u w)
| StepWillSave reason u w : microtasks w.2 = [] -> step w (hostWillSave reason u w)
| StepConfig w : microtasks w.2 = [] -> step w (onNotification configMethod 0%nat w)
| StepAnswer p config synced folder read w :
    microtasks w.2 = [] -> JSMap.get p (promises (resolver w.2)) = Some Pending ->
    step w (clientAnswers p config synced folder read w)
| StepTick w w' : microtasks w.2 = [] -> timer w.1 = true -> tick w = Some w' -> step w w'
| StepMicrotask w : microtasks w.2 <> [] -> step w (runMicrotask w).

End Session.

(** The server after [listen]: nothing open, the queue idle. *)
Definition init : World :=
  (mkQState [] false [] [],
   mkServer [] [] 0 (mkResolverState [] [] [] None 0 []) [] [] [] [] [] []).

End Session.
