(* ===== verification/SessionProps.v ===== *)
(** * An interleaving of the session: close and re-open with a validation
      in flight

    A concrete run of the event loop [Session.step]: a document is opened,
    a validation is queued, the document is closed and re-opened at the
    same version with another text, and the queued validation then runs on
    the old object.  The will-save handler answers with the fix computed
    for the old text. *)

From Stdlib Require Import ZArith Lia.
From stdpp Require Import base list sets strings relations.
From S2P Require Import Prelude Diagnostics Fixes CodeActions ClientConfig Settings MessageQueue Session.
Import Diagnostics ClientConfig Settings MessageQueue Session.

Module SessionProps.

(** The version and text of the object the document manager maps [u] to:
    the document the host has open under [u], as the server sees it. *)
Definition viewLookup (s : Server) (u : string) : option (Z * string) :=
  d ← JSMap.get u (documents s); o ← JSMap.get d (heap s); Some (d_version o, d_text o).

(** ** An interleaving: close and re-open with a validation in flight

    A POSIX workspace [/w] with the default client configuration and
    auto-fix on save; the linter reports a missing semicolon, with its fix,
    in the text ["A"] only. *)

Definition exUri : string := "file:///w/a.js".

Definition exLint (t : string) : list (option Problem) :=
  if decide (t = "A")
  then [Some (mkProblem 1 1 None None 2 (Some "semi") "Missing semicolon." (Some (mkEdit 1 1 (Some ";"))))]
  else [].

Definition exResolve (m : string) (np cwd : option string) : option string :=
  Some "/w/node_modules/standard/index.js".
Definition exRequire (p : string) : Library := mkLibrary p true.
Definition exParse (s : string) : Uri := mkUri "file" "/w/a.js" s.
Definition exDirname (_ : string) : string := "/w".
Definition exIsAbsolute (s : string) : bool := String.prefix "/" s.
Definition exJoin (a b : string) : string := a +:+ "/" +:+ b.

Definition exConfig : StandardConfig :=
  mkStandardConfig None None None (Some true) None None None None None None.
Definition exSynced : option ClientDocument := Some (mkClientDocument (exParse exUri) "javascript").

Local Abbreviation exStep := (step exLint exResolve exRequire exParse exDirname exIsAbsolute exJoin).

Definition tickOr (w : World) : World := default w (tick w).

Ltac host_step c := eapply rtc_l; [apply c; vm_compute; reflexivity|].
Ltac answer_step p :=
  eapply rtc_l; [apply (StepAnswer exLint exResolve exRequire exParse exDirname exIsAbsolute exJoin
                          p exConfig exSynced None NoPackage); vm_compute; reflexivity|].
Ltac micro_step := eapply rtc_l; [apply StepMicrotask; vm_compute; discriminate|].
Ltac tick_step :=
  match goal with
  | |- rtc _ ?c _ =>
      eapply rtc_l; [apply (StepTick exLint exResolve exRequire exParse exDirname exIsAbsolute exJoin
                              c (tickOr c)); vm_compute; reflexivity|]
  end.

(** Open [A] at version 1; the client answers; the change callback queues
    a validation; close; re-open with [B], again at version 1; the queue
    runs the old item, whose object still has version 1; the client
    answers the new settings request; the three callbacks run; the user
    saves, and the will-save callback answers. *)
Definition raceState : World :=
  let mt := runMicrotask exLint in
  let ans p := clientAnswers exResolve exRequire exParse exDirname exIsAbsolute exJoin
                 p exConfig exSynced None NoPackage in
  let w1 := mt (mt (ans 0%nat (hostOpen exUri 1 "A" init))) in
  let w2 := hostOpen exUri 1 "B" (mt (hostClose exUri w1)) in
  let w3 := mt (mt (mt (ans 1%nat (tickOr w2)))) in
  mt (hostWillSave Manual exUri w3).

Lemma raceState_reachable : rtc exStep init raceState.
Proof.
  cbv beta delta [raceState] zeta.
  host_step (StepOpen exLint exResolve exRequire exParse exDirname exIsAbsolute exJoin exUri 1 "A").
  answer_step 0%nat. micro_step. micro_step.
  host_step (StepClose exLint exResolve exRequire exParse exDirname exIsAbsolute exJoin exUri).
  micro_step.
  host_step (StepOpen exLint exResolve exRequire exParse exDirname exIsAbsolute exJoin exUri 1 "B").
  tick_step. answer_step 1%nat. micro_step. micro_step. micro_step.
  host_step (StepWillSave exLint exResolve exRequire exParse exDirname exIsAbsolute exJoin
               Manual exUri).
  micro_step.
  apply rtc_refl.
Qed.

(** C39: The version check of [getFixes] does not tell apart two texts
    that carry the same version.  After a close and a re-open at the same
    version, a validation queued for the closed object runs on the old
    text and records its fixes for the URI.  The will-save handler (auto-fix
    on save, run on type) then answers the open document, whose text [B]
    the linter finds nothing wrong with, with the edit computed for [A]. *)
Theorem reopen_offers_stale_fixes :
  rtc exStep init raceState /\
  viewLookup raceState.2 exUri = Some (1, "B") /\ exLint "B" = [] /\
  last (willSaveResponses raceState.2) = Some (exUri, [CodeActions.mkTextEdit 1 1 ";"]).
Proof.
  split; [apply raceState_reachable|].
  split_and!; vm_compute; reflexivity.
Qed.

End SessionProps.
